(** * connector-userid-ts: the retrieval and cleaning pipeline of [DataAccess]
    and the error policy of [EventsHandler], embedded in Rocq.

    The development follows the TypeScript sources:
    - [connectors/DataAccess.ts]   : [timeToUnix], [formatSensorData],
      [getCleanedTable], [getDeviceDetails], [getDeviceMetaData],
      [getFirstDp], [getDp], [dataQuery], [_influxdb], [getLoadEntities];
    - [connectors/EventsHandler.ts]: [isoUtcTime], [getEventCategories],
      [publishEvent], [getEventsInTimeslot];
    - [utils/constants.ts]         : [MAX_RETRIES], [RETRY_DELAY].

    JavaScript numbers are kept abstract behind the class [JSNumber]; the
    instance [Binary64] (IEEE 754 doubles) is used to run the model. *)

From Stdlib Require Import ZArith String Ascii List Lia Bool SpecFloat.
From stdpp Require Import base tactics option list strings gmap.

Local Open Scope string_scope.
Local Open Scope Z_scope.

(* ===================================================================== *)
(** ** JavaScript numbers *)
(* ===================================================================== *)

(** The operations on [number] that the sources use.  Nothing is assumed
    about them: a statement proved for an arbitrary [JSNumber] holds in
    particular for the doubles below.  Equality of [num] is identity of
    number values: it tells [+0] from [-0], and NaN is a single value. *)
Class JSNumber := {
  num : Type;
  num_eq_dec :: EqDecision num;
  of_Z : Z -> num;                      (* the integer literals of the source *)
  isNaN : num -> bool;
  is_zero : num -> bool;                (* +0 or -0 *)
  JSON_number : num -> option num;      (* the number read back from its JSON
                                           text; None when the text is null *)
  num_mul : num -> num -> num;          (* a * b *)
  num_add : num -> num -> num;          (* a + b *)
  num_lt : num -> num -> bool;          (* a < b *)
  num_le : num -> num -> bool;          (* a <= b *)
  Math_max : num -> num -> num;
  Math_min : num -> num -> num;
  floor_div : num -> num -> num;        (* Math.floor(a / b) *)
  Number_toString : num -> string;      (* String(n) *)
  parseFloat_string : string -> num;    (* parseFloat(s), s a string *)
}.

(** *** IEEE 754 binary64 *)

Definition f64_of_Z (z : Z) : spec_float := binary_normalize 53 1024 z 0 false.

Definition f64_isNaN (a : spec_float) : bool :=
  match a with S754_nan => true | _ => false end.

Definition f64_is_zero (a : spec_float) : bool :=
  match a with S754_zero _ => true | _ => false end.

(** [JSON.parse(JSON.stringify(a))]: [null] for NaN and the infinities, and
    the sign of zero is lost. *)
Definition f64_json (a : spec_float) : option spec_float :=
  match a with
  | S754_nan | S754_infinity _ => None
  | S754_zero _ => Some (S754_zero false)
  | S754_finite _ _ _ => Some a
  end.

(** [Math.max] and [Math.min]: NaN if an argument is NaN; [+0] is larger
    than [-0]. *)
Definition f64_max (a b : spec_float) : spec_float :=
  match SFcompare a b with
  | None => S754_nan
  | Some Lt => b
  | Some Gt => a
  | Some Eq => match a with S754_zero true => b | _ => a end
  end.

Definition f64_min (a b : spec_float) : spec_float :=
  match SFcompare a b with
  | None => S754_nan
  | Some Lt => a
  | Some Gt => b
  | Some Eq => match a with S754_zero false => b | _ => a end
  end.

(** [Math.floor]. *)
Definition f64_floor (a : spec_float) : spec_float :=
  match a with
  | S754_finite s m e =>
      if 0 <=? e then a
      else
        let d := 2 ^ (- e) in
        let q := Z.pos m / d in
        if s then
          binary_normalize 53 1024 (- (if Z.pos m mod d =? 0 then q else q + 1)) 0 true
        else binary_normalize 53 1024 q 0 false
  | _ => a
  end.

Definition f64_floor_div (a b : spec_float) : spec_float :=
  f64_floor (SFdiv 53 1024 a b).

(** **** Number::toString *)

Definition digit_char (d : Z) : ascii := ascii_of_nat (48 + Z.to_nat d).

Fixpoint digits_fuel (fuel : nat) (n : Z) (acc : list ascii) : list ascii :=
  match fuel with
  | O => acc
  | S f =>
      let acc' := digit_char (n mod 10) :: acc in
      if n <? 10 then acc' else digits_fuel f (n / 10) acc'
  end.

(** The digits of a natural number [n], most significant first. *)
Definition digits (n : Z) : list ascii :=
  digits_fuel (S (Z.to_nat (Z.log2 n))) n [].

Fixpoint string_of_chars (l : list ascii) : string :=
  match l with
  | [] => EmptyString
  | c :: l' => String c (string_of_chars l')
  end.

(** The order of [a * 2^ea * 10^pa] and [b * 2^eb * 10^pb]. *)
Definition cmp_scaled (a ea pa b eb pb : Z) : comparison :=
  let e := Z.min ea eb in
  let p := Z.min pa pb in
  (a * 2 ^ (ea - e) * 10 ^ (pa - p)) ?= (b * 2 ^ (eb - e) * 10 ^ (pb - p)).

(** [10^n <= m * 2^e] *)
Definition ge_pow10 (m e n : Z) : bool :=
  match cmp_scaled 1 0 n m e 0 with Gt => false | _ => true end.

Fixpoint adjust_magnitude (fuel : nat) (m e n : Z) : Z :=
  match fuel with
  | O => n
  | S f =>
      if ge_pow10 m e n then adjust_magnitude f m e (n + 1)
      else if ge_pow10 m e (n - 1) then n
      else adjust_magnitude f m e (n - 1)
  end.

(** The [n] with [10^(n-1) <= m * 2^e < 10^n]. *)
Definition magnitude (m e : Z) : Z :=
  adjust_magnitude 8 m e (((Z.log2 m + e) * 30103) / 100000).

(** The decimals that round to [m * 2^e] lie between [low * 2^(e-2)] and
    [high * 2^(e-2)], the ends included when [m] is even. *)
Definition in_interval (low high e : Z) (incl : bool) (s p : Z) : bool :=
  match cmp_scaled low (e - 2) 0 s 0 p with Lt => true | Eq => incl | Gt => false end
  && match cmp_scaled s 0 p high (e - 2) 0 with Lt => true | Eq => incl | Gt => false end.

(** The shortest decimal [s * 10^p] that rounds to [m * 2^e], the closest
    one when several have that length: [k] digits are tried, then [k + 1]. *)
Fixpoint shortest_from (fuel : nat) (k m e low high : Z) (incl : bool) (n : Z)
  : Z * Z :=
  let p := n - k in
  let lo := (m * 2 ^ Z.max e 0 * 10 ^ Z.max (- p) 0)
            / (2 ^ Z.max (- e) 0 * 10 ^ Z.max p 0) in
  let hi := lo + 1 in
  let closest :=
    match cmp_scaled (2 * m) e 0 (2 * lo + 1) 0 p with
    | Lt => lo
    | Gt => hi
    | Eq => if Z.even lo then lo else hi
    end in
  match fuel with
  | O => (closest, p)
  | S f =>
      match in_interval low high e incl lo p, in_interval low high e incl hi p with
      | true, true => (closest, p)
      | true, false => (lo, p)
      | false, true => (hi, p)
      | false, false => shortest_from f (k + 1) m e low high incl n
      end
  end.

Fixpoint strip_tens (fuel : nat) (s p : Z) : Z * Z :=
  match fuel with
  | O => (s, p)
  | S f => if (s mod 10 =? 0) && (0 <? s) then strip_tens f (s / 10) (p + 1) else (s, p)
  end.

(** The digits [s] and the exponent [n] of ECMAScript's Number::toString:
    the number is [0.s * 10^n]. *)
Definition shortest (m : positive) (e : Z) : list ascii * Z :=
  let low :=
    if (Z.pos m =? 2 ^ 52) && (-1074 <? e) then 4 * Z.pos m - 1 else 4 * Z.pos m - 2 in
  let high := 4 * Z.pos m + 2 in
  let '(s, p) :=
    shortest_from 16 1 (Z.pos m) e low high (Z.even (Z.pos m)) (magnitude (Z.pos m) e) in
  let '(s, p) := strip_tens 20 s p in
  let ds := digits s in
  (ds, p + Z.of_nat (length ds)).

Definition zeros (n : Z) : list ascii := repeat "0"%char (Z.to_nat n).

Definition format_number (ds : list ascii) (n : Z) : string :=
  let k := Z.of_nat (length ds) in
  if (k <=? n) && (n <=? 21) then string_of_chars (ds ++ zeros (n - k))
  else if (0 <? n) && (n <=? 21) then
    string_of_chars (firstn (Z.to_nat n) ds ++ "."%char :: skipn (Z.to_nat n) ds)
  else if (-6 <? n) && (n <=? 0) then
    string_of_chars ("0"%char :: "."%char :: zeros (- n) ++ ds)
  else
    let e := n - 1 in
    let exponent := "e"%char :: (if e <? 0 then "-"%char else "+"%char) :: digits (Z.abs e) in
    match ds with
    | d :: (_ :: _) as rest => string_of_chars (d :: "."%char :: rest ++ exponent)
    | _ => string_of_chars (ds ++ exponent)
    end.

Definition f64_toString (a : spec_float) : string :=
  match a with
  | S754_nan => "NaN"
  | S754_zero _ => "0"
  | S754_infinity s => if s then "-Infinity" else "Infinity"
  | S754_finite s m e =>
      let '(ds, n) := shortest m e in
      if s then String "-"%char (format_number ds n) else format_number ds n
  end.

(** **** parseFloat *)

Definition digit_of_char (c : ascii) : option Z :=
  let n := Z.of_nat (nat_of_ascii c) in
  if (48 <=? n) && (n <=? 57) then Some (n - 48) else None.

Fixpoint parse_digits (s : string) (acc : option Z) : option Z :=
  match s with
  | String c s' =>
      match digit_of_char c with
      | Some d => parse_digits s' (Some (10 * default 0 acc + d))
      | None => acc
      end
  | EmptyString => acc
  end.

(** The longest run of digits at the head of [s]: its value after [acc],
    its length, and the rest of [s]. *)
Fixpoint read_digits (s : string) (acc : Z) (count : Z) : Z * Z * string :=
  match s with
  | String c s' =>
      match digit_of_char c with
      | Some d => read_digits s' (10 * acc + d) (count + 1)
      | None => (acc, count, s)
      end
  | EmptyString => (acc, count, s)
  end.

(** White space and line terminators: the ASCII ones, and the others in
    their UTF-8 encoding (U+00A0, U+1680, U+2000 to U+200A, U+2028, U+2029,
    U+202F, U+205F, U+3000, U+FEFF). *)
Definition is_space (c : ascii) : bool :=
  let n := nat_of_ascii c in
  ((9 <=? n) && (n <=? 13))%nat || (n =? 32)%nat.

Definition is_space2 (c1 c2 : ascii) : bool :=
  (nat_of_ascii c1 =? 194)%nat && (nat_of_ascii c2 =? 160)%nat.

Definition is_space3 (c1 c2 c3 : ascii) : bool :=
  let a := nat_of_ascii c1 in
  let b := nat_of_ascii c2 in
  let c := nat_of_ascii c3 in
  ((a =? 225) && (b =? 154) && (c =? 128))%nat
  || ((a =? 226) && (b =? 128)
      && (((128 <=? c) && (c <=? 138)) || (c =? 168) || (c =? 169) || (c =? 175)))%nat
  || ((a =? 226) && (b =? 129) && (c =? 159))%nat
  || ((a =? 227) && (b =? 128) && (c =? 128))%nat
  || ((a =? 239) && (b =? 187) && (c =? 191))%nat.

Fixpoint skip_spaces (s : string) : string :=
  match s with
  | String c1 s1 =>
      if is_space c1 then skip_spaces s1
      else
        match s1 with
        | String c2 s2 =>
            if is_space2 c1 c2 then skip_spaces s2
            else
              match s2 with
              | String c3 s3 => if is_space3 c1 c2 c3 then skip_spaces s3 else s
              | EmptyString => s
              end
        | EmptyString => s
        end
  | EmptyString => s
  end.

(** The double nearest to [m * 10^d], ties to even. *)
Definition f64_of_decimal (sign : bool) (m d : Z) : spec_float :=
  if m =? 0 then S754_zero sign
  else
    let '(q, e, l) :=
      SFdiv_core_binary 53 1024 (m * 10 ^ Z.max d 0) 0 (10 ^ Z.max (- d) 0) 0 in
    binary_round_aux 53 1024 sign q e l.

(** The exponent part [e[+-]digits] at the head of [s], if any. *)
Definition read_exponent (s : string) : Z :=
  match s with
  | String c s' =>
      if Ascii.eqb c "e" || Ascii.eqb c "E" then
        match s' with
        | String "-"%char s'' =>
            let '(x, n, _) := read_digits s'' 0 0 in if 0 <? n then - x else 0
        | String "+"%char s'' =>
            let '(x, n, _) := read_digits s'' 0 0 in x
        | _ => let '(x, n, _) := read_digits s' 0 0 in x
        end
      else 0
  | EmptyString => 0
  end.

Definition read_unsigned (sign : bool) (s : string) : spec_float :=
  if String.prefix "Infinity" s then S754_infinity sign
  else
    let '(i, ni, rest) := read_digits s 0 0 in
    let '(m, nf, rest) :=
      match rest with
      | String "."%char rest' =>
          let '(m, nf, rest'') := read_digits rest' i 0 in
          if (0 <? ni) || (0 <? nf) then (m, nf, rest'') else (i, 0, rest)
      | _ => (i, 0, rest)
      end in
    if (ni + nf =? 0) then S754_nan
    else f64_of_decimal sign m (read_exponent rest - nf).

(** [parseFloat(s)]: leading white space, an optional sign, then the longest
    prefix that is a decimal literal; NaN when there is none. *)
Definition f64_parseFloat (s : string) : spec_float :=
  match skip_spaces s with
  | String "-"%char s' => read_unsigned true s'
  | String "+"%char s' => read_unsigned false s'
  | s' => read_unsigned false s'
  end.

#[global] Instance f64_eq_dec : EqDecision spec_float.
Proof. solve_decision. Defined.

#[global] Instance Binary64 : JSNumber := {|
  num := spec_float;
  of_Z := f64_of_Z;
  isNaN := f64_isNaN;
  is_zero := f64_is_zero;
  JSON_number := f64_json;
  num_mul := SFmul 53 1024;
  num_add := SFadd 53 1024;
  num_lt := SFltb;
  num_le := SFleb;
  Math_max := f64_max;
  Math_min := f64_min;
  floor_div := f64_floor_div;
  Number_toString := f64_toString;
  parseFloat_string := f64_parseFloat;
|}.

(** The double nearest to the integer [z]. *)
Definition Int (z : Z) : spec_float := f64_of_Z z.

(* ===================================================================== *)
(** ** Errors *)
(* ===================================================================== *)

Inductive error :=
| Error (msg : string)       (* [throw new Error(msg)] in the sources *)
| TypeError (msg : string)   (* raised by the runtime *)
| AxiosError (status : option Z).
    (* a rejected axios call; the status of [error.response], if any *)

Inductive result (A : Type) :=
| Ok (a : A)
| Throw (e : error).
Arguments Ok {A} a.
Arguments Throw {A} e.

(** The built-ins that depend on the host: the date parser and the clock.
    [Date_parse s] is [new Date(s).getTime()], NaN for an invalid date. *)
Class Host `{JSNumber} := {
  Date_parse : string -> num;
  Date_now : num;
  Date_toISOString : num -> string;
}.

(* ===================================================================== *)
(** ** Values and objects *)
(* ===================================================================== *)

(** The members that a plain object inherits from [Object.prototype]:
    eleven functions, and the accessor [__proto__], which reads as the
    prototype object itself. *)
Inductive builtin :=
| b_constructor
| b_defineGetter
| b_defineSetter
| b_hasOwnProperty
| b_lookupGetter
| b_lookupSetter
| b_isPrototypeOf
| b_propertyIsEnumerable
| b_toString
| b_valueOf
| b_proto
| b_toLocaleString.

#[global] Instance builtin_eq_dec : EqDecision builtin.
Proof. solve_decision. Defined.

Definition builtin_name (b : builtin) : string :=
  match b with
  | b_constructor => "constructor"
  | b_defineGetter => "__defineGetter__"
  | b_defineSetter => "__defineSetter__"
  | b_hasOwnProperty => "hasOwnProperty"
  | b_lookupGetter => "__lookupGetter__"
  | b_lookupSetter => "__lookupSetter__"
  | b_isPrototypeOf => "isPrototypeOf"
  | b_propertyIsEnumerable => "propertyIsEnumerable"
  | b_toString => "toString"
  | b_valueOf => "valueOf"
  | b_proto => "__proto__"
  | b_toLocaleString => "toLocaleString"
  end.

Definition builtins : list builtin :=
  [b_constructor; b_defineGetter; b_defineSetter; b_hasOwnProperty;
   b_lookupGetter; b_lookupSetter; b_isPrototypeOf; b_propertyIsEnumerable;
   b_toString; b_valueOf; b_proto; b_toLocaleString].

(** The member of [Object.prototype] called [k], if there is one. *)
Definition inherited (k : string) : option builtin :=
  List.find (fun b => String.eqb (builtin_name b) k) builtins.

(** [String(b)], which is also the property key that [b] stands for: the
    text of a native function as Node.js prints it; the prototype object
    prints as every plain object does. *)
Definition builtin_text (b : builtin) : string :=
  match b with
  | b_proto => "[object Object]"
  | b_constructor => "function Object() { [native code] }"
  | _ => "function " ++ builtin_name b ++ "() { [native code] }"
  end.

(** What [o[k]] finds on a plain object: an own property, else a member
    inherited from [Object.prototype], else nothing ([undefined]). *)
Inductive member (A : Type) :=
| Own (a : A)
| Inherited (b : builtin)
| Absent.
Arguments Own {A} a.
Arguments Inherited {A} b.
Arguments Absent {A}.

(** [o[k]] where [m] holds the own properties of the plain object [o]. *)
Definition plain_get {A : Type} (m : gmap string A) (k : string) : member A :=
  match m !! k with
  | Some a => Own a
  | None =>
      match inherited k with
      | Some b => Inherited b
      | None => Absent
      end
  end.

Section Values.
Context {N : JSNumber}.

(** The primitive values held by the fields of a row. *)
Inductive prim :=
| VUndef
| VNull
| VBool (b : bool)
| VNum (n : num)
| VStr (s : string).

#[global] Instance prim_eq_dec : EqDecision prim.
Proof. solve_decision. Defined.

(** ToBoolean. *)
Definition truthy (v : prim) : bool :=
  match v with
  | VUndef | VNull => false
  | VBool b => b
  | VNum n => negb (is_zero n || isNaN n)
  | VStr s => negb (String.eqb s "")
  end.

(** [a || b]. *)
Definition js_or (a b : prim) : prim := if truthy a then a else b.

(** ToString, also used for property keys. *)
Definition ToString (v : prim) : string :=
  match v with
  | VUndef => "undefined"
  | VNull => "null"
  | VBool true => "true"
  | VBool false => "false"
  | VNum n => Number_toString n
  | VStr s => s
  end.

(** [parseFloat(v)]: the argument is first converted to a string. *)
Definition parseFloat (v : prim) : num := parseFloat_string (ToString v).

(** [list.includes(v)] for a list of strings. *)
Definition includes (l : list string) (v : prim) : bool :=
  match v with
  | VStr s => bool_decide (s ∈ l)
  | _ => false
  end.

(** A flat object: its own properties in insertion order, keys distinct. *)
Definition obj : Type := list (string * prim).

(** [o[k]], [undefined] when the property is absent. *)
Fixpoint obj_get (o : obj) (k : string) : prim :=
  match o with
  | [] => VUndef
  | (k', v) :: o' => if String.eqb k' k then v else obj_get o' k
  end.

(** [o[k] = v]: an existing property keeps its place, a new one goes last. *)
Fixpoint obj_set (k : string) (v : prim) (o : obj) : obj :=
  match o with
  | [] => [(k, v)]
  | (k', v') :: o' =>
      if String.eqb k' k then (k, v) :: o' else (k', v') :: obj_set k v o'
  end.

(** [delete o[k]]. *)
Definition obj_delete (k : string) (o : obj) : obj :=
  filter (fun p => p.1 <> k) o.

(** Array-index keys (canonical numerals below 2^32 - 1) are enumerated
    first, in ascending order, whatever their insertion order. *)
Definition array_index (k : string) : option Z :=
  match k with
  | EmptyString => None
  | String c rest =>
      if Ascii.eqb c "0"%char && negb (String.eqb rest "") then None
      else if forallb (fun c => bool_decide (is_Some (digit_of_char c)))
                (list_ascii_of_string k)
      then match parse_digits k None with
           | Some i => if i <? 2 ^ 32 - 1 then Some i else None
           | None => None
           end
      else None
  end.

Fixpoint insert_index (i : Z) (k : string) (l : list (Z * string)) : list (Z * string) :=
  match l with
  | [] => [(i, k)]
  | (j, k') :: l' =>
      if i <=? j then (i, k) :: l else (j, k') :: insert_index i k l'
  end.

Definition index_keys (ks : list string) : list (Z * string) :=
  foldr (fun k acc => match array_index k with
                      | Some i => insert_index i k acc
                      | None => acc
                      end) [] ks.

(** [Object.keys(o)]. *)
Definition own_keys (o : obj) : list string :=
  let ks := map fst o in
  map snd (index_keys ks) ++ filter (fun k => array_index k = None) ks.

(** [{ ...o }]. *)
Definition spread (o : obj) : obj :=
  map (fun k => (k, obj_get o k)) (own_keys o).

(** [JSON.parse(JSON.stringify(o))] on a flat object: properties holding
    [undefined] are dropped, numbers without a JSON text become [null]. *)
Definition json_value (v : prim) : option prim :=
  match v with
  | VUndef => None
  | VNum n => Some (from_option VNum VNull (JSON_number n))
  | _ => Some v
  end.

Definition json_copy (o : obj) : obj :=
  omap (fun k => pair k <$> json_value (obj_get o k)) (own_keys o).

(** [o[k] = v] for a primitive [v] on a plain object: the first component
    holds the own properties, the second tells whether [Object.prototype]
    is still the prototype.  An own property is overwritten in place and a
    new one goes last.  The one inherited member with a setter is
    [__proto__]: given [null] it removes the prototype, and it ignores every
    other primitive; no property is created. *)
Definition js_assign (k : string) (v : prim) (o : obj * bool) : obj * bool :=
  if o.2 && String.eqb k "__proto__" && negb (bool_decide (k ∈ map fst o.1))
  then (o.1, negb (bool_decide (v = VNull)))
  else (obj_set k v o.1, o.2).

(** The element that [set.add(v)] stores: [-0] is stored as [+0].  Two
    values are the same element of a [Set] when they are stored as equal
    elements. *)
Definition set_element (v : prim) : prim :=
  match v with
  | VNum n => if is_zero n then VNum (of_Z 0) else v
  | _ => v
  end.

(** [a === b]: as in a [Set], except that NaN is not equal to itself. *)
Definition strict_eq (a b : prim) : bool :=
  match a with
  | VNum n => negb (isNaN n) && bool_decide (set_element a = set_element b)
  | _ => bool_decide (a = b)
  end.

End Values.

(* ===================================================================== *)
(** ** DataAccess.ts: the time normalizer and the cleaning pipeline *)
(* ===================================================================== *)

(** The argument of [timeToUnix]: [string | number | Date | null]; a [Date]
    is represented by its time value (NaN for an invalid date). *)
Inductive TimeArg `{JSNumber} :=
| TimeNull
| TimeNumber (t : num)
| TimeString (s : string)
| TimeDate (t : num)
| TimeOther.

Record SensorInfo := { sensorId : string; sensorName : string }.

Record Param `{JSNumber} := { paramName : string; paramValue : prim }.

(** The fields of [DeviceMetadata] that the pipeline reads. *)
Record DeviceMetadata `{JSNumber} := {
  sensors : option (list SensorInfo);
  params : option (gmap string (list Param));
}.

Record CleanedTableOptions `{JSNumber} := {
  cto_data : list obj;
  cto_alias : bool;
  cto_cal : bool;
  cto_deviceId : option string;      (* None: absent or [false] *)
  cto_sensorList : option (list string);
  cto_unix : bool;
  cto_metadata : option DeviceMetadata;
  cto_pivotTable : bool;
}.

(** Calibration parameters gathered from a sensor's parameter list. *)
Record calib `{JSNumber} := {
  cal_m : num;
  cal_c : num;
  cal_min : option num;
  cal_max : option num;
}.

(** A raw entry handed to [formatSensorData]: an array of points, a single
    point, or anything else. *)
Inductive raw `{JSNumber} :=
| RawArray (points : list obj)
| RawPoint (point : obj)
| RawOther.

(** [new Set(l)] built by successive [add]: an element already present is
    not added again. *)
Definition add_seen {A} `{EqDecision A} (seen : list A) (x : A) : list A :=
  if bool_decide (x ∈ seen) then seen else (seen ++ [x])%list.

(** [[...new Set(l)]] *)
Definition distinct {A} `{EqDecision A} (l : list A) : list A :=
  fold_left add_seen l [].

(** A row as [getCleanedTable] returns it: its own properties, which hold
    primitives, with one exception.  The alias stage can store a member of
    [Object.prototype] in the property [sensor]; [sensor_builtin] then names
    that member, and the primitive kept under [sensor] in [fields] is the
    one that the member replaced. *)
Record out_row `{JSNumber} := { fields : obj; sensor_builtin : option builtin }.

(** The outcome of looking a key up in [aliasMap]. *)
Inductive alias :=
| NoAlias                          (* [undefined] or the empty string *)
| AliasName (name : string)
| AliasBuiltin (b : builtin).

(** [l.map(f)] for an [f] that can throw: the first throw ends the map. *)
Fixpoint map_result {A B : Type} (f : A -> result B) (l : list A) : result (list B) :=
  match l with
  | [] => Ok []
  | a :: rest =>
      match f a with
      | Ok b =>
          match map_result f rest with
          | Ok rest' => Ok (b :: rest')
          | Throw e => Throw e
          end
      | Throw e => Throw e
      end
  end.

Section Cleaning.
Context {N : JSNumber} {H : Host}.

Definition plain (o : obj) : out_row := {| fields := o; sensor_builtin := None |}.

Definition msg_not_millis : string :=
  "Unix timestamp must be a positive integer in milliseconds, not seconds.".

Definition timeToUnix (time : TimeArg) : result num :=
  match time with
  | TimeNull => Ok Date_now
  | TimeNumber t =>
      if num_le t (of_Z 0) || (String.length (Number_toString t) <=? 10)%nat
      then Throw (Error msg_not_millis)
      else Ok t
  | TimeString s =>
      let t := Date_parse s in
      if isNaN t then Throw (Error ("Invalid date string: " ++ s))
      else Ok t
  | TimeDate t => Ok t
  | TimeOther =>
      Throw (Error "Time must be a string, number, Date object, or null")
  end.

(** A field of a row seen as an argument of [timeToUnix]. *)
Definition time_arg (v : prim) : TimeArg :=
  match v with
  | VUndef | VNull => TimeNull
  | VNum n => TimeNumber n
  | VStr s => TimeString s
  | VBool _ => TimeOther
  end.

Definition format_point (p : obj) : obj :=
  [("time", js_or (obj_get p "time") (VStr ""));
   ("sensor", js_or (obj_get p "sensor") (VStr ""));
   ("value", js_or (obj_get p "value") VNull)].

Definition formatSensorData (data : list raw) : list obj :=
  fold_left
    (fun result sensorData =>
       match sensorData with
       | RawArray points => fold_left (fun r p => (r ++ [format_point p])%list) points result
       | RawPoint sd =>
           if truthy (obj_get sd "time") && truthy (obj_get sd "sensor")
           then (result ++ [format_point sd])%list
           else result
       | RawOther => result
       end)
    data [].

(** *** Stage 1 and 2: filters *)

Definition filter_sensors (sensorList : list string) (rows : list obj) : list obj :=
  filter (fun row => includes sensorList (obj_get row "sensor")
                     || includes sensorList (obj_get row "sensorId") = true) rows.

Definition filter_device (deviceId : string) (rows : list obj) : list obj :=
  filter (fun row => obj_get row "deviceId" = VStr deviceId) rows.

(** *** Stage 3: calibration *)

Definition calib_default : calib :=
  {| cal_m := of_Z 1; cal_c := of_Z 0; cal_min := None; cal_max := None |}.

(** [x || d] on numbers. *)
Definition num_or (x d : num) : num := if is_zero x || isNaN x then d else x.

(** One turn of the loop over the sensor's parameters. *)
Definition read_param (acc : calib) (param : Param) : calib :=
  if String.eqb (paramName param) "m" then
    {| cal_m := num_or (parseFloat (paramValue param)) (of_Z 1);
       cal_c := cal_c acc; cal_min := cal_min acc; cal_max := cal_max acc |}
  else if String.eqb (paramName param) "c" then
    {| cal_m := cal_m acc;
       cal_c := num_or (parseFloat (paramValue param)) (of_Z 0);
       cal_min := cal_min acc; cal_max := cal_max acc |}
  else if String.eqb (paramName param) "min" then
    {| cal_m := cal_m acc; cal_c := cal_c acc;
       cal_min := Some (parseFloat (paramValue param)); cal_max := cal_max acc |}
  else if String.eqb (paramName param) "max" then
    {| cal_m := cal_m acc; cal_c := cal_c acc;
       cal_min := cal_min acc; cal_max := Some (parseFloat (paramValue param)) |}
  else acc.

Definition read_params (sensorParams : list Param) : calib :=
  fold_left read_param sensorParams calib_default.

(** [if (bound !== null && !isNaN(bound)) v = f(v, bound)]. *)
Definition clamp (f : num -> num -> num) (bound : option num) (v : num) : num :=
  match bound with
  | Some b => if isNaN b then v else f v b
  | None => v
  end.

Definition calibrated_value (cp : calib) (rawValue : num) : num :=
  clamp Math_min (cal_max cp)
    (clamp Math_max (cal_min cp)
       (num_add (num_mul (cal_m cp) rawValue) (cal_c cp))).

(** [metadata.params[row.sensor]], looked up when [row.sensor] and
    [metadata.params] are truthy.  [params] is a plain object: for a sensor
    named like a member of [Object.prototype] and without an entry of its
    own, the lookup yields that member. *)
Definition sensor_params (metadata : DeviceMetadata) (row : obj) : member (list Param) :=
  if truthy (obj_get row "sensor") then
    match params metadata with
    | Some ps => plain_get ps (ToString (obj_get row "sensor"))
    | None => Absent
    end
  else Absent.

(** The TypeError of [for (const param of sensorParams)] on a value that is
    not iterable. *)
Definition msg_not_iterable : string := "sensorParams is not iterable".

Definition calibrate_row (metadata : DeviceMetadata) (row : obj) : result obj :=
  match sensor_params metadata row with
  | Own sensorParams =>
      let cp := read_params sensorParams in
      match obj_get row "value" with
      | VNull | VUndef => Ok row
      | value =>
          let rawValue := parseFloat value in
          if isNaN rawValue then Ok row
          else Ok (obj_set "value" (VNum (calibrated_value cp rawValue)) row)
      end
  | Inherited _ => Throw (TypeError msg_not_iterable)
  | Absent => Ok row
  end.

Definition calibrate (metadata : DeviceMetadata) (rows : list obj) : result (list obj) :=
  map_result (calibrate_row metadata) rows.

(** *** Stage 4: unix timestamps *)

Definition unix_row (row : obj) : result obj :=
  if truthy (obj_get row "timestamp") then
    match timeToUnix (time_arg (obj_get row "timestamp")) with
    | Ok t => Ok (obj_set "timestamp" (VNum t) row)
    | Throw e => Throw e
    end
  else if truthy (obj_get row "time") then
    match timeToUnix (time_arg (obj_get row "time")) with
    | Ok t => Ok (obj_set "time" (VNum t) row)
    | Throw e => Throw e
    end
  else Ok row.

Fixpoint unix_rows (rows : list obj) : result (list obj) :=
  match rows with
  | [] => Ok []
  | row :: rest =>
      match unix_row row with
      | Ok row' =>
          match unix_rows rest with
          | Ok rest' => Ok (row' :: rest')
          | Throw e => Throw e
          end
      | Throw e => Throw e
      end
  end.

(** *** Stage 5: aliases *)

(** The own properties of [aliasMap] after the loop over
    [metadata.sensors].  [aliasMap] is a plain object and the names are
    strings: the assignment [aliasMap["__proto__"] = name] reaches the
    setter of [Object.prototype], which ignores a string. *)
Definition build_aliasMap (metadata : DeviceMetadata) : gmap string string :=
  match sensors metadata with
  | Some l =>
      fold_left
        (fun m s =>
           if String.eqb (sensorId s) "__proto__" then m
           else <[sensorId s := sensorName s]> m)
        l ∅
  | None => ∅
  end.

(** [aliasMap[k]] when it is truthy. *)
Definition alias_of (aliasMap : gmap string string) (k : string) : alias :=
  match plain_get aliasMap k with
  | Own name => if String.eqb name "" then NoAlias else AliasName name
  | Inherited b => AliasBuiltin b
  | Absent => NoAlias
  end.

(** The property key that an alias stands for. *)
Definition alias_key (a : alias) : string :=
  match a with
  | NoAlias => ""
  | AliasName name => name
  | AliasBuiltin b => builtin_text b
  end.

Definition reserved (key : string) : bool :=
  String.eqb key "sensor" || String.eqb key "time" || String.eqb key "timestamp".

(** [newRow] while the stage builds it: its own properties, the member of
    [Object.prototype] held by [sensor], if any, and whether
    [Object.prototype] is still its prototype. *)
Record new_row := {
  nr_fields : obj;
  nr_sensor : option builtin;
  nr_proto : bool;
}.

(** [newRow[k] = v] for a primitive [v]. *)
Definition assign_new (k : string) (v : prim) (r : new_row) : new_row :=
  let o := js_assign k v (nr_fields r, nr_proto r) in
  {| nr_fields := o.1;
     nr_sensor := if String.eqb k "sensor" then None else nr_sensor r;
     nr_proto := o.2 |}.

(** [delete newRow[k]] for a [k] other than [sensor]. *)
Definition delete_new (k : string) (r : new_row) : new_row :=
  {| nr_fields := obj_delete k (nr_fields r);
     nr_sensor := nr_sensor r;
     nr_proto := nr_proto r |}.

Definition alias_row (aliasMap : gmap string string) (row : obj) : out_row :=
  let newRow := {| nr_fields := spread row; nr_sensor := None; nr_proto := true |} in
  let newRow :=
    if truthy (obj_get row "sensor") then
      match alias_of aliasMap (ToString (obj_get row "sensor")) with
      | NoAlias => newRow
      | AliasName name => assign_new "sensor" (VStr name) newRow
      | AliasBuiltin b =>
          {| nr_fields := nr_fields newRow; nr_sensor := Some b;
             nr_proto := nr_proto newRow |}
      end
    else newRow in
  let newRow :=
    fold_left
      (fun newRow key =>
         if reserved key then newRow
         else match alias_of aliasMap key with
              | NoAlias => newRow
              | a => delete_new key (assign_new (alias_key a) (obj_get row key) newRow)
              end)
      (own_keys row) newRow in
  {| fields := nr_fields newRow; sensor_builtin := nr_sensor newRow |}.

Definition apply_alias (metadata : DeviceMetadata) (rows : list obj) : list out_row :=
  map (alias_row (build_aliasMap metadata)) rows.

(** *** Stage 6: pivot *)

(** [row.timestamp || row.time]. *)
Definition group_key (row : obj) : prim :=
  js_or (obj_get row "timestamp") (obj_get row "time").

(** [String(row.sensor)] when [row.sensor] is truthy: the key of the column
    that the row reports to. *)
Definition sensor_key (row : out_row) : option string :=
  match sensor_builtin row with
  | Some b => Some (builtin_text b)
  | None =>
      if truthy (obj_get (fields row) "sensor")
      then Some (ToString (obj_get (fields row) "sensor"))
      else None
  end.

(** One turn of [rowsAtTimestamp.forEach]; [pivotedRow] is a plain object. *)
Definition pivot_add (pivotedRow : obj * bool) (row : out_row) : obj * bool :=
  match sensor_key row with
  | Some key =>
      if bool_decide (obj_get (fields row) "value" <> VUndef)
      then js_assign key (obj_get (fields row) "value") pivotedRow
      else pivotedRow
  | None => pivotedRow
  end.

Definition pivot_row (rows : list out_row) (timestamp : prim) : obj :=
  (fold_left pivot_add
     (filter (fun row => strict_eq (group_key (fields row)) timestamp = true) rows)
     ([("timestamp", timestamp)], true)).1.

Definition pivot (rows : list out_row) : list obj :=
  map (pivot_row rows)
    (distinct (map (fun row => set_element (group_key (fields row))) rows)).

(** *** The whole pipeline *)

Definition getCleanedTable (options : CleanedTableOptions) : result (list out_row) :=
  let cleanedData := map json_copy (cto_data options) in
  let cleanedData :=
    match cto_sensorList options with
    | Some (s :: l) => filter_sensors (s :: l) cleanedData
    | _ => cleanedData
    end in
  let cleanedData :=
    match cto_deviceId options with
    | Some d => if String.eqb d "" then cleanedData else filter_device d cleanedData
    | None => cleanedData
    end in
  match (match cto_cal options, cto_metadata options with
         | true, Some metadata => calibrate metadata cleanedData
         | _, _ => Ok cleanedData
         end) with
  | Throw e => Throw e
  | Ok cleanedData =>
      match (if cto_unix options then unix_rows cleanedData else Ok cleanedData) with
      | Throw e => Throw e
      | Ok cleanedData =>
          let cleanedData :=
            match cto_alias options, cto_metadata options with
            | true, Some metadata => apply_alias metadata cleanedData
            | _, _ => map plain cleanedData
            end in
          if cto_pivotTable options then Ok (map plain (pivot cleanedData))
          else Ok cleanedData
      end
  end.

End Cleaning.

(* ===================================================================== *)
(** ** Effects: requests, sleeps and exceptions *)
(* ===================================================================== *)

(** [utils/constants.ts] *)
Definition MAX_RETRIES : Z := 15.
Definition RETRY_DELAY : Z * Z := (2, 4).

(** Local constants of [_influxdb]. *)
Definition MAX_RETRIES_INFLUX : Z := 8.
Definition RETRY_DELAY_INFLUX : Z * Z := (2000, 10000).   (* ms *)
Definition CURSOR_LIMIT : Z := 1000.

Record Config := { userId : string; dataUrl : string; cfg_onPrem : bool }.

Definition protocol (onPrem : bool) : string := if onPrem then "http" else "https".

(** A URL template [{protocol}://{data_url}<path>] with both holes filled. *)
Definition make_url (onPrem : bool) (cfg : Config) (path : string) : string :=
  protocol onPrem ++ "://" ++ dataUrl cfg ++ path.

Record DeviceDetail := { devID : string; devTypeID : string }.
Record LoadEntity := { le_id : string; le_name : string }.
Record EventCategory := { ec_id : string; ec_name : string }.

(** What [response.data.data] of the device list holds. *)
Inductive devices :=
| DevArray (l : list DeviceDetail)
| DevOther.                               (* [{}] or any other non-array *)

(** [CursorInfo] of [getDp] and [CursorData] of [_influxdb]. *)
Record CursorInfo `{JSNumber} := { c_end : prim; c_limit : prim }.
Record CursorData `{JSNumber} := { c_start : prim; cd_end : prim }.

(** Response bodies, field by field as the code reads them.  A cursor that
    is [null] or absent is [None]. *)
Record FirstDpBody `{JSNumber} := {
  fd_success : prim;
  fd_first : list raw;                    (* the values of [responseData[0]] *)
}.
Record DpBody `{JSNumber} := {
  dp_success : prim;
  dp_data : option (list raw);            (* None: falsy *)
  dp_cursor : option CursorInfo;
}.
Record InfluxBody `{JSNumber} := {
  ix_success : prim;
  ix_data : option (list obj);            (* None: not an array *)
  ix_cursor : option CursorData;
}.
Record LoadBody `{JSNumber} := {
  lb_error : prim;
  lb_data : option (list LoadEntity);     (* None: not iterable *)
  lb_totalCount : option num;             (* None: not a number *)
}.

Record PublishPayload := {
  pp_title : option string;
  pp_message : string;
  pp_metaData : string;
  pp_eventTags : list string;
  pp_hoverData : string;
  pp_createdOn : option string;
}.

Inductive request `{JSNumber} :=
| ReqDeviceDetails (url : string)
| ReqDeviceMetaData (url : string)
| ReqFirstDp (url device sensor : string) (time : num)
| ReqDp (url device sensor : string) (eTime lim : prim)
| ReqInflux (url device sensor : string) (sTime eTime : prim) (limit : Z)
| ReqLoadEntities (requestUrl : string)
| ReqEventCategories (url : string)
| ReqPublishEvent (url : string) (payload : PublishPayload)
| ReqEventsInTimeslot (url startTime endTime : string).

(** The answer to one axios call: the promise is rejected, or it resolves
    with a body. *)
Inductive http (A : Type) :=
| Rejected (status : option Z)
| Responded (status : Z) (body : A).
Arguments Rejected {A} status.
Arguments Responded {A} status body.

(** The axios response object. *)
Record response (A : Type) := { status : Z; data : A }.
Arguments status {A} r.
Arguments data {A} r.

(** The remote platform.  Each endpoint answers the [k]-th request of a run
    (counted over all endpoints) as a function of [k] and of the request. *)
Record World `{JSNumber} := {
  srv_devices : nat -> request -> http (option devices);
  srv_metadata : nat -> request -> http (option DeviceMetadata);
  srv_firstDp : nat -> request -> http FirstDpBody;
  srv_dp : nat -> request -> http DpBody;
  srv_influx : nat -> request -> http InfluxBody;
  srv_load : nat -> request -> http LoadBody;
  srv_categories : nat -> request -> http (option (list EventCategory));
  srv_publish : nat -> request -> http prim;
  srv_timeslot : nat -> request -> http (option (list obj));
}.

Inductive event `{JSNumber} :=
| EvRequest (r : request)
| EvSleep (ms : Z).                       (* [_sleep(ms)]: setTimeout(_, ms) *)

Inductive outcome (A : Type) :=
| Return (a : A)
| Raise (e : error)
| OutOfFuel.                              (* the loop bound of the model *)
Arguments Return {A} a.
Arguments Raise {A} e.
Arguments OutOfFuel {A}.

Section Effects.
Context {N : JSNumber} {H : Host}.

(** The trace of a run, oldest event first. *)
Definition trace : Type := list event.

Definition M (A : Type) : Type := trace -> outcome A * trace.

Definition ret {A} (a : A) : M A := fun t => (Return a, t).
Definition raise {A} (e : error) : M A := fun t => (Raise e, t).
Definition out_of_fuel {A} : M A := fun t => (OutOfFuel, t).

Definition bind {A B} (c : M A) (k : A -> M B) : M B :=
  fun t =>
    match c t with
    | (Return a, t') => k a t'
    | (Raise e, t') => (Raise e, t')
    | (OutOfFuel, t') => (OutOfFuel, t')
    end.

(** [try { c } catch (e) { handler e }]. *)
Definition try_catch {A} (c : M A) (handler : error -> M A) : M A :=
  fun t =>
    match c t with
    | (Raise e, t') => handler e t'
    | r => r
    end.

(** A [try] block whose [catch] goes on with the variables of the loop. *)
Definition attempt {A} (c : M A) : M (A + error) :=
  try_catch (bind c (fun a => ret (inl a))) (fun e => ret (inr e)).

Definition lift {A} (r : result A) : M A :=
  match r with
  | Ok a => ret a
  | Throw e => raise e
  end.

(** The number of requests issued so far. *)
Definition is_request (ev : event) : bool :=
  match ev with EvRequest _ => true | EvSleep _ => false end.

Definition requests (t : trace) : nat := length (List.filter is_request t).

Definition sleeps (t : trace) : list Z :=
  omap (fun ev => match ev with EvSleep ms => Some ms | _ => None end) t.

(** [await axios.get/put/post]: the request is recorded and answered. *)
Definition axios {A} (answer : nat -> request -> http A) (r : request)
  : M (response A) :=
  fun t =>
    match answer (requests t) r with
    | Rejected st => (Raise (AxiosError st), (t ++ [EvRequest r])%list)
    | Responded st body =>
        (Return {| status := st; data := body |}, (t ++ [EvRequest r])%list)
    end.

Definition _sleep (ms : Z) : M unit := fun t => (Return tt, (t ++ [EvSleep ms])%list).

End Effects.

Notation "'let*' x ':=' c 'in' k" := (bind c (fun x => k))
  (at level 10, x name, c at level 100, k at level 200).
Notation "'let*' ' p ':=' c 'in' k" := (bind c (fun x => match x with p => k end))
  (at level 10, p pattern, c at level 100, k at level 200).

(* ===================================================================== *)
(** ** DataAccess.ts: the orchestrators *)
(* ===================================================================== *)

(** The option records hold the values after destructuring, defaults
    applied; [sensorList = None] is [null]. *)
Record GetFirstDpOptions `{JSNumber} := {
  fo_deviceId : string;
  fo_sensorList : option (list string);
  fo_cal : bool;
  fo_startTime : TimeArg;
  fo_n : num;
  fo_alias : bool;
  fo_unix : bool;
  fo_onPrem : option bool;
}.

Record GetDpOptions `{JSNumber} := {
  go_deviceId : string;
  go_sensorList : option (list string);
  go_n : num;
  go_cal : bool;
  go_endTime : TimeArg;
  go_alias : bool;
  go_unix : bool;
  go_onPrem : option bool;
}.

Record DataQueryOptions `{JSNumber} := {
  dq_deviceId : string;
  dq_sensorList : option (list string);
  dq_startTime : TimeArg;
  dq_endTime : TimeArg;
  dq_cal : bool;
  dq_alias : bool;
  dq_unix : bool;
  dq_onPrem : option bool;
}.

Record InfluxDbOptions `{JSNumber} := {
  io_deviceId : string;
  io_startTime : num;
  io_endTime : num;
  io_alias : bool;
  io_cal : bool;
  io_unix : bool;
  io_sensorList : list string;
  io_metadata : option DeviceMetadata;
  io_onPrem : option bool;
}.

Record GetLoadEntitiesOptions := {
  lo_onPrem : option bool;
  lo_clusters : option (list string);
}.

Definition dquote : string := String (ascii_of_nat 34) "".

Definition Z_toString (z : Z) : string := f64_toString (f64_of_Z z).

Section DataAccess.
Context {N : JSNumber} {H : Host}.
Variable W : World.
Variable cfg : Config.

(** [errorMessage(response, url)], the response given by its status. *)
Definition errorMessage (response : option Z) (url : string) : string :=
  match response with
  | None => "URL: " ++ url
  | Some st =>
      "Status: " ++ (if st =? 0 then "unknown" else Z_toString st) ++ ", URL: " ++ url
  end.

Definition msg_missing_data : string :=
  "Missing " ++ dquote ++ "data" ++ dquote ++ " in response".

(** The console output of the sources is not part of the model. *)
Definition getDeviceDetails (onPrem : bool) : M devices :=
  let url := make_url onPrem cfg "/api/metaData/allDevices" in
  try_catch
    (let* response := axios (srv_devices W) (ReqDeviceDetails url) in
     match data response with
     | Some d => ret d
     | None => raise (Error msg_missing_data)
     end)
    (fun _ => ret DevOther).

(** The result is [None] for [{}] and for any payload without a [sensors]
    key. *)
Definition getDeviceMetaData (deviceID : string) (onPrem : bool) : M (option DeviceMetadata) :=
  let url := make_url onPrem cfg ("/api/metaData/device/" ++ deviceID) in
  try_catch
    (let* response := axios (srv_metadata W) (ReqDeviceMetaData url) in
     match data response with
     | Some d => ret (Some d)
     | None => raise (Error msg_missing_data)
     end)
    (fun _ => ret None).

(** The device check shared by the three point queries; [verb] is the
    wording of the message ("added" or "found"). *)
Definition check_device (deviceId : string) (useOnPrem : bool) (verb : string) : M unit :=
  let* devices := getDeviceDetails useOnPrem in
  match devices with
  | DevArray l =>
      if bool_decide (deviceId ∈ map devID l) then ret tt
      else raise (Error ("Device " ++ deviceId ++ " not " ++ verb ++ " in account"))
  | DevOther => raise (Error "Failed to fetch device details")
  end.

(** The resolution of the sensor list, also shared; [msg] is the message
    raised when the metadata lists no sensor. *)
Definition resolve_sensors (deviceId : string) (useOnPrem : bool)
    (sensorList : option (list string)) (msg : string)
  : M (option DeviceMetadata * list string) :=
  match sensorList with
  | Some l => ret (None, l)
  | None =>
      let* metadataResult := getDeviceMetaData deviceId useOnPrem in
      match metadataResult with
      | Some metadata =>
          let finalSensorList :=
            match sensors metadata with
            | Some l => map sensorId l
            | None => []
            end in
          match finalSensorList with
          | [] => raise (Error msg)
          | _ => ret (Some metadata, finalSensorList)
          end
      | None => raise (Error "Failed to fetch device metadata")
      end
  end.

Definition join (l : list string) : string := String.concat "," l.

Definition getFirstDp_body (options : GetFirstDpOptions) : M (list out_row) :=
  if num_lt (fo_n options) (of_Z 1) then raise (Error "Parameter 'n' must be ≥ 1")
  else
    let useOnPrem := default (cfg_onPrem cfg) (fo_onPrem options) in
    let url := make_url useOnPrem cfg "/api/apiLayer/getMultipleSensorsDPAfter" in
    let* _ := check_device (fo_deviceId options) useOnPrem "added" in
    let* ' (metadata, finalSensorList) :=
      resolve_sensors (fo_deviceId options) useOnPrem (fo_sensorList options)
        "No sensor data available." in
    let* t := lift (timeToUnix (fo_startTime options)) in
    let unixStart := floor_div t (of_Z 1000) in
    let* response :=
      axios (srv_firstDp W)
        (ReqFirstDp url (fo_deviceId options) (join finalSensorList) unixStart) in
    let responseData := data response in
    if truthy (fd_success responseData)
    then raise (Error (errorMessage (Some (status response)) url))
    else
      let formattedData := formatSensorData (fd_first responseData) in
      match formattedData with
      | [] => ret []
      | _ =>
          lift (getCleanedTable
                  {| cto_data := formattedData; cto_alias := fo_alias options;
                     cto_cal := fo_cal options; cto_deviceId := None;
                     cto_sensorList := Some finalSensorList;
                     cto_unix := fo_unix options; cto_metadata := metadata;
                     cto_pivotTable := false |})
      end.

Definition getFirstDp (options : GetFirstDpOptions) : M (list out_row) :=
  try_catch (getFirstDp_body options) (fun _ => ret []).

(** The [try] block of the cursor loop of [getDp]: the new values of
    [allData] and [cursor]. *)
Definition getDp_try (url deviceId sensor : string) (cursor : CursorInfo)
    (allData : list raw) : M (list raw * option CursorInfo) :=
  let* response :=
    axios (srv_dp W) (ReqDp url deviceId sensor (c_end cursor) (c_limit cursor)) in
  let responseData := data response in
  if truthy (dp_success responseData)
  then raise (Error (errorMessage (Some (status response)) url))
  else
    let allData :=
      match dp_data responseData with
      | Some d => (allData ++ d)%list
      | None => allData
      end in
    ret (allData, dp_cursor responseData).

(** [while (cursor.end) { try { ... } catch { ... } }].  The condition is
    evaluated outside the [try]: reading [end] from a [null] cursor raises a
    TypeError that leaves the loop. *)
Fixpoint getDp_while (fuel : nat) (url deviceId sensor : string)
    (cursor : option CursorInfo) (retry : Z) (allData : list raw)
  : M (list raw) :=
  match cursor with
  | None => raise (TypeError "Cannot read properties of null (reading 'end')")
  | Some cur =>
      if truthy (c_end cur) then
        match fuel with
        | O => out_of_fuel
        | S fuel' =>
            let* r := attempt (getDp_try url deviceId sensor cur allData) in
            match r with
            | inl (allData', cursor') =>
                getDp_while fuel' url deviceId sensor cursor' retry allData'
            | inr _ =>
                let retry := retry + 1 in
                if MAX_RETRIES <=? retry
                then raise (Error ("Max retries reached while calling " ++ url))
                else
                  let waitTime := if 5 <? retry then RETRY_DELAY.2 else RETRY_DELAY.1 in
                  let* _ := _sleep waitTime in
                  getDp_while fuel' url deviceId sensor cursor retry allData
            end
        end
      else ret allData
  end.

(** [for (const sensor of finalSensorList) { ... }] *)
Fixpoint getDp_sensors (fuel : nat) (url deviceId : string) (unixEnd n : num)
    (sensorList : list string) (allData : list raw) : M (list raw) :=
  match sensorList with
  | [] => ret allData
  | sensor :: rest =>
      let cursor := {| c_end := VNum unixEnd; c_limit := VNum n |} in
      let* allData := getDp_while fuel url deviceId sensor (Some cursor) 0 allData in
      getDp_sensors fuel url deviceId unixEnd n rest allData
  end.

Definition getDp_body (fuel : nat) (options : GetDpOptions) : M (list out_row) :=
  if num_lt (go_n options) (of_Z 1) then raise (Error "Parameter 'n' must be ≥ 1")
  else
    let useOnPrem := default (cfg_onPrem cfg) (go_onPrem options) in
    let url := make_url useOnPrem cfg "/api/apiLayer/getLimitedDataMultipleSensors/" in
    let* _ := check_device (go_deviceId options) useOnPrem "added" in
    let* ' (metadata, finalSensorList) :=
      resolve_sensors (go_deviceId options) useOnPrem (go_sensorList options)
        "No sensor data available." in
    let* t := lift (timeToUnix (go_endTime options)) in
    let unixEnd := floor_div t (of_Z 1000) in
    let* allData :=
      getDp_sensors fuel url (go_deviceId options) unixEnd (go_n options)
        finalSensorList [] in
    match allData with
    | [] => ret []
    | _ =>
        lift (getCleanedTable
                {| cto_data := formatSensorData allData; cto_alias := go_alias options;
                   cto_cal := go_cal options; cto_deviceId := None;
                   cto_sensorList := Some finalSensorList;
                   cto_unix := go_unix options; cto_metadata := metadata;
                   cto_pivotTable := false |})
    end.

Definition getDp (fuel : nat) (options : GetDpOptions) : M (list out_row) :=
  try_catch (getDp_body fuel options) (fun _ => ret []).

(** The cursor loop of [_influxdb]. *)
Definition influx_cursor_open (cursor : option CursorData) : bool :=
  match cursor with
  | Some c => truthy (c_start c) && truthy (cd_end c)   (* cursor?.start && cursor?.end *)
  | None => false
  end.

Definition influx_try (url deviceId sensorValues : string) (cursor : CursorData)
    (allData : list obj) : M (list obj * option CursorData) :=
  let* response :=
    axios (srv_influx W)
      (ReqInflux url deviceId sensorValues (c_start cursor) (cd_end cursor) CURSOR_LIMIT) in
  let body := data response in
  if truthy (ix_success body)
  then raise (Error "Influx error")        (* followed by the JSON text of the body *)
  else
    let allData :=
      match ix_data body with
      | Some d => (allData ++ d)%list
      | None => allData
      end in
    ret (allData, ix_cursor body).

Fixpoint influx_while (fuel : nat) (url deviceId sensorValues : string)
    (cursor : option CursorData) (retry : Z) (allData : list obj)
  : M (list obj) :=
  match cursor with
  | Some cur =>
      if influx_cursor_open cursor then
        match fuel with
        | O => out_of_fuel
        | S fuel' =>
            let* r := attempt (influx_try url deviceId sensorValues cur allData) in
            match r with
            | inl (allData', cursor') =>
                influx_while fuel' url deviceId sensorValues cursor' retry allData'
            | inr _ =>
                let retry := retry + 1 in
                if retry <? MAX_RETRIES_INFLUX then
                  let delay :=
                    if 5 <? retry then RETRY_DELAY_INFLUX.2 else RETRY_DELAY_INFLUX.1 in
                  let* _ := _sleep delay in
                  influx_while fuel' url deviceId sensorValues cursor retry allData
                else raise (Error "Max retries reached fetching data.")
            end
        end
      else ret allData
  | None => ret allData
  end.

Definition _influxdb_body (fuel : nat) (options : InfluxDbOptions) : M (list out_row) :=
  let useOnPrem := default (cfg_onPrem cfg) (io_onPrem options) in
  let url := make_url useOnPrem cfg "/api/apiLayer/getAllData" in
  let* ' (finalMetadata, finalSensorList) :=
    match io_sensorList options with
    | [] =>
        let* finalMetadata :=
          match io_metadata options with
          | Some m => ret m
          | None =>
              let* metadataResult := getDeviceMetaData (io_deviceId options) useOnPrem in
              match metadataResult with
              | Some m => ret m
              | None => raise (Error "Failed to fetch device metadata")
              end
          end in
        match sensors finalMetadata with
        | Some (s :: l) => ret (Some finalMetadata, map sensorId (s :: l))
        | _ => raise (Error "No sensor data available.")
        end
    | l => ret (io_metadata options, l)
    end in
  let sensorValues := join finalSensorList in
  let cursor :=
    {| c_start := VNum (io_startTime options); cd_end := VNum (io_endTime options) |} in
  let* allData :=
    influx_while fuel url (io_deviceId options) sensorValues (Some cursor) 0 [] in
  match allData with
  | [] => ret []
  | _ =>
      lift (getCleanedTable
              {| cto_data := allData; cto_alias := io_alias options;
                 cto_cal := io_cal options; cto_deviceId := None;
                 cto_sensorList := Some finalSensorList;
                 cto_unix := io_unix options; cto_metadata := finalMetadata;
                 cto_pivotTable := true |})
  end.

Definition _influxdb (fuel : nat) (options : InfluxDbOptions) : M (list out_row) :=
  try_catch (_influxdb_body fuel options) (fun _ => ret []).

Definition dataQuery_body (fuel : nat) (options : DataQueryOptions) : M (list out_row) :=
  let useOnPrem := default (cfg_onPrem cfg) (dq_onPrem options) in
  let* startUnix := lift (timeToUnix (dq_startTime options)) in
  let* endUnix := lift (timeToUnix (dq_endTime options)) in
  if num_lt endUnix startUnix
  then raise (Error "Invalid time range: start > end")   (* with both times *)
  else
    let* _ := check_device (dq_deviceId options) useOnPrem "found" in
    let* ' (metadata, finalSensorList) :=
      resolve_sensors (dq_deviceId options) useOnPrem (dq_sensorList options)
        "No sensors available." in
    _influxdb fuel
      {| io_deviceId := dq_deviceId options; io_startTime := startUnix;
         io_endTime := endUnix; io_alias := dq_alias options;
         io_cal := dq_cal options; io_unix := dq_unix options;
         io_sensorList := finalSensorList; io_metadata := metadata;
         io_onPrem := Some useOnPrem |}.

Definition dataQuery (fuel : nat) (options : DataQueryOptions) : M (list out_row) :=
  try_catch (dataQuery_body fuel options) (fun _ => ret []).

(** The page loop of [getLoadEntities].  [response] is the variable declared
    before the loop: the status of the last response received, if any. *)
Fixpoint load_while (fuel : nat) (baseUrl : string) (hasMore : bool)
    (pageCount : Z) (retry : Z) (result : list LoadEntity) (response : option Z)
  : M (list LoadEntity) :=
  if hasMore then
    match fuel with
    | O => out_of_fuel
    | S fuel' =>
        let pageSize := 5 in
        let requestUrl :=
          baseUrl ++ "/" ++ userId cfg ++ "/" ++ Z_toString pageCount
                  ++ "/" ++ Z_toString pageSize in
        let* r := attempt (axios (srv_load W) (ReqLoadEntities requestUrl)) in
        let '(response, step) :=
          match r with
          | inr e => (response, inr e)
          | inl resp =>
              (Some (status resp),
               if truthy (lb_error (data resp))
               then inr (Error (errorMessage (Some (status resp)) baseUrl))
               else match lb_data (data resp) with
                    | Some d => inl (d, lb_totalCount (data resp))
                    | None => inr (TypeError "responseData.data is not iterable")
                    end)
          end in
        match step with
        | inl (d, totalCount) =>
            let result := (result ++ d)%list in
            let hasMore :=
              match totalCount with
              | Some tc => num_lt (of_Z (Z.of_nat (length result))) tc
              | None => false
              end in
            load_while fuel' baseUrl hasMore (pageCount + 1) retry result response
        | inr e =>
            let retry := retry + 1 in
            let errorResponse :=
              match e with
              | AxiosError (Some st) => Some st
              | _ => response
              end in
            if retry <? MAX_RETRIES then
              let sleepTime := if 5 <? retry then RETRY_DELAY.2 else RETRY_DELAY.1 in
              let* _ := _sleep sleepTime in
              load_while fuel' baseUrl hasMore pageCount retry result response
            else
              raise (Error ("Max retries for data fetching from api-layer exceeded. "
                            ++ errorMessage errorResponse baseUrl))
        end
    end
  else ret result.

Definition getLoadEntities_body (fuel : nat) (options : GetLoadEntitiesOptions)
  : M (list LoadEntity) :=
  match lo_clusters options with
  | Some [] => raise (Error "No clusters provided.")
  | clusters =>
      let useOnPrem := default (cfg_onPrem cfg) (lo_onPrem options) in
      let baseUrl := make_url useOnPrem cfg "/api/metaData/getAllClusterData" in
      let* result := load_while fuel baseUrl true 1 0 [] None in
      match clusters with
      | Some cl =>
          ret (filter (fun item => le_name item ∈ cl \/ le_id item ∈ cl) result)
      | None => ret result
      end
  end.

Definition getLoadEntities (fuel : nat) (options : GetLoadEntitiesOptions)
  : M (list LoadEntity) :=
  try_catch (getLoadEntities_body fuel options) (fun _ => ret []).

End DataAccess.

(* ===================================================================== *)
(** ** EventsHandler.ts *)
(* ===================================================================== *)

(** The argument of [isoUtcTime]: [string | Date | undefined]. *)
Inductive IsoArg `{JSNumber} :=
| IsoNone
| IsoString (s : string)
| IsoDate (t : num).

Record PublishEventOptions := {
  pe_message : string;
  pe_metaData : string;
  pe_hoverData : string;
  pe_createdOn : option string;
  pe_eventTagsList : option (list string);
  pe_eventNamesList : option (list string);
  pe_title : option string;
  pe_onPrem : option bool;
}.

Record EventsInTimeslotOptions `{JSNumber} := {
  et_startTime : IsoArg;
  et_endTime : IsoArg;
  et_onPrem : option bool;
}.

Section EventsHandler.
Context {N : JSNumber} {H : Host}.
Variable W : World.
Variable cfg : Config.

(** The paths of the URL templates imported from [utils/constants]. *)
Variables PUBLISH_EVENT_URL GET_EVENTS_IN_TIMESLOT_URL GET_EVENT_CATEGORIES_URL : string.

Definition isoUtcTime (time : IsoArg) : result string :=
  match time with
  | IsoNone => Ok (Date_toISOString Date_now)
  | IsoString s =>
      let t := Date_parse s in
      if isNaN t then Throw (Error ("Invalid date format: " ++ s))
      else Ok (Date_toISOString t)
  | IsoDate t =>
      if isNaN t then Throw (Error "Invalid date format: Invalid Date")
      else Ok (Date_toISOString t)
  end.

Definition formatUrl (path : string) (onPrem : option bool) : string :=
  make_url (default (cfg_onPrem cfg) onPrem) cfg path.

Definition getEventCategories (onPrem : option bool) : M (list EventCategory) :=
  try_catch
    (let url := formatUrl GET_EVENT_CATEGORIES_URL onPrem in
     let* response := axios (srv_categories W) (ReqEventCategories url) in
     match data response with
     | Some categories => ret categories
     | None => raise (Error "Invalid response format")
     end)
    (fun _ => ret []).

(** [for (const tagName of eventNamesList) { ... }] *)
Fixpoint tags_of_names (categories : list EventCategory) (names : list string)
    (finalEventTagsList : list string) : result (list string) :=
  match names with
  | [] => Ok finalEventTagsList
  | tagName :: rest =>
      match List.find (fun item => String.eqb (ec_name item) tagName) categories with
      | Some matched =>
          tags_of_names categories rest (finalEventTagsList ++ [ec_id matched])%list
      | None => Throw (Error ("Tag '" ++ tagName ++ "' not found in data."))
      end
  end.

Definition publishEvent_body (options : PublishEventOptions) : M prim :=
  let onPrem := pe_onPrem options in
  let* finalEventTagsList :=
    match pe_eventNamesList options with
    | Some (n :: names) =>
        let* categories := getEventCategories onPrem in
        let* tags := lift (tags_of_names categories (n :: names) []) in
        ret (Some tags)
    | _ => ret (pe_eventTagsList options)
    end in
  match finalEventTagsList with
  | None | Some [] => raise (Error "No event tags found.")
  | Some tags =>
      let url := formatUrl PUBLISH_EVENT_URL onPrem in
      let payload :=
        {| pp_title := match pe_title options with
                       | Some "" => None
                       | t => t
                       end;
           pp_message := pe_message options; pp_metaData := pe_metaData options;
           pp_eventTags := tags; pp_hoverData := pe_hoverData options;
           pp_createdOn := pe_createdOn options |} in
      let* response := axios (srv_publish W) (ReqPublishEvent url payload) in
      if truthy (data response) then ret (data response)
      else raise (Error "Invalid response format")
  end.

(** The [catch] block logs the error and throws it again. *)
Definition publishEvent (options : PublishEventOptions) : M prim :=
  try_catch (publishEvent_body options) (fun error => raise error).

Definition getEventsInTimeslot_body (options : EventsInTimeslotOptions) : M (list obj) :=
  let* startTimeIso := lift (isoUtcTime (et_startTime options)) in
  let* endTimeIso := lift (isoUtcTime (et_endTime options)) in
  if num_lt (Date_parse endTimeIso) (Date_parse startTimeIso)
  then raise (Error ("Invalid time range: start_time(" ++ startTimeIso
                     ++ ") should be before end_time(" ++ endTimeIso ++ ")."))
  else
    let url := formatUrl GET_EVENTS_IN_TIMESLOT_URL (et_onPrem options) in
    let* response :=
      axios (srv_timeslot W) (ReqEventsInTimeslot url startTimeIso endTimeIso) in
    match data response with
    | Some events => ret events
    | None => raise (Error "Invalid response format")
    end.

Definition getEventsInTimeslot (options : EventsInTimeslotOptions) : M (list obj) :=
  try_catch (getEventsInTimeslot_body options) (fun _ => ret []).

End EventsHandler.

(* ===================================================================== *)
(** ** Specification-level definitions *)
(* ===================================================================== *)

Section Specification.
Context {N : JSNumber}.

(** The value of the last parameter called [name], if any: the loop over
    the parameters lets a later entry override an earlier one. *)
Definition last_param (name : string) (ps : list Param) : option prim :=
  fold_left
    (fun acc p => if String.eqb (paramName p) name then Some (paramValue p) else acc)
    ps None.

(** The slope in force: the configured one when it parses to a number other
    than zero, else 1. *)
Definition slope_of (ps : list Param) : num :=
  match last_param "m" ps with
  | Some v => if is_zero (parseFloat v) || isNaN (parseFloat v) then of_Z 1 else parseFloat v
  | None => of_Z 1
  end.

(** The intercept in force: the configured one when it parses to a number
    other than zero, else 0. *)
Definition intercept_of (ps : list Param) : num :=
  match last_param "c" ps with
  | Some v => if is_zero (parseFloat v) || isNaN (parseFloat v) then of_Z 0 else parseFloat v
  | None => of_Z 0
  end.

(** A bound is defined when the parameter is present and parses to a number. *)
Definition bound_of (name : string) (ps : list Param) : option num :=
  match last_param name ps with
  | Some v => if isNaN (parseFloat v) then None else Some (parseFloat v)
  | None => None
  end.

(** The formula of the calibration stage as the specification words it:
    min(max(m*v + c, min), max), each clamp only when its bound is defined. *)
Definition spec_calibrated (m c : num) (lo hi : option num) (v : num) : num :=
  let y := num_add (num_mul m v) c in
  let y := match lo with Some b => Math_max y b | None => y end in
  match hi with Some b => Math_min y b | None => y end.

(** The distinct elements of a list in the order of their first
    occurrence. *)
Fixpoint first_seen {A} `{EqDecision A} (l : list A) : list A :=
  match l with
  | [] => []
  | x :: l' => x :: filter (fun y => y <> x) (first_seen l')
  end.

(** A record reports a reading when its [sensor] is truthy and its [value]
    is not [undefined]; the reading goes to the column named by the sensor. *)
Definition reporting (row : out_row) : bool :=
  bool_decide (is_Some (sensor_key row))
  && bool_decide (obj_get (fields row) "value" <> VUndef).

Definition column_of (row : out_row) : string := default "" (sensor_key row).

(** [row.timestamp || row.time], in the words of the specification: the
    [timestamp] field if truthy, else the [time] field. *)
Definition key_of (row : out_row) : prim :=
  if truthy (obj_get (fields row) "timestamp") then obj_get (fields row) "timestamp"
  else obj_get (fields row) "time".

(** The grouping keys of the output: the keys of the records as a [Set]
    holds them, each once, in the order of their first occurrence. *)
Definition group_keys (rows : list out_row) : list prim :=
  first_seen (map (fun row => set_element (key_of row)) rows).

(** The records reporting at the grouping key [k], in input order. *)
Definition reports_at (rows : list out_row) (k : prim) : list out_row :=
  filter (fun r => strict_eq (key_of r) k = true /\ reporting r = true) rows.

(** The value of the last of [rs] that reports to column [c]; [undefined]
    when there is none. *)
Definition last_report (c : string) (rs : list out_row) : prim :=
  fold_left
    (fun acc r => if String.eqb (column_of r) c then obj_get (fields r) "value" else acc)
    rs VUndef.

(** What a record does to a pivoted row that still has its prototype, when
    its column is not [__proto__]: a reporting record sets its column. *)
Definition add_column (p : obj) (r : out_row) : obj :=
  if reporting r then obj_set (column_of r) (obj_get (fields r) "value") p else p.


Definition influx_fails (a : http InfluxBody) : Prop :=
  match a with
  | Rejected _ => True
  | Responded _ b => truthy (ix_success b) = true
  end.


Definition dp_request (url deviceId sensor : string) (cur : CursorInfo) : request :=
  ReqDp url deviceId sensor (c_end cur) (c_limit cur).

Definition influx_request (url deviceId sensorValues : string) (cur : CursorData)
  : request :=
  ReqInflux url deviceId sensorValues (c_start cur) (cd_end cur) CURSOR_LIMIT.

(** The page request of [getLoadEntities]. *)
Definition load_request (cfg : Config) (baseUrl : string) (pageCount : Z) : request :=
  ReqLoadEntities
    (baseUrl ++ "/" ++ userId cfg ++ "/" ++ Z_toString pageCount ++ "/" ++ Z_toString 5).




End Specification.

(* ===================================================================== *)
(** ** Concrete data used to run the model *)
(* ===================================================================== *)

(** A host that knows one date, the end time of [testGetDp]. *)
Definition sample_iso : string := "2024-05-31T18:32:00.000Z".
Definition sample_ms : Z := 1717180320000.

#[global] Instance SampleHost : Host (H := Binary64) := {|
  Date_parse := fun s => if String.eqb s sample_iso then Int sample_ms else S754_nan;
  Date_now := Int 1762000000000;
  Date_toISOString := fun t => if decide (t = Int sample_ms) then sample_iso else "";
|}.


(** Sample rows and metadata. *)
Definition point (t : Z) (s : string) (v : Z) : obj (N := Binary64) :=
  [("time", VNum (Int t)); ("sensor", VStr s); ("value", VNum (Int v))].

Definition mk_param (name : string) (v : Z) : Param (H := Binary64) :=
  {| paramName := name; paramValue := VNum (Int v) |}.

Definition metadata_of (sns : list SensorInfo) (ps : list (string * list Param))
  : DeviceMetadata (H := Binary64) :=
  {| sensors := Some sns; params := Some (list_to_map ps) |}.

(** Slope 2, intercept 1, clamped to [0, 100]. *)
Definition md_clamped : DeviceMetadata :=
  metadata_of [] [("A", [mk_param "m" 2; mk_param "c" 1; mk_param "min" 0; mk_param "max" 100])].

(** A configured slope of zero with intercept 1. *)
Definition md_zero_slope : DeviceMetadata :=
  metadata_of [] [("A", [mk_param "m" 0; mk_param "c" 1])].

(** Sample configuration, options and platforms. *)
Definition sample_cfg : Config :=
  {| userId := "645a159222722a319ca5f5ad"; dataUrl := "datads.iosense.io";
     cfg_onPrem := false |}.

Definition sample_dp_options : GetDpOptions :=
  {| go_deviceId := "D1"; go_sensorList := Some ["A"]; go_n := Int 1;
     go_cal := true; go_endTime := TimeNumber (Int sample_ms);
     go_alias := false; go_unix := false; go_onPrem := None |}.

Definition sample_query_options : DataQueryOptions :=
  {| dq_deviceId := "D1"; dq_sensorList := Some ["A"];
     dq_startTime := TimeNumber (Int (sample_ms - 60000));
     dq_endTime := TimeNumber (Int sample_ms);
     dq_cal := true; dq_alias := false; dq_unix := false; dq_onPrem := None |}.

(** A platform that rejects every request. *)
Definition rejecting_world : World :=
  {| srv_devices := fun _ _ => Rejected None;
     srv_metadata := fun _ _ => Rejected None;
     srv_firstDp := fun _ _ => Rejected None;
     srv_dp := fun _ _ => Rejected None;
     srv_influx := fun _ _ => Rejected None;
     srv_load := fun _ _ => Rejected None;
     srv_categories := fun _ _ => Rejected None;
     srv_publish := fun _ _ => Rejected None;
     srv_timeslot := fun _ _ => Rejected None |}.

(** A platform that knows device D1 and answers each point request as [dp]
    says, each bulk request as [influx] says. *)
Definition world_with (dp : nat -> http DpBody) (influx : nat -> http InfluxBody)
  : World :=
  {| srv_devices := fun _ _ =>
       Responded 200 (Some (DevArray [{| devID := "D1"; devTypeID := "T1" |}]));
     srv_metadata := fun _ _ => Rejected None;
     srv_firstDp := fun _ _ => Rejected None;
     srv_dp := fun k _ => dp k;
     srv_influx := fun k _ => influx k;
     srv_load := fun _ _ => Rejected None;
     srv_categories := fun _ _ => Rejected None;
     srv_publish := fun _ _ => Rejected None;
     srv_timeslot := fun _ _ => Rejected None |}.

Definition one_point : list raw := [RawPoint (point 1717180000 "A" 5)].

(** The last page of a point query, its cursor being [null] ... *)
Definition page_null_cursor : http DpBody :=
  Responded 200 {| dp_success := VBool false; dp_data := Some one_point;
                   dp_cursor := None |}.

(** ... or an object whose [end] is [null]. *)
Definition page_closed_cursor : http DpBody :=
  Responded 200 {| dp_success := VBool false; dp_data := Some one_point;
                   dp_cursor := Some {| c_end := VNull; c_limit := VNum (Int 1) |} |}.

(** The last page of a bulk query with a [null] cursor. *)
Definition influx_page_null_cursor : http InfluxBody :=
  Responded 200 {| ix_success := VBool false;
                   ix_data := Some [point 1717180000 "A" 5];
                   ix_cursor := None |}.

(** The second request of a run (the first one after the device list) is
    rejected, every other one gets the last page. *)
Definition flaky_dp (k : nat) : http DpBody :=
  if (k =? 1)%nat then Rejected None else page_closed_cursor.

Definition flaky_influx (k : nat) : http InfluxBody :=
  if (k =? 1)%nat then Rejected None else influx_page_null_cursor.

(** An open cursor of a point query and of a bulk query. *)
Definition open_dp_cursor : CursorInfo :=
  {| c_end := VNum (Int 1717180320); c_limit := VNum (Int 1) |}.

Definition open_influx_cursor : CursorData :=
  {| c_start := VNum (Int (sample_ms - 60000)); cd_end := VNum (Int sample_ms) |}.

Definition null_cursor_world : World :=
  world_with (fun _ => page_null_cursor) (fun _ => Rejected None).

Definition closed_cursor_world : World :=
  world_with (fun _ => page_closed_cursor) (fun _ => Rejected None).

Definition flaky_world : World := world_with flaky_dp flaky_influx.

Definition dp_url : string :=
  "https://datads.iosense.io/api/apiLayer/getLimitedDataMultipleSensors/".

(** Sensor S1 named [S1] itself, and sensor S1 named [Temp]. *)
Definition md_self_named : DeviceMetadata :=
  metadata_of [{| sensorId := "S1"; sensorName := "S1" |}] [].

Definition md_temp : DeviceMetadata :=
  metadata_of [{| sensorId := "S1"; sensorName := "Temp" |}] [].

Definition wide_row (t : Z) (column : string) (v : Z) : obj (N := Binary64) :=
  [("timestamp", VNum (Int t)); (column, VNum (Int v))].

Definition no_tags : PublishEventOptions :=
  {| pe_message := "m"; pe_metaData := ""; pe_hoverData := "";
     pe_createdOn := None; pe_eventTagsList := Some [];
     pe_eventNamesList := None; pe_title := None; pe_onPrem := None |}.

(* ===================================================================== *)
(** ** Further specification-level definitions *)
(* ===================================================================== *)

Section Specification2.
Context {N : JSNumber} {H : Host}.

(** The request for the device list and the condition under which the
    device check of the point queries passes: the [k]-th answer is an array
    that lists the device. *)
Definition devices_request (cfg : Config) (onPrem : bool) : request :=
  ReqDeviceDetails (make_url onPrem cfg "/api/metaData/allDevices").

Definition device_listed (W : World) (cfg : Config) (onPrem : bool)
    (deviceId : string) (k : nat) : Prop :=
  exists (st : Z) (l : list DeviceDetail),
    srv_devices W k (devices_request cfg onPrem) = Responded st (Some (DevArray l))
    /\ deviceId ∈ map devID l.

(** The same options with calibration and aliases switched off. *)
Definition dp_plain (o : GetDpOptions) : GetDpOptions :=
  {| go_deviceId := go_deviceId o; go_sensorList := go_sensorList o;
     go_n := go_n o; go_cal := false; go_endTime := go_endTime o;
     go_alias := false; go_unix := go_unix o; go_onPrem := go_onPrem o |}.

Definition first_plain (o : GetFirstDpOptions) : GetFirstDpOptions :=
  {| fo_deviceId := fo_deviceId o; fo_sensorList := fo_sensorList o;
     fo_cal := false; fo_startTime := fo_startTime o; fo_n := fo_n o;
     fo_alias := false; fo_unix := fo_unix o; fo_onPrem := fo_onPrem o |}.

Definition query_plain (o : DataQueryOptions) : DataQueryOptions :=
  {| dq_deviceId := dq_deviceId o; dq_sensorList := dq_sensorList o;
     dq_startTime := dq_startTime o; dq_endTime := dq_endTime o;
     dq_cal := false; dq_alias := false; dq_unix := dq_unix o;
     dq_onPrem := dq_onPrem o |}.

(** A successful answer carrying one page. *)
Definition influx_page (p : list obj * option CursorData) (a : http InfluxBody) : Prop :=
  exists (st : Z) (s : prim),
    a = Responded st {| ix_success := s; ix_data := Some p.1; ix_cursor := p.2 |}
    /\ truthy s = false.

Definition dp_page (p : list raw * CursorInfo) (a : http DpBody) : Prop :=
  exists (st : Z) (s : prim),
    a = Responded st {| dp_success := s; dp_data := Some p.1; dp_cursor := Some p.2 |}
    /\ truthy s = false.

Definition load_page (p : list LoadEntity * option num) (a : http LoadBody) : Prop :=
  exists (st : Z) (s : prim),
    a = Responded st {| lb_error := s; lb_data := Some p.1; lb_totalCount := p.2 |}
    /\ truthy s = false.

(** The platform serves [pages] one after the other from its [k]-th answer
    on, the cursor staying open on every page but the last. *)
Fixpoint influx_script (W : World) (k : nat) (pages : list (list obj * option CursorData))
  : Prop :=
  match pages with
  | [] => True
  | p :: rest =>
      (forall r, influx_page p (srv_influx W k r))
      /\ influx_cursor_open p.2 = negb (bool_decide (rest = []))
      /\ influx_script W (S k) rest
  end.

Fixpoint dp_script (W : World) (k : nat) (pages : list (list raw * CursorInfo)) : Prop :=
  match pages with
  | [] => True
  | p :: rest =>
      (forall r, dp_page p (srv_dp W k r))
      /\ truthy (c_end p.2) = negb (bool_decide (rest = []))
      /\ dp_script W (S k) rest
  end.

(** [result.length < totalCount] *)
Definition has_more (result : list LoadEntity) (totalCount : option num) : bool :=
  match totalCount with
  | Some tc => num_lt (of_Z (Z.of_nat (length result))) tc
  | None => false
  end.

(** The same for the entity pages, [result] being what was accumulated
    before: more is expected after every page but the last. *)
Fixpoint load_script (W : World) (k : nat) (result : list LoadEntity)
    (pages : list (list LoadEntity * option num)) : Prop :=
  match pages with
  | [] => True
  | p :: rest =>
      (forall r, load_page p (srv_load W k r))
      /\ has_more (result ++ p.1) p.2 = negb (bool_decide (rest = []))
      /\ load_script W (S k) (result ++ p.1) rest
  end.

(** The requests for [n] consecutive entity pages starting at page [first]. *)
Definition load_page_requests (cfg : Config) (baseUrl : string) (first : Z) (n : nat)
  : list event :=
  map (fun i => EvRequest (load_request cfg baseUrl (first + Z.of_nat i))) (seq 0 n).

(** [clusters.includes(item.name) || clusters.includes(item.id)] *)
Definition in_clusters (clusters : list string) (item : LoadEntity) : Prop :=
  le_name item ∈ clusters \/ le_id item ∈ clusters.

(** The base URL of the entity pages. *)
Definition load_base_url (cfg : Config) (onPrem : option bool) : string :=
  make_url (default (cfg_onPrem cfg) onPrem) cfg "/api/metaData/getAllClusterData".

(** The single data request of [getFirstDp]. *)
Definition first_dp_request (cfg : Config) (o : GetFirstDpOptions)
    (sensorList : list string) (t : num) : request :=
  ReqFirstDp
    (make_url (default (cfg_onPrem cfg) (fo_onPrem o)) cfg
       "/api/apiLayer/getMultipleSensorsDPAfter")
    (fo_deviceId o) (String.concat "," sensorList) (floor_div t (of_Z 1000)).

(** An answer that makes [getFirstDp] give up. *)
Definition first_dp_fails (a : http FirstDpBody) : Prop :=
  match a with
  | Rejected _ => True
  | Responded _ b => truthy (fd_success b) = true
  end.

(** The rows that one raw entry contributes to [formatSensorData]. *)
Definition entry_rows (e : raw) : list obj :=
  match e with
  | RawArray points => map format_point points
  | RawPoint sd =>
      if truthy (obj_get sd "time") && truthy (obj_get sd "sensor")
      then [format_point sd] else []
  | RawOther => []
  end.

(** The id of the first category called [name]. *)
Definition tag_id (categories : list EventCategory) (name : string) : option string :=
  ec_id <$> List.find (fun item => String.eqb (ec_name item) name) categories.

(** The first of [names] that no category carries. *)
Fixpoint first_unknown (categories : list EventCategory) (names : list string)
  : option string :=
  match names with
  | [] => None
  | n :: rest =>
      match tag_id categories n with
      | Some _ => first_unknown categories rest
      | None => Some n
      end
  end.

(** What [getEventCategories] resolves with, given the answer to its
    request: the list of the answer, and [[]] for a rejection of any kind
    and for a body without data. *)
Definition categories_of (a : http (option (list EventCategory))) : list EventCategory :=
  match a with
  | Responded _ (Some categories) => categories
  | _ => []
  end.

(** What [publishEvent] posts for the resolved [tags]. *)
Definition publish_payload (o : PublishEventOptions) (tags : list string) : PublishPayload :=
  {| pp_title := match pe_title o with Some "" => None | t => t end;
     pp_message := pe_message o; pp_metaData := pe_metaData o;
     pp_eventTags := tags; pp_hoverData := pe_hoverData o;
     pp_createdOn := pe_createdOn o |}.



Definition run_data (runs : list (list (list raw * CursorInfo))) : list raw :=
  concat (map (fun pages => concat (map fst pages)) runs).

(** What a query resolves with when the pipeline returns or throws. *)
Definition rows_or_empty (r : result (list out_row)) : list out_row :=
  match r with
  | Ok rows => rows
  | Throw _ => []
  end.

(** The table [getDp] makes of the collected entries [d], and the one
    [dataQuery] makes of the collected rows, the sensor list being the
    caller's. *)
Definition dp_table (o : GetDpOptions) (sensorList : list string) (d : list raw)
  : list out_row :=
  match d with
  | [] => []
  | _ =>
      rows_or_empty
        (getCleanedTable
           {| cto_data := formatSensorData d; cto_alias := go_alias o;
              cto_cal := go_cal o; cto_deviceId := None;
              cto_sensorList := Some sensorList; cto_unix := go_unix o;
              cto_metadata := None; cto_pivotTable := false |})
  end.

Definition query_table (o : DataQueryOptions) (sensorList : list string) (d : list obj)
  : list out_row :=
  match d with
  | [] => []
  | _ =>
      rows_or_empty
        (getCleanedTable
           {| cto_data := d; cto_alias := dq_alias o;
              cto_cal := dq_cal o; cto_deviceId := None;
              cto_sensorList := Some sensorList; cto_unix := dq_unix o;
              cto_metadata := None; cto_pivotTable := true |})
  end.

(** The requests of a paginated run: the first asks at the cursor [cur],
    each later one at the cursor that came with the page before. *)
Fixpoint dp_requests (url deviceId sensor : string) (cur : CursorInfo)
    (pages : list (list raw * CursorInfo)) : list event :=
  match pages with
  | [] => []
  | p :: rest =>
      EvRequest (dp_request url deviceId sensor cur)
      :: dp_requests url deviceId sensor p.2 rest
  end.

Fixpoint influx_requests (url deviceId sensorValues : string) (cur : CursorData)
    (pages : list (list obj * option CursorData)) : list event :=
  match pages with
  | [] => []
  | p :: rest =>
      EvRequest (influx_request url deviceId sensorValues cur)
      :: match p.2 with
         | Some c => influx_requests url deviceId sensorValues c rest
         | None => []
         end
  end.

(** The requests of [getDp] for its sensors, one run after the other, each
    starting at the cursor [cur]. *)
Fixpoint sensor_requests (url deviceId : string) (cur : CursorInfo)
    (sensorList : list string) (runs : list (list (list raw * CursorInfo)))
  : list event :=
  match sensorList, runs with
  | sensor :: sensorList', pages :: runs' =>
      (dp_requests url deviceId sensor cur pages
       ++ sensor_requests url deviceId cur sensorList' runs')%list
  | _, _ => []
  end.

(** The platform answers these very requests, the [k]-th one first, with
    [pages]; the cursor stays open on every page but the last.  Nothing is
    said of its answers to other requests. *)
Fixpoint dp_answers (W : World) (k : nat) (url deviceId sensor : string)
    (cur : CursorInfo) (pages : list (list raw * CursorInfo)) : Prop :=
  match pages with
  | [] => True
  | p :: rest =>
      dp_page p (srv_dp W k (dp_request url deviceId sensor cur))
      /\ truthy (c_end p.2) = negb (bool_decide (rest = []))
      /\ dp_answers W (S k) url deviceId sensor p.2 rest
  end.

Fixpoint influx_answers (W : World) (k : nat) (url deviceId sensorValues : string)
    (cur : CursorData) (pages : list (list obj * option CursorData)) : Prop :=
  match pages with
  | [] => True
  | p :: rest =>
      influx_page p (srv_influx W k (influx_request url deviceId sensorValues cur))
      /\ influx_cursor_open p.2 = negb (bool_decide (rest = []))
      /\ match p.2 with
         | Some c => influx_answers W (S k) url deviceId sensorValues c rest
         | None => True
         end
  end.

Fixpoint sensor_answers (W : World) (k : nat) (url deviceId : string) (cur : CursorInfo)
    (sensorList : list string) (runs : list (list (list raw * CursorInfo))) : Prop :=
  match sensorList, runs with
  | sensor :: sensorList', pages :: runs' =>
      pages <> []
      /\ dp_answers W k url deviceId sensor cur pages
      /\ sensor_answers W (k + length pages) url deviceId cur sensorList' runs'
  | _, _ => True
  end.

(** [onPrem ?? this.onPrem] *)
Definition use_onPrem (cfg : Config) (onPrem : option bool) : bool :=
  default (cfg_onPrem cfg) onPrem.

End Specification2.

(** Options of the three point queries with the fields that matter here. *)
Definition dp_options (deviceId : string) (sensorList : option (list string)) (n : Z)
    (cal alias : bool) : GetDpOptions :=
  {| go_deviceId := deviceId; go_sensorList := sensorList; go_n := Int n;
     go_cal := cal; go_endTime := TimeNumber (Int sample_ms);
     go_alias := alias; go_unix := false; go_onPrem := None |}.

Definition first_options (deviceId : string) (sensorList : option (list string)) (n : Z)
    (cal alias : bool) : GetFirstDpOptions :=
  {| fo_deviceId := deviceId; fo_sensorList := sensorList; fo_cal := cal;
     fo_startTime := TimeNumber (Int sample_ms); fo_n := Int n;
     fo_alias := alias; fo_unix := false; fo_onPrem := None |}.

Definition query_options (deviceId : string) (sensorList : option (list string))
    (startTime endTime : TimeArg) (cal alias : bool) : DataQueryOptions :=
  {| dq_deviceId := deviceId; dq_sensorList := sensorList;
     dq_startTime := startTime; dq_endTime := endTime;
     dq_cal := cal; dq_alias := alias; dq_unix := false; dq_onPrem := None |}.

Definition timeslot_options (startTime endTime : IsoArg) : EventsInTimeslotOptions :=
  {| et_startTime := startTime; et_endTime := endTime; et_onPrem := None |}.

Definition time_sample : TimeArg (H := Binary64) := TimeNumber (Int sample_ms).
Definition time_before : TimeArg (H := Binary64) := TimeNumber (Int (sample_ms - 1)).

(** Platforms and data for the paginated runs. *)
Definition open_dp_page : http DpBody :=
  Responded 200 {| dp_success := VBool false; dp_data := Some one_point;
                   dp_cursor := Some open_dp_cursor |}.

Definition open_influx_page : http InfluxBody :=
  Responded 200 {| ix_success := VBool false;
                   ix_data := Some [point 1717180260 "A" 4];
                   ix_cursor := Some open_influx_cursor |}.

(** The first answer leaves the cursor open, every later one closes it. *)
Definition two_page_world : World :=
  world_with (fun k => if (k =? 0)%nat then open_dp_page else page_closed_cursor)
             (fun k => if (k =? 0)%nat then open_influx_page else influx_page_null_cursor).

Definition dp_pages : list (list raw * CursorInfo) :=
  [(one_point, open_dp_cursor);
   (one_point, {| c_end := VNull; c_limit := VNum (Int 1) |})].

Definition influx_pages : list (list obj * option CursorData) :=
  [([point 1717180260 "A" 4], Some open_influx_cursor);
   ([point 1717180000 "A" 5], None)].

(** A platform that answers only the entity pages, as [load] says. *)
Definition load_world (load : nat -> http LoadBody) : World :=
  {| srv_devices := fun _ _ => Rejected None;
     srv_metadata := fun _ _ => Rejected None;
     srv_firstDp := fun _ _ => Rejected None;
     srv_dp := fun _ _ => Rejected None;
     srv_influx := fun _ _ => Rejected None;
     srv_load := fun k _ => load k;
     srv_categories := fun _ _ => Rejected None;
     srv_publish := fun _ _ => Rejected None;
     srv_timeslot := fun _ _ => Rejected None |}.

Definition entity_north : LoadEntity := {| le_id := "c1"; le_name := "North" |}.
Definition entity_south : LoadEntity := {| le_id := "c2"; le_name := "South" |}.

Definition entity_page (l : list LoadEntity) (totalCount : Z) : http LoadBody :=
  Responded 200 {| lb_error := VBool false; lb_data := Some l;
                   lb_totalCount := Some (Int totalCount) |}.

(** Two entities on two pages. *)
Definition two_entity_world : World :=
  load_world (fun k => if (k =? 0)%nat then entity_page [entity_north] 2
                       else entity_page [entity_south] 2).

Definition entity_pages : list (list LoadEntity * option spec_float) :=
  [([entity_north], Some (Int 2)); ([entity_south], Some (Int 2))].

(** Empty pages that announce one entity. *)
Definition empty_page_world : World := load_world (fun _ => entity_page [] 1).

(** A platform that knows the category [alarm] and accepts every event. *)
Definition alarm : EventCategory := {| ec_id := "64f0"; ec_name := "alarm" |}.

Definition event_world : World :=
  {| srv_devices := fun _ _ => Rejected None;
     srv_metadata := fun _ _ => Rejected None;
     srv_firstDp := fun _ _ => Rejected None;
     srv_dp := fun _ _ => Rejected None;
     srv_influx := fun _ _ => Rejected None;
     srv_load := fun _ _ => Rejected None;
     srv_categories := fun _ _ => Responded 200 (Some [alarm]);
     srv_publish := fun _ _ => Responded 200 (VStr "published");
     srv_timeslot := fun _ _ => Rejected None |}.

(** A platform whose category endpoint answers with the HTTP error 500. *)
Definition failing_category_world : World :=
  {| srv_devices := fun _ _ => Rejected None;
     srv_metadata := fun _ _ => Rejected None;
     srv_firstDp := fun _ _ => Rejected None;
     srv_dp := fun _ _ => Rejected None;
     srv_influx := fun _ _ => Rejected None;
     srv_load := fun _ _ => Rejected None;
     srv_categories := fun _ _ => Rejected (Some 500);
     srv_publish := fun _ _ => Responded 200 (VStr "published");
     srv_timeslot := fun _ _ => Rejected None |}.

(** An event tagged by name, with a tag id that is not used. *)
Definition named_event : PublishEventOptions :=
  {| pe_message := "m"; pe_metaData := ""; pe_hoverData := "";
     pe_createdOn := None; pe_eventTagsList := Some ["unused"];
     pe_eventNamesList := Some ["alarm"]; pe_title := None; pe_onPrem := None |}.

(** A trace that holds one request. *)
Definition one_request : trace (N := Binary64) :=
  [EvRequest (devices_request sample_cfg false)].

(** A platform that reads its requests.  It knows device D1 and its sensors
    A and B: A has two pages, the second served at the cursor that comes
    with the first, B has one page; a request for another URL, device,
    sensor, limit or cursor is rejected. *)
Definition next_dp_cursor : CursorInfo :=
  {| c_end := VNum (Int 1717180000); c_limit := VNum (Int 1) |}.

Definition last_dp_cursor : CursorInfo :=
  {| c_end := VNull; c_limit := VNum (Int 1) |}.

Definition dp_answer (data : list raw) (cur : CursorInfo) : http DpBody :=
  Responded 200 {| dp_success := VBool false; dp_data := Some data;
                   dp_cursor := Some cur |}.

Definition reading_runs : list (list (list raw * CursorInfo)) :=
  [[([RawPoint (point 1717180320 "A" 4)], next_dp_cursor);
    ([RawPoint (point 1717180000 "A" 5)], last_dp_cursor)];
   [([RawPoint (point 1717180320 "B" 7)], last_dp_cursor)]].

Definition reading_dp (r : request) : http DpBody :=
  match r with
  | ReqDp url device sensor eTime lim =>
      if String.eqb url (make_url false sample_cfg
                           "/api/apiLayer/getLimitedDataMultipleSensors/")
         && String.eqb device "D1" && bool_decide (lim = VNum (Int 1))
      then
        if String.eqb sensor "A" && bool_decide (eTime = VNum (Int 1717180320))
        then dp_answer [RawPoint (point 1717180320 "A" 4)] next_dp_cursor
        else if String.eqb sensor "A" && bool_decide (eTime = VNum (Int 1717180000))
        then dp_answer [RawPoint (point 1717180000 "A" 5)] last_dp_cursor
        else if String.eqb sensor "B" && bool_decide (eTime = VNum (Int 1717180320))
        then dp_answer [RawPoint (point 1717180320 "B" 7)] last_dp_cursor
        else Rejected None
      else Rejected None
  | _ => Rejected None
  end.

Definition next_influx_cursor : CursorData :=
  {| c_start := VNum (Int (sample_ms - 1)); cd_end := VNum (Int (sample_ms - 1)) |}.

Definition reading_pages : list (list obj * option CursorData) :=
  [([point 1717180320 "A" 4; point 1717180320 "B" 7], Some next_influx_cursor);
   ([point 1717180319 "A" 5], None)].

Definition influx_answer (data : list obj) (cur : option CursorData) : http InfluxBody :=
  Responded 200 {| ix_success := VBool false; ix_data := Some data; ix_cursor := cur |}.

Definition reading_influx (r : request) : http InfluxBody :=
  match r with
  | ReqInflux url device sensor sTime eTime limit =>
      if String.eqb url (make_url false sample_cfg "/api/apiLayer/getAllData")
         && String.eqb device "D1" && String.eqb sensor "A,B" && (limit =? CURSOR_LIMIT)
         && bool_decide (sTime = VNum (Int (sample_ms - 1)))
      then
        if bool_decide (eTime = VNum (Int sample_ms))
        then influx_answer [point 1717180320 "A" 4; point 1717180320 "B" 7]
               (Some next_influx_cursor)
        else if bool_decide (eTime = VNum (Int (sample_ms - 1)))
        then influx_answer [point 1717180319 "A" 5] None
        else Rejected None
      else Rejected None
  | _ => Rejected None
  end.

Definition reading_world : World :=
  {| srv_devices := fun _ _ =>
       Responded 200 (Some (DevArray [{| devID := "D1"; devTypeID := "T1" |}]));
     srv_metadata := fun _ _ => Rejected None;
     srv_firstDp := fun _ _ => Rejected None;
     srv_dp := fun _ r => reading_dp r;
     srv_influx := fun _ r => reading_influx r;
     srv_load := fun _ _ => Rejected None;
     srv_categories := fun _ _ => Rejected None;
     srv_publish := fun _ _ => Rejected None;
     srv_timeslot := fun _ _ => Rejected None |}.

Definition two_sensor_query : DataQueryOptions :=
  query_options "D1" (Some ["A"; "B"]) time_before time_sample true false.

Definition two_sensor_options : GetDpOptions :=
  dp_options "D1" (Some ["A"; "B"]) 1 true false.

(* ===================================================================== *)
(** ** The time normalizer *)
(* ===================================================================== *)

(** C5 at the failing inputs.  The code does not count digits: it tests the
    length of [String(time)].  The number 10^21 has 22 digits, but its text
    is [1e+21], five characters long, and it is rejected as if it were a
    count of seconds.  The number 123456.7891 has six integer digits and is
    no count of milliseconds, but its text is eleven characters long and it
    is accepted; so is 1717180320.5, a count of seconds with a fraction.  A
    13-digit and a 10-digit integer are judged as meant. *)
Lemma timeToUnix_tests_text_length :
  Number_toString (Int (10 ^ 21)) = "1e+21"
  /\ timeToUnix (TimeNumber (Int (10 ^ 21))) = Throw (Error msg_not_millis)
  /\ Number_toString (parseFloat_string "123456.7891") = "123456.7891"
  /\ timeToUnix (TimeNumber (parseFloat_string "123456.7891"))
     = Ok (parseFloat_string "123456.7891")
  /\ timeToUnix (TimeNumber (parseFloat_string "1717180320.5"))
     = Ok (parseFloat_string "1717180320.5")
  /\ timeToUnix (TimeNumber (Int sample_ms)) = Ok (Int sample_ms)
  /\ timeToUnix (TimeNumber (Int 1717180320)) = Throw (Error msg_not_millis).
Proof. repeat split. Qed.

(* ===================================================================== *)
(** ** The calibration stage *)
(* ===================================================================== *)

Section CalibrationFacts.
Context {N : JSNumber}.

Lemma read_params_snoc (ps : list Param) (p : Param) :
  read_params (ps ++ [p])%list = read_param (read_params ps) p.
Proof. unfold read_params. now rewrite fold_left_app. Qed.

Lemma last_param_snoc (name : string) (ps : list Param) (p : Param) :
  last_param name (ps ++ [p])%list =
  if String.eqb (paramName p) name then Some (paramValue p) else last_param name ps.
Proof. unfold last_param. now rewrite fold_left_app. Qed.

(** The loop over the parameters keeps, for each of the four names, the last
    entry of that name. *)
Lemma read_params_last (ps : list Param) :
  read_params ps =
  {| cal_m := match last_param "m" ps with
              | Some v => num_or (parseFloat v) (of_Z 1)
              | None => of_Z 1
              end;
     cal_c := match last_param "c" ps with
              | Some v => num_or (parseFloat v) (of_Z 0)
              | None => of_Z 0
              end;
     cal_min := parseFloat <$> last_param "min" ps;
     cal_max := parseFloat <$> last_param "max" ps |}.
Proof.
  induction ps as [|p ps IH] using rev_ind; [reflexivity|].
  rewrite read_params_snoc, IH, !last_param_snoc. unfold read_param.
  cbn [cal_m cal_c cal_min cal_max].
  destruct (String.eqb_spec (paramName p) "m") as [Hm|Hm]; [now rewrite Hm|].
  destruct (String.eqb_spec (paramName p) "c") as [Hc|Hc]; [now rewrite Hc|].
  destruct (String.eqb_spec (paramName p) "min") as [Hmin|Hmin]; [now rewrite Hmin|].
  destruct (String.eqb_spec (paramName p) "max") as [Hmax|Hmax]; reflexivity.
Qed.

Lemma clamp_bound_of (f : num -> num -> num) (name : string) (ps : list Param) (v : num) :
  clamp f (parseFloat <$> last_param name ps) v =
  match bound_of name ps with Some b => f v b | None => v end.
Proof.
  unfold clamp, bound_of. destruct (last_param name ps) as [pv|]; cbn; [|reflexivity].
  now destruct (isNaN (parseFloat pv)).
Qed.

(** The value computed by the code is the formula of the specification at
    the slope and intercept in force. *)
Lemma calibrated_value_spec (ps : list Param) (v : num) :
  calibrated_value (read_params ps) v =
  spec_calibrated (slope_of ps) (intercept_of ps) (bound_of "min" ps) (bound_of "max" ps) v.
Proof.
  unfold calibrated_value, spec_calibrated. rewrite read_params_last. cbn.
  rewrite !clamp_bound_of. unfold slope_of, intercept_of, num_or.
  reflexivity.
Qed.

End CalibrationFacts.

Section CalibrationRows.
Context {N : JSNumber}.

(** A row with a numeric value whose sensor has parameters. *)
Lemma calibrate_row_numeric (metadata : DeviceMetadata) (row : obj) (ps : list Param) :
  sensor_params metadata row = Own ps ->
  obj_get row "value" <> VNull ->
  obj_get row "value" <> VUndef ->
  isNaN (parseFloat (obj_get row "value")) = false ->
  calibrate_row metadata row =
  Ok (obj_set "value"
        (VNum (spec_calibrated (slope_of ps) (intercept_of ps)
                 (bound_of "min" ps) (bound_of "max" ps)
                 (parseFloat (obj_get row "value")))) row).
Proof.
  intros Hps Hnull Hundef Hnum. unfold calibrate_row. rewrite Hps.
  rewrite <- calibrated_value_spec.
  destruct (obj_get row "value") eqn:Hv; try congruence; now rewrite Hnum.
Qed.






(** C10.  A slope parameter that parses to zero or to no number at all is
    replaced by 1 before the formula is applied: every row with a numeric
    value is then calibrated with slope 1, not mapped to the intercept. *)
Theorem zero_slope_defaults_to_one
    (metadata : DeviceMetadata) (row : obj) (ps : list Param) (pv : prim) :
  sensor_params metadata row = Own ps ->
  last_param "m" ps = Some pv ->
  is_zero (parseFloat pv) || isNaN (parseFloat pv) = true ->
  cal_m (read_params ps) = of_Z 1
  /\ (obj_get row "value" <> VNull ->
      obj_get row "value" <> VUndef ->
      isNaN (parseFloat (obj_get row "value")) = false ->
      calibrate_row metadata row =
      Ok (obj_set "value"
            (VNum (spec_calibrated (of_Z 1) (intercept_of ps)
                     (bound_of "min" ps) (bound_of "max" ps)
                     (parseFloat (obj_get row "value")))) row)).
Proof.
  intros Hps Hm Hzero. split.
  - rewrite read_params_last. cbn. rewrite Hm. unfold num_or. now rewrite Hzero.
  - intros Hnull Hundef Hnum.
    rewrite (calibrate_row_numeric metadata row ps Hps Hnull Hundef Hnum).
    unfold slope_of. now rewrite Hm, Hzero.
Qed.

End CalibrationRows.

(** The examples of the specification: slope 2, intercept 1, bounds 0 and
    100.  A raw 10 gives 21; a raw 60 gives 121, clamped to 100; the text
    [abc] is no number and stays. *)
Example calibrate_examples :
  calibrate md_clamped
    [point 100 "A" 10; point 101 "A" 60;
     [("time", VNum (Int 102)); ("sensor", VStr "A"); ("value", VStr "abc")];
     [("time", VNum (Int 103)); ("sensor", VStr "A"); ("value", VNull)];
     point 104 "B" 7]
  = Ok [point 100 "A" 21; point 101 "A" 100;
        [("time", VNum (Int 102)); ("sensor", VStr "A"); ("value", VStr "abc")];
        [("time", VNum (Int 103)); ("sensor", VStr "A"); ("value", VNull)];
        point 104 "B" 7].
Proof. reflexivity. Qed.

(** A sensor called [constructor] without parameters of its own: the
    lookup finds [Object.prototype.constructor] and the stage throws. *)
Example calibrate_inherited_name :
  calibrate md_clamped [point 100 "A" 10; point 101 "constructor" 5]
  = Throw (TypeError msg_not_iterable).
Proof. reflexivity. Qed.



Lemma zero_slope_defaults_to_one_witness :
  cal_m (read_params [mk_param "m" 0; mk_param "c" 1]) = (Int 1 : @num Binary64)
  /\ calibrate_row md_zero_slope (point 100 "A" 10) = Ok (point 100 "A" 11).
Proof.
  destruct (zero_slope_defaults_to_one (N := Binary64) md_zero_slope (point 100 "A" 10)
              [mk_param "m" 0; mk_param "c" 1] (@VNum Binary64 (Int 0))
              eq_refl eq_refl eq_refl) as [Hm Hrow].
  split; [exact Hm|].
  apply Hrow; [discriminate | discriminate | reflexivity].
Defined.

(* ===================================================================== *)
(** ** Objects and first-seen order *)
(* ===================================================================== *)

Section FirstSeen.
Context {A : Type} `{EqDecision A}.

Lemma elem_of_first_seen (l : list A) (x : A) : x ∈ first_seen l <-> x ∈ l.
Proof.
  induction l as [|y l IH]; cbn; [reflexivity|].
  rewrite !elem_of_cons, list_elem_of_filter, IH.
  destruct (decide (x = y)); naive_solver.
Qed.

Lemma first_seen_NoDup (l : list A) : NoDup (first_seen l).
Proof.
  induction l as [|y l IH]; cbn; [constructor|].
  apply NoDup_cons. split; [|now apply NoDup_filter].
  rewrite list_elem_of_filter. naive_solver.
Qed.

(** Adding the elements of [l] to a set that holds [seen] appends the new
    ones in first-seen order. *)
Lemma fold_add_seen (l : list A) :
  forall seen : list A,
    fold_left add_seen l seen =
    (seen ++ filter (fun y => y ∉ seen) (first_seen l))%list.
Proof.
  induction l as [|x l IH]; intros seen; cbn [fold_left first_seen].
  - now rewrite filter_nil, app_nil_r.
  - rewrite IH. unfold add_seen. case_bool_decide as Hx.
    + rewrite filter_cons_False by naive_solver.
      rewrite list_filter_filter. f_equal. apply list_filter_iff.
      intros y. split; [|tauto]. intros Hy. split; [exact Hy|congruence].
    + rewrite filter_cons_True by exact Hx.
      rewrite <- app_assoc. cbn [app]. do 2 f_equal.
      rewrite list_filter_filter. apply list_filter_iff.
      intros y. rewrite not_elem_of_app, list_elem_of_singleton. tauto.
Qed.

(** The elements of [new Set(l)] come in the order of their first
    occurrence in [l]. *)
Lemma distinct_first_seen (l : list A) : distinct l = first_seen l.
Proof.
  unfold distinct. rewrite fold_add_seen. cbn [app].
  induction (first_seen l) as [|y k IH]; [reflexivity|].
  rewrite filter_cons_True by apply not_elem_of_nil. now rewrite IH.
Qed.

Lemma first_seen_cons_fresh (x : A) (l : list A) :
  x ∉ l -> first_seen (x :: l) = x :: first_seen l.
Proof.
  intros Hx. cbn. f_equal.
  assert (Hin : forall y, y ∈ first_seen l -> y <> x).
  { intros y Hy ->. rewrite elem_of_first_seen in Hy. exact (Hx Hy). }
  induction (first_seen l) as [|y k IH]; [reflexivity|].
  rewrite filter_cons_True by (apply Hin; left).
  rewrite IH; [reflexivity|]. intros z Hz. apply Hin. now right.
Qed.

End FirstSeen.

Section ObjectFacts.
Context {N : JSNumber}.

Lemma obj_get_set (k : string) (v : prim) (o : obj) (k' : string) :
  obj_get (obj_set k v o) k' = if String.eqb k k' then v else obj_get o k'.
Proof.
  induction o as [|[k0 v0] o IH]; cbn.
  - now destruct (String.eqb k k').
  - destruct (String.eqb_spec k0 k) as [->|Hne]; cbn.
    + now destruct (String.eqb k k').
    + rewrite IH. destruct (String.eqb_spec k0 k') as [->|Hne'];
        [|reflexivity].
      destruct (String.eqb_spec k k'); congruence.
Qed.

Lemma obj_set_keys (k : string) (v : prim) (o : obj) :
  map fst (obj_set k v o) = add_seen (map fst o) k.
Proof.
  unfold add_seen. induction o as [|[k0 v0] o IH]; cbn.
  - rewrite bool_decide_eq_false_2; [reflexivity|apply not_elem_of_nil].
  - destruct (String.eqb_spec k0 k) as [->|Hne]; cbn.
    + rewrite bool_decide_eq_true_2; [reflexivity|left].
    + rewrite IH. case_bool_decide as Hin.
      * rewrite bool_decide_eq_true_2; [reflexivity|now right].
      * rewrite bool_decide_eq_false_2; [reflexivity|].
        rewrite elem_of_cons. naive_solver.
Qed.

Lemma index_keys_none (ks : list string) :
  (forall k, k ∈ ks -> array_index k = None) -> index_keys ks = [].
Proof.
  induction ks as [|k ks IH]; intros Hks; cbn; [reflexivity|].
  rewrite (Hks k) by left. apply IH. intros k' Hk'. apply Hks. now right.
Qed.

(** Without array-index keys the properties are enumerated in insertion
    order. *)
Lemma own_keys_no_index (o : obj) :
  (forall k, k ∈ map fst o -> array_index k = None) -> own_keys o = map fst o.
Proof.
  intros Hks. unfold own_keys. rewrite index_keys_none by exact Hks. cbn.
  induction (map fst o) as [|k ks IH]; [reflexivity|].
  rewrite filter_cons_True by (apply Hks; left).
  rewrite IH; [reflexivity|]. intros k' Hk'. apply Hks. now right.
Qed.

End ObjectFacts.

(* ===================================================================== *)
(** ** The pivot stage *)
(* ===================================================================== *)

Section PivotFacts.
Context {N : JSNumber}.

Lemma js_assign_plain (k : string) (v : prim) (o : obj) (b : bool) :
  k <> "__proto__" -> js_assign k v (o, b) = (obj_set k v o, b).
Proof.
  intros Hk. unfold js_assign. cbn [fst snd].
  destruct (String.eqb_spec k "__proto__") as [Heq|_]; [now destruct Hk|].
  now rewrite andb_false_r.
Qed.

Lemma pivot_add_spec (p : obj * bool) (row : out_row) :
  pivot_add p row =
  if reporting row then js_assign (column_of row) (obj_get (fields row) "value") p else p.
Proof.
  unfold pivot_add, reporting, column_of.
  destruct (sensor_key row) as [key|]; reflexivity.
Qed.

(** As long as no record reports to [__proto__] the pivoted row keeps its
    prototype and every report sets a property. *)
Lemma pivot_fold_plain (rs : list out_row) :
  (forall r, r ∈ rs -> reporting r = true -> column_of r <> "__proto__") ->
  forall p0 : obj,
    fold_left pivot_add rs (p0, true) = (fold_left add_column rs p0, true).
Proof.
  induction rs as [|r rs IH]; intros Hrs p0; [reflexivity|].
  cbn [fold_left]. rewrite pivot_add_spec. unfold add_column at 2.
  destruct (reporting r) eqn:Hr.
  - rewrite js_assign_plain by (apply Hrs; [left|exact Hr]).
    apply IH. intros r' Hr'. apply Hrs. now right.
  - apply IH. intros r' Hr'. apply Hrs. now right.
Qed.

(** The keys of a pivoted row grow like a set of column names. *)
Lemma pivot_fold_keys (rs : list out_row) :
  forall p0 : obj,
    map fst (fold_left add_column rs p0) =
    fold_left add_seen
      (map column_of (filter (fun r => reporting r = true) rs)) (map fst p0).
Proof.
  induction rs as [|r rs IH]; intros p0; [reflexivity|].
  cbn [fold_left]. rewrite IH. unfold add_column at 1.
  destruct (reporting r) eqn:Hr.
  - rewrite filter_cons_True by exact Hr. cbn [map fold_left].
    now rewrite obj_set_keys.
  - rewrite filter_cons_False by congruence. reflexivity.
Qed.

(** Each column holds the value of the last record that reports to it. *)
Lemma pivot_fold_get (c : string) (rs : list out_row) :
  forall p0 : obj,
    obj_get (fold_left add_column rs p0) c =
    fold_left
      (fun acc r => if String.eqb (column_of r) c then obj_get (fields r) "value" else acc)
      (filter (fun r => reporting r = true) rs) (obj_get p0 c).
Proof.
  induction rs as [|r rs IH]; intros p0; [reflexivity|].
  cbn [fold_left]. rewrite IH. unfold add_column at 1.
  destruct (reporting r) eqn:Hr.
  - rewrite filter_cons_True by exact Hr. cbn [fold_left].
    now rewrite obj_get_set.
  - rewrite filter_cons_False by congruence. reflexivity.
Qed.

Lemma fold_no_column (c : string) (rs : list out_row) (v : prim) :
  (forall r, r ∈ rs -> column_of r <> c) ->
  fold_left
    (fun acc r => if String.eqb (column_of r) c then obj_get (fields r) "value" else acc)
    rs v = v.
Proof.
  revert v. induction rs as [|r rs IH]; intros v Hrs; [reflexivity|].
  cbn [fold_left]. destruct (String.eqb_spec (column_of r) c) as [Heq|_].
  - exfalso. apply (Hrs r); [left|exact Heq].
  - apply IH. intros r' Hr'. apply Hrs. now right.
Qed.

Lemma reports_at_filter (rows : list out_row) (k : prim) :
  filter (fun r => reporting r = true)
    (filter (fun row => strict_eq (group_key (fields row)) k = true) rows)
  = reports_at rows k.
Proof.
  rewrite list_filter_filter. unfold reports_at. apply list_filter_iff.
  intros r. change (group_key (fields r)) with (key_of r). tauto.
Qed.

Lemma elem_of_reports_at (rows : list out_row) (k : prim) (r : out_row) :
  r ∈ reports_at rows k <->
  (strict_eq (key_of r) k = true /\ reporting r = true) /\ r ∈ rows.
Proof. unfold reports_at. now rewrite list_elem_of_filter. Qed.

Section Provisos.
Variable rows : list out_row.
Hypothesis Hcols :
  forall r, r ∈ rows -> reporting r = true ->
            column_of r <> "timestamp" /\ column_of r <> "__proto__".

Lemma pivot_row_fold (k : prim) :
  pivot_row rows k =
  fold_left add_column
    (filter (fun row => strict_eq (group_key (fields row)) k = true) rows)
    [("timestamp", k)].
Proof.
  unfold pivot_row. rewrite pivot_fold_plain; [reflexivity|].
  intros r Hr Hrep. apply list_elem_of_filter in Hr as [_ Hr].
  now apply Hcols.
Qed.

Lemma pivot_row_keys (k : prim) :
  map fst (pivot_row rows k) =
  "timestamp" :: first_seen (map column_of (reports_at rows k)).
Proof.
  rewrite pivot_row_fold, pivot_fold_keys, reports_at_filter.
  cbn [map fst].
  change (fold_left add_seen (map column_of (reports_at rows k)) ["timestamp"])
    with (distinct ("timestamp" :: map column_of (reports_at rows k))).
  rewrite distinct_first_seen. apply first_seen_cons_fresh.
  intros Hin. apply list_elem_of_fmap in Hin as (r & Hc & Hr).
  apply elem_of_reports_at in Hr as [[_ Hrep] Hr].
  destruct (Hcols r Hr Hrep) as [Hts _]. congruence.
Qed.

Lemma pivot_row_timestamp (k : prim) :
  obj_get (pivot_row rows k) "timestamp" = k.
Proof.
  rewrite pivot_row_fold, pivot_fold_get, reports_at_filter.
  cbn [obj_get]. cbn. apply fold_no_column.
  intros r Hr. apply elem_of_reports_at in Hr as [[_ Hrep] Hr].
  now destruct (Hcols r Hr Hrep) as [Hts _].
Qed.

Lemma pivot_row_column (k : prim) (c : string) :
  c <> "timestamp" ->
  obj_get (pivot_row rows k) c = last_report c (reports_at rows k).
Proof.
  intros Hc. rewrite pivot_row_fold, pivot_fold_get, reports_at_filter.
  unfold last_report. f_equal. cbn [obj_get].
  destruct (String.eqb_spec "timestamp" c); congruence.
Qed.

End Provisos.

End PivotFacts.

Section PivotSpec.
Context {N : JSNumber}.

(** C4, amended.  For a record list in which no reporting record (truthy
    sensor, value not [undefined]) names its sensor [timestamp] or
    [__proto__], pivot yields exactly one row per distinct grouping key (the
    [timestamp] field if truthy, else [time]; the keys are told apart as a
    [Set] does, so [-0] counts as [0]), the rows in the first-seen order of
    their keys.  The row of a key holds the key under [timestamp] and one
    column per sensor reporting at that key, with the value of the last
    such report; a record is at a key when its own key [===] it, so that a
    record whose key is NaN is in no row.  A sensor that does not report at
    the key has no property in the row.  The properties are created in
    first-seen order of the sensors, which is also their enumeration order
    as long as no sensor name is an array index. *)
Theorem pivot_spec (rows : list out_row) :
  (forall r, r ∈ rows -> reporting r = true ->
             column_of r <> "timestamp" /\ column_of r <> "__proto__") ->
  map (fun p => obj_get p "timestamp") (pivot rows) = group_keys rows
  /\ NoDup (group_keys rows)
  /\ (forall k, k ∈ group_keys rows <->
                exists r, r ∈ rows /\ set_element (key_of r) = k)
  /\ forall (i : nat) (k : prim),
       group_keys rows !! i = Some k ->
       exists p : obj,
         pivot rows !! i = Some p
         /\ obj_get p "timestamp" = k
         /\ map fst p = "timestamp" :: first_seen (map column_of (reports_at rows k))
         /\ (forall c, c <> "timestamp" ->
               obj_get p c = last_report c (reports_at rows k))
         /\ (forall c, c <> "timestamp" ->
               c ∉ map column_of (reports_at rows k) -> c ∉ map fst p)
         /\ ((forall c, c ∈ map column_of (reports_at rows k) -> array_index c = None) ->
             own_keys p = "timestamp" :: first_seen (map column_of (reports_at rows k))).
Proof.
  intros Hcols. unfold pivot, group_keys. rewrite distinct_first_seen.
  change (map (fun row => set_element (group_key (fields row))) rows)
    with (map (fun row => set_element (key_of row)) rows).
  set (ks := first_seen (map (fun row => set_element (key_of row)) rows)).
  split; [|split; [|split]].
  - rewrite map_map. clear -Hcols. induction ks as [|k ks IH]; [reflexivity|].
    cbn [map]. now rewrite pivot_row_timestamp, IH.
  - apply first_seen_NoDup.
  - intros k. unfold ks. rewrite elem_of_first_seen.
    change (map (fun row => set_element (key_of row)) rows)
      with ((fun row => set_element (key_of row)) <$> rows).
    rewrite list_elem_of_fmap. naive_solver.
  - intros i k Hi. exists (pivot_row rows k).
    split; [|split; [|split; [|split; [|split]]]].
    + change (map (pivot_row rows) ks) with (pivot_row rows <$> ks).
      now rewrite list_lookup_fmap, Hi.
    + now apply pivot_row_timestamp.
    + now apply pivot_row_keys.
    + intros c Hc. now apply pivot_row_column.
    + intros c Hc Hnot. rewrite pivot_row_keys by exact Hcols.
      rewrite not_elem_of_cons, elem_of_first_seen. now split.
    + intros Hidx. rewrite <- pivot_row_keys by exact Hcols.
      apply own_keys_no_index. rewrite pivot_row_keys by exact Hcols.
      intros c Hc. apply elem_of_cons in Hc as [->|Hc]; [reflexivity|].
      apply Hidx. now rewrite elem_of_first_seen in Hc.
Qed.

End PivotSpec.

(** The example of the specification. *)
Example pivot_example :
  pivot (map plain [point 100 "A" 5; point 100 "B" 7])
  = [[("timestamp", VNum (Int 100)); ("A", VNum (Int 5)); ("B", VNum (Int 7))]].
Proof. reflexivity. Qed.

(** Rows come in first-seen order of the key, not in order of magnitude. *)
Example pivot_first_seen_order :
  map (fun p => obj_get p "timestamp")
    (pivot (map plain
              [point 300 "A" 1; point 100 "A" 2; point 300 "B" 3; point 200 "A" 4]))
  = [VNum (Int 300); VNum (Int 100); VNum (Int 200)].
Proof. reflexivity. Qed.

Lemma pivot_spec_witness :
  exists p : obj,
    pivot (map plain [point 100 "A" 5; point 100 "B" 7]) !! 0%nat = Some p
    /\ obj_get p "timestamp" = VNum (Int 100)
    /\ map fst p = ["timestamp"; "A"; "B"]
    /\ obj_get p "B" = VNum (Int 7)
    /\ "C" ∉ map fst p
    /\ own_keys p = ["timestamp"; "A"; "B"].
Proof.
  assert (Hcols : forall r : out_row,
             r ∈ map plain [point 100 "A" 5; point 100 "B" 7] ->
             reporting r = true ->
             column_of r <> "timestamp" /\ column_of r <> "__proto__").
  { intros r Hr _. apply elem_of_cons in Hr as [->|Hr]; [split; discriminate|].
    apply list_elem_of_singleton in Hr as ->. split; discriminate. }
  destruct (pivot_spec (map plain [point 100 "A" 5; point 100 "B" 7]) Hcols)
    as (_ & _ & _ & Hrow).
  destruct (Hrow 0%nat (@VNum Binary64 (Int 100)) eq_refl)
    as (p & Hp & Ht & Hk & Hc & Habs & Hown).
  assert (E : map column_of
                (reports_at (map plain [point 100 "A" 5; point 100 "B" 7])
                   (@VNum Binary64 (Int 100)))
              = ["A"; "B"]) by reflexivity.
  rewrite E in Hk, Habs, Hown.
  exists p. split; [exact Hp|]. split; [exact Ht|]. split; [exact Hk|].
  split; [apply (Hc "B"); discriminate|].
  split.
  - apply (Habs "C"); [discriminate|].
    intros Hin. apply elem_of_cons in Hin as [Hin|Hin]; [discriminate|].
    apply list_elem_of_singleton in Hin. discriminate.
  - apply Hown. intros c Hin.
    apply elem_of_cons in Hin as [->|Hin]; [reflexivity|].
    apply list_elem_of_singleton in Hin as ->. reflexivity.
Defined.

(** C4 as stated fails in three places.  A sensor named [timestamp]
    overwrites the key of its row; sensors named by array indices are
    enumerated in ascending order ahead of [timestamp], whatever their
    arrival order; and a sensor named [__proto__] gets no column, its value
    going to the setter of [Object.prototype]. *)
Lemma pivot_counterexample :
  key_of (plain (point 100 "timestamp" 5)) = VNum (Int 100)
  /\ pivot (map plain [point 100 "timestamp" 5]) = [[("timestamp", VNum (Int 5))]]
  /\ map own_keys (pivot (map plain [point 100 "B" 1; point 100 "7" 2; point 100 "3" 4]))
     = [["3"; "7"; "timestamp"; "B"]]
  /\ pivot (map plain [point 100 "__proto__" 5]) = [[("timestamp", VNum (Int 100))]].
Proof. repeat split. Qed.

(* ===================================================================== *)
(** ** The fetch loops: retry and exhaustion *)
(* ===================================================================== *)

Section Traces.
Context {N : JSNumber}.

Lemma requests_app (t1 t2 : trace) :
  requests (t1 ++ t2)%list = (requests t1 + requests t2)%nat.
Proof. unfold requests. now rewrite List.filter_app, length_app. Qed.


End Traces.

Section FetchLoops.
Context {N : JSNumber} {H : Host}.
Variable W : World.
Variable cfg : Config.

(** *** [getDp] *)




(** *** [_influxdb] *)

Lemma influx_try_fails (url deviceId sensorValues : string) (cur : CursorData)
    (allData : list obj) (t : trace) :
  influx_fails (srv_influx W (requests t) (influx_request url deviceId sensorValues cur)) ->
  exists e : error,
    influx_try W url deviceId sensorValues cur allData t =
    (Raise e, (t ++ [EvRequest (influx_request url deviceId sensorValues cur)])%list).
Proof.
  unfold influx_try, bind, axios, influx_request, influx_fails.
  destruct (srv_influx W (requests t) _) as [st|st body]; intros Hf.
  - now eexists.
  - cbn. rewrite Hf. now eexists.
Qed.

Lemma influx_while_fail_step (fuel : nat) (url deviceId sensorValues : string)
    (cur : CursorData) (retry : Z) (allData : list obj) (t : trace) :
  influx_cursor_open (Some cur) = true ->
  influx_fails (srv_influx W (requests t) (influx_request url deviceId sensorValues cur)) ->
  influx_while W (S fuel) url deviceId sensorValues (Some cur) retry allData t =
  if retry + 1 <? MAX_RETRIES_INFLUX
  then influx_while W fuel url deviceId sensorValues (Some cur) (retry + 1) allData
         (t ++ [EvRequest (influx_request url deviceId sensorValues cur);
                EvSleep (if 5 <? retry + 1
                         then RETRY_DELAY_INFLUX.2 else RETRY_DELAY_INFLUX.1)])%list
  else (Raise (Error "Max retries reached fetching data."),
        (t ++ [EvRequest (influx_request url deviceId sensorValues cur)])%list).
Proof.
  intros Hopen Hf. cbn [influx_while]. rewrite Hopen.
  destruct (influx_try_fails url deviceId sensorValues cur allData t Hf) as [e He].
  unfold bind at 1. unfold attempt, try_catch. unfold bind at 1. rewrite He.
  cbn [ret]. destruct (retry + 1 <? MAX_RETRIES_INFLUX); [|reflexivity].
  unfold bind, _sleep. now rewrite <- app_assoc.
Qed.


(** *** [getLoadEntities] *)



End FetchLoops.

Section RetryExhaustion.
Context {N : JSNumber} {H : Host}.


End RetryExhaustion.


(** C9 at the failing input: one rejected request, then the last page.  The
    point query sleeps [_sleep(2)], two milliseconds, where the bulk query
    sleeps [_sleep(2000)]; an exhausted entity listing sleeps 2 ms five
    times and 4 ms from the sixth failure on. *)
Lemma rest_backoff_sleeps_milliseconds :
  sleeps (getDp flaky_world sample_cfg 20 sample_dp_options []).2 = [2]
  /\ sleeps (dataQuery flaky_world sample_cfg 20 sample_query_options []).2 = [2000]
  /\ sleeps (getLoadEntities rejecting_world sample_cfg 20
               {| lo_onPrem := None; lo_clusters := None |} []).2
     = [2; 2; 2; 2; 2; 4; 4; 4; 4; 4; 4; 4; 4; 4].
Proof. repeat split. Qed.

(** C2 at the failing input: the only page of a point query comes with a
    [null] cursor.  The loop condition [cursor.end] raises a TypeError
    outside the [try]; [getDp] swallows it and returns no row at all, after
    exactly one point request.  With a cursor object whose [end] is [null]
    the same page is returned. *)
Lemma getDp_null_cursor_drops_page :
  getDp_while null_cursor_world 20 dp_url "D1" "A" (Some open_dp_cursor) 0 [] []
  = (Raise (TypeError "Cannot read properties of null (reading 'end')"),
     [EvRequest (dp_request dp_url "D1" "A" open_dp_cursor)])
  /\ (getDp null_cursor_world sample_cfg 20 sample_dp_options []).1 = Return []
  /\ requests (getDp null_cursor_world sample_cfg 20 sample_dp_options []).2 = 2%nat
  /\ (getDp closed_cursor_world sample_cfg 20 sample_dp_options []).1
     = Return [plain (point 1717180000 "A" 5)].
Proof. repeat split. Qed.

(** C6 at the failing input: a sensor whose name is its own id.  The stage
    writes the value under the alias and then deletes the original key,
    which is the same key: the column is lost. *)
Lemma alias_self_named_sensor_loses_value :
  apply_alias md_self_named [wide_row 100 "S1" 5]
  = [plain [("timestamp", VNum (Int 100))]].
Proof. reflexivity. Qed.

(** The example of the specification: S1 is named Temp. *)
Example alias_example :
  apply_alias md_temp [point 100 "S1" 5; wide_row 100 "S1" 5]
  = [plain (point 100 "Temp" 5); plain (wide_row 100 "Temp" 5)].
Proof. reflexivity. Qed.

(** Names that every plain object inherits.  A sensor called [toString]
    without a name of its own is replaced by the function; a column called
    [constructor] moves to the key that the function's text spells. *)
Example alias_inherited_names :
  apply_alias md_temp [point 100 "toString" 5; wide_row 100 "constructor" 5]
  = [{| fields := point 100 "toString" 5; sensor_builtin := Some b_toString |};
     plain [("timestamp", VNum (Int 100));
            ("function Object() { [native code] }", VNum (Int 5))]].
Proof. reflexivity. Qed.

(* ===================================================================== *)
(** ** The error policy *)
(* ===================================================================== *)

Section ErrorPolicy.
Context {N : JSNumber} {H : Host}.

Lemma try_catch_swallows {A : Type} (c : M A) (v : A) (t : trace) :
  (forall e t', try_catch c (fun _ => ret v) t <> (Raise e, t'))
  /\ (forall e t', c t = (Raise e, t') -> try_catch c (fun _ => ret v) t = (Return v, t')).
Proof.
  unfold try_catch, ret. destruct (c t) as [[a|e|] t1]; split; intros; congruence.
Qed.

Lemma try_catch_rethrows {A : Type} (c : M A) (t : trace) :
  try_catch c (fun e => raise e) t = c t.
Proof. unfold try_catch, raise. now destruct (c t) as [[a|e|] t1]. Qed.

(** C8 at the failing input, for every platform: with [clusters = []] the
    validation error is thrown inside the [try] and caught by the [catch] of
    the same function, which resolves with [[]]; no request is issued. *)
Lemma getLoadEntities_empty_clusters (W : World) (cfg : Config) (fuel : nat)
    (onPrem : option bool) (t : trace) :
  getLoadEntities_body W cfg fuel {| lo_onPrem := onPrem; lo_clusters := Some [] |} t
  = (Raise (Error "No clusters provided."), t)
  /\ getLoadEntities W cfg fuel {| lo_onPrem := onPrem; lo_clusters := Some [] |} t
     = (Return [], t).
Proof. split; reflexivity. Qed.

Variable W : World.
Variable cfg : Config.
Variables PUBLISH_EVENT_URL GET_EVENTS_IN_TIMESLOT_URL GET_EVENT_CATEGORIES_URL : string.

(** C7.  Every query operation is one [try] whose [catch] returns the empty
    result: it never raises, and whenever its body raises it resolves with
    [[]] (the metadata getters with [{}]).  [publishEvent] raises whatever
    its body raises, and raises "No event tags found." without any request
    when it is given neither names nor tags. *)
Theorem error_policy :
  (forall o t e t', getFirstDp W cfg o t <> (Raise e, t'))
  /\ (forall f o t e t', getDp W cfg f o t <> (Raise e, t'))
  /\ (forall f o t e t', dataQuery W cfg f o t <> (Raise e, t'))
  /\ (forall f o t e t', _influxdb W cfg f o t <> (Raise e, t'))
  /\ (forall f o t e t', getLoadEntities W cfg f o t <> (Raise e, t'))
  /\ (forall o t e t',
        getEventsInTimeslot W cfg GET_EVENTS_IN_TIMESLOT_URL o t <> (Raise e, t'))
  /\ (forall p t e t', getEventCategories W cfg GET_EVENT_CATEGORIES_URL p t <> (Raise e, t'))
  /\ (forall p t e t', getDeviceDetails W cfg p t <> (Raise e, t'))
  /\ (forall d p t e t', getDeviceMetaData W cfg d p t <> (Raise e, t'))
  /\ (forall o t e t', getFirstDp_body W cfg o t = (Raise e, t') ->
        getFirstDp W cfg o t = (Return [], t'))
  /\ (forall f o t e t', getDp_body W cfg f o t = (Raise e, t') ->
        getDp W cfg f o t = (Return [], t'))
  /\ (forall f o t e t', dataQuery_body W cfg f o t = (Raise e, t') ->
        dataQuery W cfg f o t = (Return [], t'))
  /\ (forall f o t e t', _influxdb_body W cfg f o t = (Raise e, t') ->
        _influxdb W cfg f o t = (Return [], t'))
  /\ (forall f o t e t', getLoadEntities_body W cfg f o t = (Raise e, t') ->
        getLoadEntities W cfg f o t = (Return [], t'))
  /\ (forall o t e t',
        getEventsInTimeslot_body W cfg GET_EVENTS_IN_TIMESLOT_URL o t = (Raise e, t') ->
        getEventsInTimeslot W cfg GET_EVENTS_IN_TIMESLOT_URL o t = (Return [], t'))
  /\ (forall o t e t',
        publishEvent_body W cfg PUBLISH_EVENT_URL GET_EVENT_CATEGORIES_URL o t
          = (Raise e, t') ->
        publishEvent W cfg PUBLISH_EVENT_URL GET_EVENT_CATEGORIES_URL o t
          = (Raise e, t'))
  /\ (forall o t,
        pe_eventNamesList o = None \/ pe_eventNamesList o = Some [] ->
        pe_eventTagsList o = None \/ pe_eventTagsList o = Some [] ->
        publishEvent W cfg PUBLISH_EVENT_URL GET_EVENT_CATEGORIES_URL o t
          = (Raise (Error "No event tags found."), t)).
Proof.
  repeat match goal with |- _ /\ _ => split end;
    try (intros; apply try_catch_swallows; assumption);
    try (intros; eapply try_catch_swallows; eassumption).
  - intros o t e t' Hbody. unfold publishEvent. now rewrite try_catch_rethrows.
  - intros o t Hnames Htags. unfold publishEvent. rewrite try_catch_rethrows.
    unfold publishEvent_body.
    destruct Hnames as [-> | ->]; destruct Htags as [-> | ->]; reflexivity.
Qed.

End ErrorPolicy.

Lemma error_policy_witness :
  getDp rejecting_world sample_cfg 20 sample_dp_options []
  = (Return [], [EvRequest (ReqDeviceDetails
                              "https://datads.iosense.io/api/metaData/allDevices")])
  /\ publishEvent rejecting_world sample_cfg "/publish" "/categories" no_tags []
     = (Raise (Error "No event tags found."), []).
Proof.
  destruct (error_policy (H := SampleHost) rejecting_world sample_cfg
              "/publish" "/timeslot" "/categories")
    as (_ & _ & _ & _ & _ & _ & _ & _ & _ & _ & Hdp & _ & _ & _ & _ & _ & Htags).
  split.
  - apply (Hdp 20%nat sample_dp_options []
             (Error "Failed to fetch device details")).
    reflexivity.
  - apply Htags; [left; reflexivity | right; reflexivity].
Defined.

(* ===================================================================== *)
(** ** Further properties of the orchestrators *)
(* ===================================================================== *)

Section DeviceCheck.
Context {N : JSNumber} {H : Host}.
Variable W : World.
Variable cfg : Config.

(** [getDeviceDetails] always resolves, after exactly one request. *)
Lemma getDeviceDetails_one_request (onPrem : bool) (t : trace) :
  exists d : devices,
    getDeviceDetails W cfg onPrem t
    = (Return d, (t ++ [EvRequest (devices_request cfg onPrem)])%list)
    /\ (forall st l, srv_devices W (requests t) (devices_request cfg onPrem)
                     = Responded st (Some (DevArray l)) -> d = DevArray l)
    /\ ((forall st l, srv_devices W (requests t) (devices_request cfg onPrem)
                      <> Responded st (Some (DevArray l))) -> d = DevOther).
Proof.
  unfold getDeviceDetails, try_catch, bind, axios, devices_request.
  destruct (srv_devices W (requests t) _) as [st|st [[l|]|]]; cbn.
  - exists DevOther. split; [reflexivity|]. split; [intros; congruence|reflexivity].
  - exists (DevArray l). split; [reflexivity|]. split; [intros; congruence|].
    intros Hne. now destruct (Hne st l).
  - exists DevOther. split; [reflexivity|]. split; [intros; congruence|reflexivity].
  - exists DevOther. split; [reflexivity|]. split; [intros; congruence|reflexivity].
Qed.

(** The device check passes exactly when the answer lists the device; it
    costs one request either way. *)
Lemma check_device_listed (deviceId : string) (onPrem : bool) (verb : string) (t : trace) :
  device_listed W cfg onPrem deviceId (requests t) ->
  check_device W cfg deviceId onPrem verb t
  = (Return tt, (t ++ [EvRequest (devices_request cfg onPrem)])%list).
Proof.
  intros (st & l & Hans & Hin).
  destruct (getDeviceDetails_one_request onPrem t) as (d & Hd & Harr & _).
  rewrite (Harr st l Hans) in Hd.
  unfold check_device, bind. rewrite Hd.
  now rewrite bool_decide_eq_true_2.
Qed.

Lemma check_device_not_listed (deviceId : string) (onPrem : bool) (verb : string) (t : trace) :
  ~ device_listed W cfg onPrem deviceId (requests t) ->
  exists e : error,
    check_device W cfg deviceId onPrem verb t
    = (Raise e, (t ++ [EvRequest (devices_request cfg onPrem)])%list).
Proof.
  intros Hnot.
  unfold check_device, getDeviceDetails, try_catch, bind, axios.
  change (ReqDeviceDetails _) with (devices_request cfg onPrem).
  destruct (srv_devices W (requests t) (devices_request cfg onPrem))
    as [st|st [[l|]|]] eqn:Hans; cbn; try (now eexists).
  case_bool_decide as Hin; [|now eexists].
  exfalso. apply Hnot. now exists st, l.
Qed.

End DeviceCheck.

Section Validation.
Context {N : JSNumber} {H : Host}.
Variable W : World.
Variable cfg : Config.
Variable GET_EVENTS_IN_TIMESLOT_URL : string.

(** X1.  Input validation that precedes every request: [n < 1] in the point
    queries, unparsable or reversed times in [dataQuery] and in
    [getEventsInTimeslot].  The call resolves with [[]] and the platform is
    not contacted. *)
Theorem validation_before_any_request :
  (forall f o t, num_lt (go_n o) (of_Z 1) = true ->
     getDp W cfg f o t = (Return [], t))
  /\ (forall o t, num_lt (fo_n o) (of_Z 1) = true ->
        getFirstDp W cfg o t = (Return [], t))
  /\ (forall f o t e,
        timeToUnix (dq_startTime o) = Throw e
        \/ (exists s, timeToUnix (dq_startTime o) = Ok s
                      /\ timeToUnix (dq_endTime o) = Throw e) ->
        dataQuery W cfg f o t = (Return [], t))
  /\ (forall f o t s e,
        timeToUnix (dq_startTime o) = Ok s -> timeToUnix (dq_endTime o) = Ok e ->
        num_lt e s = true ->
        dataQuery W cfg f o t = (Return [], t))
  /\ (forall o t e,
        isoUtcTime (et_startTime o) = Throw e
        \/ (exists s, isoUtcTime (et_startTime o) = Ok s
                      /\ isoUtcTime (et_endTime o) = Throw e) ->
        getEventsInTimeslot W cfg GET_EVENTS_IN_TIMESLOT_URL o t = (Return [], t))
  /\ (forall o t s e,
        isoUtcTime (et_startTime o) = Ok s -> isoUtcTime (et_endTime o) = Ok e ->
        num_lt (Date_parse e) (Date_parse s) = true ->
        getEventsInTimeslot W cfg GET_EVENTS_IN_TIMESLOT_URL o t = (Return [], t)).
Proof.
  repeat match goal with |- _ /\ _ => split end.
  - intros f o t Hn. unfold getDp, getDp_body, try_catch. now rewrite Hn.
  - intros o t Hn. unfold getFirstDp, getFirstDp_body, try_catch. now rewrite Hn.
  - intros f o t e [He|(s & Hs & He)];
      unfold dataQuery, dataQuery_body, try_catch, bind, lift.
    + now rewrite He.
    + now rewrite Hs, He.
  - intros f o t s e Hs He Hlt.
    unfold dataQuery, dataQuery_body, try_catch, bind, lift.
    rewrite Hs, He. cbn [ret]. now rewrite Hlt.
  - intros o t e [He|(s & Hs & He)];
      unfold getEventsInTimeslot, getEventsInTimeslot_body, try_catch, bind, lift.
    + now rewrite He.
    + now rewrite Hs, He.
  - intros o t s e Hs He Hlt.
    unfold getEventsInTimeslot, getEventsInTimeslot_body, try_catch, bind, lift.
    rewrite Hs, He. cbn [ret]. now rewrite Hlt.
Qed.

(** X2.  A device that the account's device list does not show (or a device list
    that cannot be fetched) ends a point query after that single request:
    the result is [[]] and no data endpoint is contacted. *)
Theorem unknown_device_stops_queries :
  (forall f o t,
     num_lt (go_n o) (of_Z 1) = false ->
     ~ device_listed W cfg (use_onPrem cfg (go_onPrem o)) (go_deviceId o) (requests t) ->
     getDp W cfg f o t
     = (Return [],
        (t ++ [EvRequest (devices_request cfg (use_onPrem cfg (go_onPrem o)))])%list))
  /\ (forall o t,
        num_lt (fo_n o) (of_Z 1) = false ->
        ~ device_listed W cfg (use_onPrem cfg (fo_onPrem o)) (fo_deviceId o) (requests t) ->
        getFirstDp W cfg o t
        = (Return [],
           (t ++ [EvRequest (devices_request cfg (use_onPrem cfg (fo_onPrem o)))])%list))
  /\ (forall f o t s e,
        timeToUnix (dq_startTime o) = Ok s -> timeToUnix (dq_endTime o) = Ok e ->
        num_lt e s = false ->
        ~ device_listed W cfg (use_onPrem cfg (dq_onPrem o)) (dq_deviceId o) (requests t) ->
        dataQuery W cfg f o t
        = (Return [],
           (t ++ [EvRequest (devices_request cfg (use_onPrem cfg (dq_onPrem o)))])%list)).
Proof.
  repeat match goal with |- _ /\ _ => split end.
  - intros f o t Hn Hnot.
    destruct (check_device_not_listed W cfg (go_deviceId o) _ "added" t Hnot) as [e He].
    unfold getDp, getDp_body, try_catch. rewrite Hn. unfold bind at 1.
    unfold use_onPrem in He. now rewrite He.
  - intros o t Hn Hnot.
    destruct (check_device_not_listed W cfg (fo_deviceId o) _ "added" t Hnot) as [e He].
    unfold getFirstDp, getFirstDp_body, try_catch. rewrite Hn. unfold bind at 1.
    unfold use_onPrem in He. now rewrite He.
  - intros f o t s e Hs He Hlt Hnot.
    destruct (check_device_not_listed W cfg (dq_deviceId o) _ "found" t Hnot) as [e' He'].
    unfold dataQuery, dataQuery_body, try_catch, bind, lift.
    rewrite Hs, He. cbn [ret]. rewrite Hlt.
    unfold use_onPrem in He'. unfold bind in He'. now rewrite He'.
Qed.

End Validation.

Lemma validation_before_any_request_witness :
  getDp rejecting_world sample_cfg 20 (dp_options "D1" None 0 true false) []
    = (Return [], [])
  /\ getFirstDp rejecting_world sample_cfg (first_options "D1" None 0 true false) []
    = (Return [], [])
  /\ dataQuery rejecting_world sample_cfg 20
       (query_options "D1" None (TimeString "yesterday") TimeNull true false) []
    = (Return [], [])
  /\ dataQuery rejecting_world sample_cfg 20
       (query_options "D1" None (TimeNumber (Int sample_ms))
          (TimeNumber (Int (sample_ms - 1))) true false) []
    = (Return [], [])
  /\ getEventsInTimeslot rejecting_world sample_cfg "/timeslot"
       (timeslot_options (IsoString "yesterday") IsoNone) []
    = (Return [], []).
Proof.
  destruct (validation_before_any_request (H := SampleHost) rejecting_world sample_cfg
              "/timeslot") as (Hdp & Hfirst & Htime & Hrange & Hiso & _).
  split; [apply Hdp; reflexivity|].
  split; [apply Hfirst; reflexivity|].
  split; [apply (Htime _ _ _ (Error "Invalid date string: yesterday")); left; reflexivity|].
  split; [apply (Hrange _ _ _ (Int sample_ms) (Int (sample_ms - 1))); reflexivity|].
  apply (Hiso _ _ (Error "Invalid date format: yesterday")). left. reflexivity.
Defined.

Lemma unknown_device_stops_queries_witness :
  getDp closed_cursor_world sample_cfg 20 (dp_options "D2" (Some ["A"]) 1 true false) []
    = (Return [], [EvRequest (devices_request sample_cfg false)])
  /\ getFirstDp closed_cursor_world sample_cfg (first_options "D2" (Some ["A"]) 1 true false) []
    = (Return [], [EvRequest (devices_request sample_cfg false)])
  /\ dataQuery closed_cursor_world sample_cfg 20
       (query_options "D2" (Some ["A"]) time_before
          time_sample true false) []
    = (Return [], [EvRequest (devices_request sample_cfg false)]).
Proof.
  assert (Hnot : ~ device_listed closed_cursor_world sample_cfg false "D2" 0).
  { intros (st & l & Hans & Hin). injection Hans as _ <-.
    apply list_elem_of_singleton in Hin. discriminate Hin. }
  destruct (unknown_device_stops_queries (H := SampleHost) closed_cursor_world sample_cfg)
    as (Hdp & Hfirst & Hquery).
  split; [apply (Hdp 20%nat (dp_options "D2" (Some ["A"]) 1 true false) []);
          [reflexivity|exact Hnot]|].
  split; [apply (Hfirst (first_options "D2" (Some ["A"]) 1 true false) []);
          [reflexivity|exact Hnot]|].
  apply (Hquery 20%nat
           (query_options "D2" (Some ["A"]) time_before
              time_sample true false)
           [] (Int (sample_ms - 1)) (Int sample_ms));
    [reflexivity|reflexivity|reflexivity|exact Hnot].
Defined.

Section ExplicitSensorList.
Context {N : JSNumber} {H : Host}.
Variable W : World.
Variable cfg : Config.

Lemma bind_ext {A B : Type} (c : M A) (k1 k2 : A -> M B) (t : trace) :
  (forall a t', k1 a t' = k2 a t') -> bind c k1 t = bind c k2 t.
Proof.
  intros Hk. unfold bind. destruct (c t) as [[a|e|] t']; [apply Hk|reflexivity|reflexivity].
Qed.

Lemma bind_ret {A B : Type} (a : A) (k : A -> M B) : bind (ret a) k = k a.
Proof. reflexivity. Qed.

Lemma try_catch_ext {A : Type} (c1 c2 : M A) (h : error -> M A) (t : trace) :
  c1 t = c2 t -> try_catch c1 h t = try_catch c2 h t.
Proof. intros Hc. unfold try_catch. now rewrite Hc. Qed.

(** Without metadata the pipeline neither calibrates nor renames, whatever
    the flags say. *)
Lemma getCleanedTable_without_metadata (data : list obj) (alias cal : bool)
    (deviceId : option string) (sensorList : option (list string))
    (unix pivotTable : bool) :
  getCleanedTable
    {| cto_data := data; cto_alias := alias; cto_cal := cal;
       cto_deviceId := deviceId; cto_sensorList := sensorList; cto_unix := unix;
       cto_metadata := None; cto_pivotTable := pivotTable |}
  = getCleanedTable
      {| cto_data := data; cto_alias := false; cto_cal := false;
         cto_deviceId := deviceId; cto_sensorList := sensorList; cto_unix := unix;
         cto_metadata := None; cto_pivotTable := pivotTable |}.
Proof. unfold getCleanedTable. cbn. now destruct cal, alias. Qed.

(** X3.  The point queries fetch the device metadata only when [sensorList] is
    [null].  With a sensor list given by the caller the metadata stays
    [null], so [cal] and [alias] have no effect at all: the call behaves as
    with both flags false.  For [dataQuery] this holds for a non-empty
    list. *)
Theorem explicit_sensor_list_disables_calibration :
  (forall f o t l, go_sensorList o = Some l ->
     getDp W cfg f o t = getDp W cfg f (dp_plain o) t)
  /\ (forall o t l, fo_sensorList o = Some l ->
        getFirstDp W cfg o t = getFirstDp W cfg (first_plain o) t)
  /\ (forall f o t s l, dq_sensorList o = Some (s :: l) ->
        dataQuery W cfg f o t = dataQuery W cfg f (query_plain o) t).
Proof.
  repeat match goal with |- _ /\ _ => split end.
  - intros f o t l Hl. unfold getDp. apply try_catch_ext.
    unfold getDp_body, dp_plain. cbn. rewrite Hl.
    destruct (num_lt (go_n o) (of_Z 1)); [reflexivity|].
    apply bind_ext. intros _ t1. unfold resolve_sensors.
    rewrite !bind_ret. apply bind_ext. intros u t2.
    apply bind_ext. intros allData t3.
    destruct allData; [reflexivity|]. f_equal.
    apply getCleanedTable_without_metadata.
  - intros o t l Hl. unfold getFirstDp. apply try_catch_ext.
    unfold getFirstDp_body, first_plain. cbn. rewrite Hl.
    destruct (num_lt (fo_n o) (of_Z 1)); [reflexivity|].
    apply bind_ext. intros _ t1. unfold resolve_sensors.
    rewrite !bind_ret. apply bind_ext. intros u t2.
    apply bind_ext. intros response t3.
    destruct (truthy (fd_success (data response))); [reflexivity|].
    destruct (formatSensorData (fd_first (data response))); [reflexivity|].
    f_equal. apply getCleanedTable_without_metadata.
  - intros f o t s l Hl. unfold dataQuery. apply try_catch_ext.
    unfold dataQuery_body, query_plain. cbn. rewrite Hl.
    apply bind_ext. intros startUnix t1. apply bind_ext. intros endUnix t2.
    destruct (num_lt endUnix startUnix); [reflexivity|].
    apply bind_ext. intros _ t3. unfold resolve_sensors.
    rewrite !bind_ret.
    unfold _influxdb. apply try_catch_ext. unfold _influxdb_body.
    cbn [io_sensorList io_metadata io_onPrem io_deviceId io_startTime io_endTime
         io_alias io_cal io_unix].
    rewrite !bind_ret. apply bind_ext. intros allData t4.
    destruct allData; [reflexivity|]. f_equal.
    apply getCleanedTable_without_metadata.
Qed.

End ExplicitSensorList.

(* ===================================================================== *)
(** ** The fetch loops: successful pagination *)
(* ===================================================================== *)

Section Pagination.
Context {N : JSNumber} {H : Host}.
Variable W : World.
Variable cfg : Config.

Lemma requests_snoc_request (t : trace) (r : request) :
  requests (t ++ [EvRequest r])%list = S (requests t).
Proof. rewrite requests_app. cbn. lia. Qed.

Lemma influx_try_page (url deviceId sensorValues : string) (cur : CursorData)
    (allData : list obj) (t : trace) (p : list obj * option CursorData) :
  influx_page p (srv_influx W (requests t) (influx_request url deviceId sensorValues cur)) ->
  influx_try W url deviceId sensorValues cur allData t =
  (Return ((allData ++ p.1)%list, p.2),
   (t ++ [EvRequest (influx_request url deviceId sensorValues cur)])%list).
Proof.
  intros (st & s & Hans & Hs). unfold influx_try, bind, axios.
  change (ReqInflux _ _ _ _ _ _) with (influx_request url deviceId sensorValues cur).
  rewrite Hans. cbn. now rewrite Hs.
Qed.

Lemma influx_while_closed (fuel : nat) (url deviceId sensorValues : string)
    (cursor : option CursorData) (retry : Z) (allData : list obj) (t : trace) :
  influx_cursor_open cursor = false ->
  influx_while W fuel url deviceId sensorValues cursor retry allData t = (Return allData, t).
Proof.
  intros Hclosed. destruct fuel; cbn [influx_while];
    destruct cursor as [cur|]; try reflexivity; now rewrite Hclosed.
Qed.

(** A platform that serves [pages] whatever it is asked answers the requests
    of the run with them. *)
Lemma influx_script_answers (url deviceId sensorValues : string) :
  forall (pages : list (list obj * option CursorData)) (cur : CursorData) (k : nat),
    influx_script W k pages -> influx_answers W k url deviceId sensorValues cur pages.
Proof.
  induction pages as [|p rest IH]; intros cur k Hscript; [exact I|].
  destruct Hscript as (Hpage & Hcur & Hrest). cbn [influx_answers].
  split; [apply Hpage|]. split; [exact Hcur|].
  destruct (p.2); [now apply IH|exact I].
Qed.

(** The requests of an answered run are as many as the pages. *)
Lemma influx_requests_length (url deviceId sensorValues : string) :
  forall (pages : list (list obj * option CursorData)) (cur : CursorData) (k : nat),
    influx_answers W k url deviceId sensorValues cur pages ->
    length (influx_requests url deviceId sensorValues cur pages) = length pages
    /\ requests (influx_requests url deviceId sensorValues cur pages) = length pages.
Proof.
  induction pages as [|p rest IH]; intros cur k Hans; [now split|].
  destruct Hans as (_ & Hcur & Hrest). cbn [influx_requests length].
  change (requests (EvRequest ?r :: ?l)) with (S (requests l)).
  destruct rest as [|p' rest'].
  - destruct (p.2); now split.
  - destruct (p.2) as [cur'|] eqn:Hp2; [|discriminate Hcur].
    destruct (IH cur' (S k) Hrest) as [Hlen Hreq]. now rewrite Hlen, Hreq.
Qed.

Lemma influx_while_pages (url deviceId sensorValues : string) :
  forall (pages : list (list obj * option CursorData)) (cur : CursorData)
         (retry : Z) (allData : list obj) (fuel : nat) (t : trace),
    pages <> [] ->
    influx_cursor_open (Some cur) = true ->
    influx_answers W (requests t) url deviceId sensorValues cur pages ->
    (length pages <= fuel)%nat ->
    influx_while W fuel url deviceId sensorValues (Some cur) retry allData t
    = (Return (allData ++ concat (map fst pages))%list,
       (t ++ influx_requests url deviceId sensorValues cur pages)%list).
Proof.
  induction pages as [|p rest IH]; intros cur retry allData fuel t Hne Hopen Hans Hfuel;
    [congruence|].
  destruct Hans as (Hpage & Hcur & Hrest).
  destruct fuel as [|fuel]; [cbn in Hfuel; lia|].
  cbn [influx_while]. rewrite Hopen.
  unfold bind at 1. unfold attempt, try_catch. unfold bind at 1.
  rewrite (influx_try_page _ _ _ _ _ _ p Hpage). cbn [ret].
  cbn [influx_requests].
  destruct rest as [|p' rest'].
  - rewrite influx_while_closed by (now rewrite Hcur).
    cbn. rewrite !app_nil_r. now destruct (p.2).
  - destruct (p.2) as [cur'|] eqn:Hp2; [|discriminate Hcur].
    rewrite (IH cur' retry (allData ++ p.1)%list fuel
               (t ++ [EvRequest (influx_request url deviceId sensorValues cur)])%list).
    + cbn [map concat]. now rewrite <- !app_assoc.
    + discriminate.
    + exact Hcur.
    + now rewrite requests_snoc_request.
    + cbn in Hfuel. cbn. lia.
Qed.

(** X4.  The bulk loop against a platform that serves [pages]: the result is the
    concatenation of the pages in order, after exactly one request per page
    and no sleep; the retry count plays no part. *)
Theorem influx_pagination (url deviceId sensorValues : string) :
  forall (pages : list (list obj * option CursorData)) (cur : CursorData)
         (retry : Z) (allData : list obj) (fuel : nat) (t : trace),
    pages <> [] ->
    influx_cursor_open (Some cur) = true ->
    influx_script W (requests t) pages ->
    (length pages <= fuel)%nat ->
    exists t' : trace,
      influx_while W fuel url deviceId sensorValues (Some cur) retry allData t
      = (Return (allData ++ concat (map fst pages))%list, (t ++ t')%list)
      /\ length t' = length pages
      /\ requests t' = length pages.
Proof.
  intros pages cur retry allData fuel t Hne Hopen Hscript Hfuel.
  assert (Hans := influx_script_answers url deviceId sensorValues pages cur _ Hscript).
  exists (influx_requests url deviceId sensorValues cur pages).
  split; [now apply influx_while_pages|].
  exact (influx_requests_length url deviceId sensorValues pages cur _ Hans).
Qed.

Lemma getDp_try_page (url deviceId sensor : string) (cur : CursorInfo)
    (allData : list raw) (t : trace) (p : list raw * CursorInfo) :
  dp_page p (srv_dp W (requests t) (dp_request url deviceId sensor cur)) ->
  getDp_try W url deviceId sensor cur allData t =
  (Return ((allData ++ p.1)%list, Some p.2),
   (t ++ [EvRequest (dp_request url deviceId sensor cur)])%list).
Proof.
  intros (st & s & Hans & Hs). unfold getDp_try, bind, axios.
  change (ReqDp _ _ _ _ _) with (dp_request url deviceId sensor cur).
  rewrite Hans. cbn. now rewrite Hs.
Qed.

Lemma getDp_while_closed (fuel : nat) (url deviceId sensor : string)
    (cur : CursorInfo) (retry : Z) (allData : list raw) (t : trace) :
  truthy (c_end cur) = false ->
  getDp_while W fuel url deviceId sensor (Some cur) retry allData t = (Return allData, t).
Proof. intros Hclosed. destruct fuel; cbn [getDp_while]; now rewrite Hclosed. Qed.

Lemma dp_script_answers (url deviceId sensor : string) :
  forall (pages : list (list raw * CursorInfo)) (cur : CursorInfo) (k : nat),
    dp_script W k pages -> dp_answers W k url deviceId sensor cur pages.
Proof.
  induction pages as [|p rest IH]; intros cur k Hscript; [exact I|].
  destruct Hscript as (Hpage & Hcur & Hrest). cbn [dp_answers].
  split; [apply Hpage|]. split; [exact Hcur|]. now apply IH.
Qed.

Lemma dp_requests_length (url deviceId sensor : string) :
  forall (pages : list (list raw * CursorInfo)) (cur : CursorInfo),
    length (dp_requests url deviceId sensor cur pages) = length pages
    /\ requests (dp_requests url deviceId sensor cur pages) = length pages.
Proof.
  induction pages as [|p rest IH]; intros cur; [now split|].
  cbn [dp_requests length].
  change (requests (EvRequest ?r :: ?l)) with (S (requests l)).
  destruct (IH p.2) as [Hlen Hreq]. now rewrite Hlen, Hreq.
Qed.

Lemma getDp_while_pages (url deviceId sensor : string) :
  forall (pages : list (list raw * CursorInfo)) (cur : CursorInfo)
         (retry : Z) (allData : list raw) (fuel : nat) (t : trace),
    pages <> [] ->
    truthy (c_end cur) = true ->
    dp_answers W (requests t) url deviceId sensor cur pages ->
    (length pages <= fuel)%nat ->
    getDp_while W fuel url deviceId sensor (Some cur) retry allData t
    = (Return (allData ++ concat (map fst pages))%list,
       (t ++ dp_requests url deviceId sensor cur pages)%list).
Proof.
  induction pages as [|p rest IH]; intros cur retry allData fuel t Hne Hopen Hans Hfuel;
    [congruence|].
  destruct Hans as (Hpage & Hcur & Hrest).
  destruct fuel as [|fuel]; [cbn in Hfuel; lia|].
  cbn [getDp_while]. rewrite Hopen.
  unfold bind at 1. unfold attempt, try_catch. unfold bind at 1.
  rewrite (getDp_try_page _ _ _ _ _ _ p Hpage). cbn [ret].
  cbn [dp_requests].
  destruct rest as [|p' rest'].
  - rewrite getDp_while_closed by (now rewrite Hcur).
    cbn. now rewrite !app_nil_r.
  - rewrite (IH p.2 retry (allData ++ p.1)%list fuel
               (t ++ [EvRequest (dp_request url deviceId sensor cur)])%list).
    + cbn [map concat]. now rewrite <- !app_assoc.
    + discriminate.
    + exact Hcur.
    + now rewrite requests_snoc_request.
    + cbn in Hfuel. cbn. lia.
Qed.

(** X5.  The per-sensor loop of [getDp] against a platform that serves [pages],
    every cursor being an object: the result is what was accumulated before
    followed by the pages in order, after exactly one request per page. *)
Theorem getDp_pagination (url deviceId sensor : string) :
  forall (pages : list (list raw * CursorInfo)) (cur : CursorInfo)
         (retry : Z) (allData : list raw) (fuel : nat) (t : trace),
    pages <> [] ->
    truthy (c_end cur) = true ->
    dp_script W (requests t) pages ->
    (length pages <= fuel)%nat ->
    exists t' : trace,
      getDp_while W fuel url deviceId sensor (Some cur) retry allData t
      = (Return (allData ++ concat (map fst pages))%list, (t ++ t')%list)
      /\ length t' = length pages
      /\ requests t' = length pages.
Proof.
  intros pages cur retry allData fuel t Hne Hopen Hscript Hfuel.
  assert (Hans := dp_script_answers url deviceId sensor pages cur _ Hscript).
  exists (dp_requests url deviceId sensor cur pages).
  split; [now apply getDp_while_pages|].
  exact (dp_requests_length url deviceId sensor pages cur).
Qed.

Lemma load_while_page (fuel : nat) (baseUrl : string) (pageCount retry : Z)
    (result : list LoadEntity) (response : option Z) (t : trace)
    (p : list LoadEntity * option num) :
  load_page p (srv_load W (requests t) (load_request cfg baseUrl pageCount)) ->
  exists st : Z,
    load_while W cfg (S fuel) baseUrl true pageCount retry result response t =
    load_while W cfg fuel baseUrl (has_more (result ++ p.1) p.2) (pageCount + 1) retry
      (result ++ p.1)%list (Some st)
      (t ++ [EvRequest (load_request cfg baseUrl pageCount)])%list.
Proof.
  intros (st & s & Hans & Hs). exists st. cbn [load_while]. cbv zeta.
  unfold bind at 1. unfold attempt, try_catch. unfold bind at 1. unfold axios.
  change (ReqLoadEntities _) with (load_request cfg baseUrl pageCount).
  rewrite Hans. cbn [ret status data lb_error lb_data lb_totalCount]. rewrite Hs.
  reflexivity.
Qed.

Lemma load_page_requests_cons (baseUrl : string) (first : Z) (n : nat) :
  load_page_requests cfg baseUrl first (S n) =
  EvRequest (load_request cfg baseUrl first) :: load_page_requests cfg baseUrl (first + 1) n.
Proof.
  unfold load_page_requests. cbn [seq map]. rewrite Z.add_0_r. f_equal.
  rewrite <- seq_shift, map_map. apply map_ext. intros i. do 2 f_equal. lia.
Qed.

(** The page loop of [getLoadEntities] against a platform that serves
    [pages]: it asks for pages [pageCount], [pageCount + 1], ... exactly once
    each and returns the entities in page order. *)
Theorem load_pagination (baseUrl : string) :
  forall (pages : list (list LoadEntity * option num)) (pageCount retry : Z)
         (result : list LoadEntity) (response : option Z) (fuel : nat) (t : trace),
    pages <> [] ->
    load_script W (requests t) result pages ->
    (length pages <= fuel)%nat ->
    load_while W cfg fuel baseUrl true pageCount retry result response t
    = (Return (result ++ concat (map fst pages))%list,
       (t ++ load_page_requests cfg baseUrl pageCount (length pages))%list).
Proof.
  induction pages as [|p rest IH];
    intros pageCount retry result response fuel t Hne Hscript Hfuel; [congruence|].
  destruct Hscript as (Hpage & Hmore & Hrest).
  destruct fuel as [|fuel]; [cbn in Hfuel; lia|].
  destruct (load_while_page fuel baseUrl pageCount retry result response t p (Hpage _))
    as [st Hstep].
  rewrite Hstep, Hmore. cbn [length]. rewrite load_page_requests_cons.
  destruct rest as [|p' rest'].
  - cbn [bool_decide decide_rel negb]. rewrite bool_decide_eq_true_2 by reflexivity.
    cbn [negb]. destruct fuel; cbn [load_while ret map concat load_page_requests seq length];
      now rewrite !app_nil_r.
  - rewrite bool_decide_eq_false_2 by discriminate. cbn [negb].
    rewrite IH; [|discriminate| |cbn in Hfuel; cbn; lia].
    + cbn [map concat]. now rewrite <- !app_assoc.
    + now rewrite requests_snoc_request.
Qed.

End Pagination.

Section Listings.
Context {N : JSNumber} {H : Host}.
Variable W : World.
Variable cfg : Config.

(** X6.  [getLoadEntities] against a platform that serves [pages]: all entities
    in page order when [clusters] is [null]; with a non-empty [clusters]
    exactly those, in the same order, whose name or id is listed.  Pages 1,
    2, ... are requested once each. *)
Theorem getLoadEntities_pages (pages : list (list LoadEntity * option num))
    (onPrem : option bool) (fuel : nat) (t : trace) :
  pages <> [] ->
  load_script W (requests t) [] pages ->
  (length pages <= fuel)%nat ->
  getLoadEntities W cfg fuel {| lo_onPrem := onPrem; lo_clusters := None |} t
  = (Return (concat (map fst pages)),
     (t ++ load_page_requests cfg (load_base_url cfg onPrem) 1 (length pages))%list)
  /\ forall (c : string) (clusters : list string),
       getLoadEntities W cfg fuel
         {| lo_onPrem := onPrem; lo_clusters := Some (c :: clusters) |} t
       = (Return (filter (in_clusters (c :: clusters)) (concat (map fst pages))),
          (t ++ load_page_requests cfg (load_base_url cfg onPrem) 1 (length pages))%list).
Proof.
  intros Hne Hscript Hfuel.
  pose proof (load_pagination W cfg (load_base_url cfg onPrem) pages 1 0 [] None fuel t
                Hne Hscript Hfuel) as Hrun.
  split; [|intros c clusters];
    unfold getLoadEntities, getLoadEntities_body, try_catch, bind;
    cbn [lo_clusters lo_onPrem];
    change (make_url _ cfg "/api/metaData/getAllClusterData")
      with (load_base_url cfg onPrem);
    rewrite Hrun; reflexivity.
Qed.

(** X7.  The retry budget bounds failures only.  Against a platform that keeps
    answering an empty page while reporting more entities than were
    received, the page loop goes on for ever: whatever the loop bound, the
    run is still going when it is reached, having issued one request per
    turn and never slept. *)
Theorem load_loop_never_ends (baseUrl : string) (tc : num) (result : list LoadEntity) :
  (forall k r, load_page ([], Some tc) (srv_load W k r)) ->
  has_more result (Some tc) = true ->
  forall (fuel : nat) (pageCount retry : Z) (response : option Z) (t : trace),
    load_while W cfg fuel baseUrl true pageCount retry result response t
    = (OutOfFuel, (t ++ load_page_requests cfg baseUrl pageCount fuel)%list).
Proof.
  intros Hpage Hmore. induction fuel as [|fuel IH]; intros pageCount retry response t.
  - cbn. now rewrite app_nil_r.
  - destruct (load_while_page W cfg fuel baseUrl pageCount retry result response t
                ([], Some tc) (Hpage _ _)) as [st Hstep].
    rewrite Hstep. cbn [fst snd]. rewrite app_nil_r, Hmore, IH.
    rewrite load_page_requests_cons. now rewrite <- app_assoc.
Qed.

(** X8.  [getFirstDp] asks for the data once and never retries: when that
    request fails the call resolves with [[]] after the device list and the
    one data request. *)
Theorem getFirstDp_single_attempt (o : GetFirstDpOptions) (sensorList : list string)
    (start : num) (t : trace) :
  num_lt (fo_n o) (of_Z 1) = false ->
  device_listed W cfg (use_onPrem cfg (fo_onPrem o)) (fo_deviceId o) (requests t) ->
  fo_sensorList o = Some sensorList ->
  timeToUnix (fo_startTime o) = Ok start ->
  (forall k r, first_dp_fails (srv_firstDp W k r)) ->
  getFirstDp W cfg o t
  = (Return [],
     (t ++ [EvRequest (devices_request cfg (use_onPrem cfg (fo_onPrem o)));
            EvRequest (first_dp_request cfg o sensorList start)])%list).
Proof.
  intros Hn Hdev Hl Hstart Hfail. unfold use_onPrem in *.
  unfold getFirstDp, getFirstDp_body, try_catch. rewrite Hn.
  unfold bind at 1.
  rewrite (check_device_listed W cfg (fo_deviceId o) _ "added" t Hdev).
  unfold resolve_sensors. rewrite Hl, bind_ret, Hstart. cbn [lift]. rewrite bind_ret.
  unfold bind, axios.
  change (ReqFirstDp _ _ _ _) with (first_dp_request cfg o sensorList start).
  pose proof (Hfail (requests (t ++ [EvRequest (devices_request cfg
                                      (default (cfg_onPrem cfg) (fo_onPrem o)))])%list)
                (first_dp_request cfg o sensorList start)) as Hf.
  destruct (srv_firstDp W _ _) as [st|st body]; cbn in Hf |- *.
  - now rewrite <- app_assoc.
  - rewrite Hf. cbn. now rewrite <- app_assoc.
Qed.

(** X9.  An empty [sensorList] is not [null]: [getDp] takes it as given, fetches
    no metadata, walks no cursor and resolves with [[]] after the device
    list alone, whatever the end time. *)
Theorem getDp_empty_sensor_list (f : nat) (o : GetDpOptions) (t : trace) :
  num_lt (go_n o) (of_Z 1) = false ->
  device_listed W cfg (use_onPrem cfg (go_onPrem o)) (go_deviceId o) (requests t) ->
  go_sensorList o = Some [] ->
  getDp W cfg f o t
  = (Return [],
     (t ++ [EvRequest (devices_request cfg (use_onPrem cfg (go_onPrem o)))])%list).
Proof.
  intros Hn Hdev Hl. unfold use_onPrem in *.
  unfold getDp, getDp_body, try_catch. rewrite Hn.
  unfold bind at 1.
  rewrite (check_device_listed W cfg (go_deviceId o) _ "added" t Hdev).
  unfold resolve_sensors. rewrite Hl, bind_ret.
  unfold bind, lift. destruct (timeToUnix (go_endTime o)); reflexivity.
Qed.

End Listings.

(* ===================================================================== *)
(** ** The record normalizer and the unix stage *)
(* ===================================================================== *)

Section Normalizer.
Context {N : JSNumber} {H : Host}.

Lemma fold_left_push {A B : Type} (f : A -> B) (l : list A) (acc : list B) :
  fold_left (fun r p => (r ++ [f p])%list) l acc = (acc ++ map f l)%list.
Proof.
  revert acc. induction l as [|x l IH]; intros acc; cbn; [now rewrite app_nil_r|].
  rewrite IH. now rewrite <- app_assoc.
Qed.

(** The output is the concatenation, in input order, of what each entry
    contributes. *)
Lemma formatSensorData_flat_map (data : list raw) :
  formatSensorData data = flat_map entry_rows data.
Proof.
  unfold formatSensorData.
  enough (Hgen : forall acc,
    fold_left
      (fun result sensorData =>
         match sensorData with
         | RawArray points =>
             fold_left (fun r p => (r ++ [format_point p])%list) points result
         | RawPoint sd =>
             if truthy (obj_get sd "time") && truthy (obj_get sd "sensor")
             then (result ++ [format_point sd])%list else result
         | RawOther => result
         end) data acc = (acc ++ flat_map entry_rows data)%list)
    by apply (Hgen []).
  induction data as [|e data IH]; intros acc; cbn [fold_left flat_map];
    [now rewrite app_nil_r|].
  rewrite IH. destruct e as [points|sd|]; cbn [entry_rows].
  - now rewrite fold_left_push, <- app_assoc.
  - destruct (truthy (obj_get sd "time") && truthy (obj_get sd "sensor"));
      [now rewrite <- app_assoc|reflexivity].
  - reflexivity.
Qed.

Lemma js_or_cases (a b : prim) : js_or a b = b \/ truthy (js_or a b) = true.
Proof. unfold js_or. destruct (truthy a) eqn:Ha; [right; exact Ha|now left]. Qed.

(** X10.  Every row produced by [formatSensorData] has exactly the properties
    [time], [sensor] and [value], in this order.  Its value is [null] or
    truthy: a reading of 0, an empty string or [false] has been replaced by
    [null].  Its time and its sensor are the empty string or truthy. *)
Theorem formatSensorData_rows (data : list raw) (row : obj) :
  row ∈ formatSensorData data ->
  map fst row = ["time"; "sensor"; "value"]
  /\ (obj_get row "value" = VNull \/ truthy (obj_get row "value") = true)
  /\ (obj_get row "time" = VStr "" \/ truthy (obj_get row "time") = true)
  /\ (obj_get row "sensor" = VStr "" \/ truthy (obj_get row "sensor") = true).
Proof.
  rewrite formatSensorData_flat_map. intros Hin.
  assert (Hp : exists p, row = format_point p).
  { apply list_elem_of_In, in_flat_map in Hin as (e & _ & Hrow).
    apply list_elem_of_In in Hrow. destruct e as [points|sd|]; cbn [entry_rows] in Hrow.
    - change (map format_point points) with (format_point <$> points) in Hrow.
      apply list_elem_of_fmap in Hrow as (p & -> & _). now exists p.
    - destruct (truthy (obj_get sd "time") && truthy (obj_get sd "sensor")).
      + apply list_elem_of_singleton in Hrow. now exists sd.
      + now apply elem_of_nil in Hrow.
    - now apply elem_of_nil in Hrow. }
  destruct Hp as [p ->]. unfold format_point.
  split; [reflexivity|]. cbn [obj_get String.eqb Ascii.eqb Bool.eqb].
  split; [|split]; apply js_or_cases.
Qed.




End Normalizer.

(* ===================================================================== *)
(** ** Publishing an event *)
(* ===================================================================== *)

Section Publishing.
Context {N : JSNumber} {H : Host}.
Variable W : World.
Variable cfg : Config.
Variables PUBLISH_EVENT_URL GET_EVENT_CATEGORIES_URL : string.

(** The names are resolved in order, each to the id of the first category
    of that name; the first name without a category raises. *)
Lemma tags_of_names_spec (categories : list EventCategory) (names : list string) :
  forall acc : list string,
    tags_of_names categories names acc =
    match first_unknown categories names with
    | Some n => Throw (Error ("Tag '" ++ n ++ "' not found in data."))
    | None => Ok (acc ++ omap (tag_id categories) names)%list
    end.
Proof.
  induction names as [|n names IH]; intros acc; cbn [tags_of_names first_unknown].
  - cbn. now rewrite app_nil_r.
  - change (omap (tag_id categories) (n :: names))
      with (match tag_id categories n with
            | Some y => y :: omap (tag_id categories) names
            | None => omap (tag_id categories) names
            end).
    destruct (List.find (fun item => String.eqb (ec_name item) n) categories)
      as [matched|] eqn:Hfind.
    + assert (Htag : tag_id categories n = Some (ec_id matched))
        by (unfold tag_id; now rewrite Hfind).
      rewrite Htag, IH. destruct (first_unknown categories names); [reflexivity|].
      now rewrite <- app_assoc.
    + assert (Htag : tag_id categories n = None)
        by (unfold tag_id; now rewrite Hfind).
      now rewrite Htag.
Qed.

(** X13.  With a non-empty [eventNamesList] the tags given by the caller are
    ignored: the published tags are looked up from the names alone. *)
Theorem publishEvent_names_override_tags (o : PublishEventOptions)
    (n : string) (names : list string) (tags : option (list string)) (t : trace) :
  pe_eventNamesList o = Some (n :: names) ->
  publishEvent W cfg PUBLISH_EVENT_URL GET_EVENT_CATEGORIES_URL o t
  = publishEvent W cfg PUBLISH_EVENT_URL GET_EVENT_CATEGORIES_URL
      {| pe_message := pe_message o; pe_metaData := pe_metaData o;
         pe_hoverData := pe_hoverData o; pe_createdOn := pe_createdOn o;
         pe_eventTagsList := tags; pe_eventNamesList := pe_eventNamesList o;
         pe_title := pe_title o; pe_onPrem := pe_onPrem o |} t.
Proof.
  intros Hn. unfold publishEvent, publishEvent_body. cbn. now rewrite Hn.
Qed.

(** [getEventCategories] issues one request and never raises. *)
Lemma getEventCategories_one_request (onPrem : option bool) (t : trace) :
  getEventCategories W cfg GET_EVENT_CATEGORIES_URL onPrem t
  = (Return (categories_of
               (srv_categories W (requests t)
                  (ReqEventCategories (formatUrl cfg GET_EVENT_CATEGORIES_URL onPrem)))),
     (t ++ [EvRequest (ReqEventCategories
                         (formatUrl cfg GET_EVENT_CATEGORIES_URL onPrem))])%list).
Proof.
  unfold getEventCategories, try_catch, bind, axios.
  now destruct (srv_categories W (requests t) _) as [st|st [l|]].
Qed.

(** X14.  [getEventCategories] swallows its own failure, whatever it is (a
    rejection with or without a response, a body without data), and
    resolves with no category; [publishEvent] then blames the first name:
    it raises "Tag ... not found" after the single category request and
    publishes nothing.  More generally the first name that no category
    carries is blamed. *)
Theorem publishEvent_categories_unavailable (o : PublishEventOptions)
    (n : string) (names : list string) (t : trace) :
  let catReq :=
    ReqEventCategories (formatUrl cfg GET_EVENT_CATEGORIES_URL (pe_onPrem o)) in
  let categories := categories_of (srv_categories W (requests t) catReq) in
  pe_eventNamesList o = Some (n :: names) ->
  (categories = [] ->
   publishEvent W cfg PUBLISH_EVENT_URL GET_EVENT_CATEGORIES_URL o t
   = (Raise (Error ("Tag '" ++ n ++ "' not found in data.")),
      (t ++ [EvRequest catReq])%list))
  /\ (forall u : string,
        first_unknown categories (n :: names) = Some u ->
        publishEvent W cfg PUBLISH_EVENT_URL GET_EVENT_CATEGORIES_URL o t
        = (Raise (Error ("Tag '" ++ u ++ "' not found in data.")),
           (t ++ [EvRequest catReq])%list)).
Proof.
  intros catReq categories Hn.
  assert (Hgen : forall u : string,
             first_unknown categories (n :: names) = Some u ->
             publishEvent W cfg PUBLISH_EVENT_URL GET_EVENT_CATEGORIES_URL o t
             = (Raise (Error ("Tag '" ++ u ++ "' not found in data.")),
                (t ++ [EvRequest catReq])%list)).
  { intros u Hu. unfold publishEvent. rewrite try_catch_rethrows.
    unfold publishEvent_body. rewrite Hn.
    unfold bind at 1. unfold bind at 1.
    rewrite getEventCategories_one_request. fold catReq. fold categories.
    unfold bind. rewrite tags_of_names_spec, Hu. reflexivity. }
  split; [|exact Hgen].
  intros Hnil. apply Hgen. now rewrite Hnil.
Qed.

(** X15.  With names that all have a category, [publishEvent] issues exactly two
    requests, the category list and the post; the post carries the ids of
    the names, in the order of the names; the data of the answer is
    returned. *)
Theorem publishEvent_resolves_names (o : PublishEventOptions)
    (n : string) (names : list string) (categories : list EventCategory)
    (st st' : Z) (d : prim) (t : trace) :
  let catReq := ReqEventCategories (formatUrl cfg GET_EVENT_CATEGORIES_URL (pe_onPrem o)) in
  let tags := omap (tag_id categories) (n :: names) in
  let pubReq := ReqPublishEvent (formatUrl cfg PUBLISH_EVENT_URL (pe_onPrem o))
                  (publish_payload o tags) in
  pe_eventNamesList o = Some (n :: names) ->
  first_unknown categories (n :: names) = None ->
  srv_categories W (requests t) catReq = Responded st (Some categories) ->
  srv_publish W (S (requests t)) pubReq = Responded st' d ->
  truthy d = true ->
  publishEvent W cfg PUBLISH_EVENT_URL GET_EVENT_CATEGORIES_URL o t
  = (Return d, (t ++ [EvRequest catReq; EvRequest pubReq])%list)
  /\ length tags = length (n :: names).
Proof.
  intros catReq tags pubReq Hn Hknown Hcat Hpub Hd.
  assert (Htags : tags_of_names categories (n :: names) [] = Ok tags).
  { rewrite tags_of_names_spec, Hknown. reflexivity. }
  assert (Hlen : length tags = length (n :: names)).
  { clear -Hknown. subst tags. revert Hknown.
    induction (n :: names) as [|x l IH]; [reflexivity|].
    cbn [first_unknown].
    change (omap (tag_id categories) (x :: l))
      with (match tag_id categories x with
            | Some y => y :: omap (tag_id categories) l
            | None => omap (tag_id categories) l
            end).
    destruct (tag_id categories x); [|discriminate].
    intros Hl. cbn [length]. now rewrite IH. }
  split; [|exact Hlen].
  unfold publishEvent. rewrite try_catch_rethrows.
  unfold publishEvent_body. rewrite Hn.
  unfold bind at 1. unfold bind at 1.
  unfold getEventCategories, try_catch, bind, axios. fold catReq. rewrite Hcat.
  cbn [ret data]. rewrite Htags. cbn [lift ret].
  destruct tags as [|tag tags'] eqn:Etags; [discriminate Hlen|].
  change (ReqPublishEvent _ _) with pubReq.
  rewrite requests_snoc_request, Hpub. cbn [data]. rewrite Hd.
  cbn [ret]. now rewrite <- app_assoc.
Qed.

End Publishing.

(* ===================================================================== *)
(** ** The alias stage *)
(* ===================================================================== *)

Section AliasFacts.
Context {N : JSNumber}.

Lemma fold_left_id {A B : Type} (f : A -> B -> A) (l : list B) (a : A) :
  (forall x, x ∈ l -> forall a', f a' x = a') -> fold_left f l a = a.
Proof.
  revert a. induction l as [|x l IH]; intros a Hid; [reflexivity|].
  cbn [fold_left]. rewrite Hid by left. apply IH. intros y Hy. apply Hid. now right.
Qed.


Lemma obj_get_absent (o : obj) (k : string) : k ∉ map fst o -> obj_get o k = VUndef.
Proof.
  induction o as [|[k0 v0] o IH]; cbn; [reflexivity|]. intros Hk.
  apply not_elem_of_cons in Hk as [Hne Hk].
  destruct (String.eqb_spec k0 k); [congruence|]. now apply IH.
Qed.

(** Copying an object whose keys are distinct and none an array index
    yields the same object. *)
Lemma spread_id (o : obj) :
  NoDup (map fst o) -> (forall k, k ∈ map fst o -> array_index k = None) -> spread o = o.
Proof.
  intros Hnd Hidx. unfold spread. rewrite own_keys_no_index by exact Hidx. clear Hidx.
  induction o as [|[k0 v0] o IH]; [reflexivity|].
  cbn [map fst] in *. apply NoDup_cons in Hnd as [Hk0 Hnd].
  cbn [obj_get]. rewrite String.eqb_refl. f_equal.
  rewrite <- (IH Hnd) at 2. apply map_ext_in. intros k Hk.
  destruct (String.eqb_spec k0 k) as [->|_]; [|reflexivity].
  exfalso. apply Hk0. now apply list_elem_of_In.
Qed.



(** X16.  Long-format rows.  When none of the row's own columns other than
    [sensor], [time] and [timestamp] has an alias, be it a name or a member
    of [Object.prototype], the alias stage changes the [sensor] field at
    most.  A sensor with a non-empty name gets the name.  A sensor that is
    named like a member of [Object.prototype] and has no name of its own is
    replaced by that member, a function or the prototype object.  Any other
    row is returned as it is. *)
Theorem alias_row_long_format (aliasMap : gmap string string) (row : obj) :
  NoDup (map fst row) ->
  (forall k, k ∈ map fst row -> array_index k = None) ->
  (forall k, k ∈ map fst row -> reserved k = false -> alias_of aliasMap k = NoAlias) ->
  alias_row aliasMap row =
  match (if truthy (obj_get row "sensor")
         then alias_of aliasMap (ToString (obj_get row "sensor")) else NoAlias) with
  | NoAlias => plain row
  | AliasName name => plain (obj_set "sensor" (VStr name) row)
  | AliasBuiltin b => {| fields := row; sensor_builtin := Some b |}
  end.
Proof.
  intros Hnd Hidx Hnone. unfold alias_row.
  rewrite spread_id, own_keys_no_index by assumption.
  rewrite fold_left_id.
  - destruct (truthy (obj_get row "sensor")); [|reflexivity].
    now destruct (alias_of aliasMap (ToString (obj_get row "sensor"))).
  - intros k Hk a'. destruct (reserved k) eqn:Hres; [reflexivity|].
    now rewrite (Hnone k Hk Hres).
Qed.


End AliasFacts.

(* ===================================================================== *)
(** ** Further properties of the stages and of the loops *)
(* ===================================================================== *)

Section StageFacts.
Context {N : JSNumber} {H : Host}.

(** X18.  Calibration changes nothing but the [value] of a row: in every row
    that the stage returns, every other field keeps its value, and so does
    the list of the row's fields. *)
Theorem calibrate_only_value (metadata : DeviceMetadata) (row row' : obj) :
  calibrate_row metadata row = Ok row' ->
  (forall k, k <> "value" -> obj_get row' k = obj_get row k)
  /\ ("value" ∈ map fst row -> map fst row' = map fst row).
Proof.
  unfold calibrate_row. intros Hrow. split.
  - intros k Hk. destruct (sensor_params metadata row); [| discriminate |congruence].
    destruct (obj_get row "value"); try congruence;
      destruct (isNaN _); try congruence; injection Hrow as <-; rewrite obj_get_set;
      destruct (String.eqb_spec "value" k); congruence.
  - intros Hin. destruct (sensor_params metadata row); [| discriminate |congruence].
    destruct (obj_get row "value"); try congruence;
      destruct (isNaN _); try congruence; injection Hrow as <-;
      rewrite obj_set_keys; unfold add_seen;
      now rewrite bool_decide_eq_true_2.
Qed.

(** X19.  The output of [formatSensorData] follows the input: formatting a
    concatenation gives the concatenation of the formatted parts. *)
Theorem formatSensorData_app (a b : list raw) :
  formatSensorData (a ++ b) = (formatSensorData a ++ formatSensorData b)%list.
Proof. rewrite !formatSensorData_flat_map. apply flat_map_app. Qed.

End StageFacts.

Section Recovery.
Context {N : JSNumber} {H : Host}.
Variable W : World.

(** X20.  A transient failure costs one sleep and nothing else.  When the first
    attempt of the bulk loop fails within the budget and the platform then
    serves [pages], the result is the one of an undisturbed run: no page is
    lost or fetched twice.  One more request is made and one sleep taken. *)
Theorem influx_recovers_after_failure (url deviceId sensorValues : string)
    (pages : list (list obj * option CursorData)) (cur : CursorData)
    (retry : Z) (allData : list obj) (fuel : nat) (t : trace) :
  let req := influx_request url deviceId sensorValues cur in
  let delay := if 5 <? retry + 1 then RETRY_DELAY_INFLUX.2 else RETRY_DELAY_INFLUX.1 in
  retry + 1 < MAX_RETRIES_INFLUX ->
  influx_fails (srv_influx W (requests t) req) ->
  pages <> [] ->
  influx_cursor_open (Some cur) = true ->
  influx_script W (S (requests t)) pages ->
  (S (length pages) <= fuel)%nat ->
  exists t' : trace,
    influx_while W fuel url deviceId sensorValues (Some cur) retry allData t
    = (Return (allData ++ concat (map fst pages))%list,
       (t ++ EvRequest req :: EvSleep delay :: t')%list)
    /\ length t' = length pages
    /\ requests t' = length pages.
Proof.
  intros req delay Hbudget Hfail Hne Hopen Hscript Hfuel.
  destruct fuel as [|fuel]; [lia|].
  rewrite influx_while_fail_step by assumption.
  destruct (Z.ltb_spec (retry + 1) MAX_RETRIES_INFLUX) as [_|Hge]; [|lia].
  assert (Hans := influx_script_answers W url deviceId sensorValues pages cur _ Hscript).
  assert (Hrun := influx_while_pages W url deviceId sensorValues pages cur (retry + 1)
                    allData fuel (t ++ [EvRequest req; EvSleep delay])%list Hne Hopen).
  exists (influx_requests url deviceId sensorValues cur pages).
  fold req. fold delay. rewrite Hrun.
  - split; [now rewrite <- app_assoc|].
    exact (influx_requests_length W url deviceId sensorValues pages cur _ Hans).
  - rewrite requests_app. cbn. now rewrite Nat.add_1_r.
  - lia.
Qed.

End Recovery.

Section SensorResolution.
Context {N : JSNumber} {H : Host}.
Variable W : World.
Variable cfg : Config.



End SensorResolution.

Section EndToEnd.
Context {N : JSNumber} {H : Host}.
Variable W : World.
Variable cfg : Config.

Lemma sensor_requests_length (url deviceId : string) (cur : CursorInfo) :
  forall (sensorList : list string) (runs : list (list (list raw * CursorInfo))),
    length runs = length sensorList ->
    length (sensor_requests url deviceId cur sensorList runs) = length (concat runs)
    /\ requests (sensor_requests url deviceId cur sensorList runs) = length (concat runs).
Proof.
  induction sensorList as [|sensor rest IH]; intros [|pages runs] Hlen;
    try discriminate Hlen; [now split|].
  cbn [sensor_requests concat].
  destruct (IH runs) as [Hl Hr]; [now injection Hlen|].
  destruct (dp_requests_length url deviceId sensor pages cur) as [Hl1 Hr1].
  rewrite requests_app, !length_app. split; congruence.
Qed.

Lemma getDp_sensors_runs (url deviceId : string) (unixEnd n : num) (fuel : nat) :
  truthy (VNum unixEnd) = true ->
  forall (sensorList : list string) (runs : list (list (list raw * CursorInfo)))
         (allData : list raw) (t : trace),
    length runs = length sensorList ->
    sensor_answers W (requests t) url deviceId
      {| c_end := VNum unixEnd; c_limit := VNum n |} sensorList runs ->
    Forall (fun pages => (length pages <= fuel)%nat) runs ->
    getDp_sensors W fuel url deviceId unixEnd n sensorList allData t
    = (Return (allData ++ run_data runs)%list,
       (t ++ sensor_requests url deviceId {| c_end := VNum unixEnd; c_limit := VNum n |}
               sensorList runs)%list).
Proof.
  intros Hopen sensorList.
  induction sensorList as [|sensor rest IH]; intros [|pages runs] allData t Hlen Hruns Hfuel;
    try discriminate Hlen.
  - cbn. unfold ret. now rewrite !app_nil_r.
  - destruct Hruns as (Hne & Hscript & Hruns).
    apply Forall_cons in Hfuel as [Hf Hfuel].
    cbn [getDp_sensors sensor_requests]. unfold bind.
    rewrite (getDp_while_pages W url deviceId sensor pages
               {| c_end := VNum unixEnd; c_limit := VNum n |} 0 allData fuel t
               Hne Hopen Hscript Hf).
    rewrite (IH runs (allData ++ concat (map fst pages))%list).
    + unfold run_data. cbn [map concat]. now rewrite !app_assoc.
    + now injection Hlen.
    + rewrite requests_app.
      now rewrite (proj2 (dp_requests_length url deviceId sensor pages _)).
    + exact Hfuel.
Qed.

(** X22.  [getDp] end to end, the caller naming the sensors.  After the
    request for the device list the sensors are queried one after the
    other, in the order of the list: the first request of each sensor
    carries the cursor [{end: floor(endTime / 1000), limit: n}], every
    further one the cursor that the page before it returned, and each names
    the device and that one sensor.  The platform is only supposed to
    answer these very requests with the pages.  The trace holds these
    requests, one per page, and nothing else, so no sleep; the table is
    made of the pages of the first sensor in order, then those of the
    second, and so on. *)
Theorem getDp_collects_sensors (f : nat) (o : GetDpOptions) (t : trace)
    (sensorList : list string) (runs : list (list (list raw * CursorInfo))) (e : num) :
  num_lt (go_n o) (of_Z 1) = false ->
  device_listed W cfg (use_onPrem cfg (go_onPrem o)) (go_deviceId o) (requests t) ->
  go_sensorList o = Some sensorList ->
  timeToUnix (go_endTime o) = Ok e ->
  truthy (VNum (floor_div e (of_Z 1000))) = true ->
  length runs = length sensorList ->
  sensor_answers W (S (requests t))
    (make_url (use_onPrem cfg (go_onPrem o)) cfg
       "/api/apiLayer/getLimitedDataMultipleSensors/")
    (go_deviceId o)
    {| c_end := VNum (floor_div e (of_Z 1000)); c_limit := VNum (go_n o) |}
    sensorList runs ->
  Forall (fun pages => (length pages <= f)%nat) runs ->
  getDp W cfg f o t
  = (Return (dp_table o sensorList (run_data runs)),
     (t ++ EvRequest (devices_request cfg (use_onPrem cfg (go_onPrem o)))
        :: sensor_requests
             (make_url (use_onPrem cfg (go_onPrem o)) cfg
                "/api/apiLayer/getLimitedDataMultipleSensors/")
             (go_deviceId o)
             {| c_end := VNum (floor_div e (of_Z 1000)); c_limit := VNum (go_n o) |}
             sensorList runs)%list)
  /\ length (sensor_requests
               (make_url (use_onPrem cfg (go_onPrem o)) cfg
                  "/api/apiLayer/getLimitedDataMultipleSensors/")
               (go_deviceId o)
               {| c_end := VNum (floor_div e (of_Z 1000)); c_limit := VNum (go_n o) |}
               sensorList runs) = length (concat runs).
Proof.
  intros Hn Hdev Hl He Hopen Hlen Hruns Hfuel. unfold use_onPrem in *.
  split; [|exact (proj1 (sensor_requests_length _ _ _ sensorList runs Hlen))].
  assert (Hrun := getDp_sensors_runs
              (make_url (default (cfg_onPrem cfg) (go_onPrem o)) cfg
                 "/api/apiLayer/getLimitedDataMultipleSensors/")
              (go_deviceId o) (floor_div e (of_Z 1000)) (go_n o) f Hopen
              sensorList runs []
              (t ++ [EvRequest (devices_request cfg
                                  (default (cfg_onPrem cfg) (go_onPrem o)))])%list
              Hlen).
  rewrite requests_snoc_request in Hrun. specialize (Hrun Hruns Hfuel).
  unfold getDp, getDp_body, try_catch. rewrite Hn.
  unfold bind at 1.
  rewrite (check_device_listed W cfg (go_deviceId o) _ "added" t Hdev).
  unfold resolve_sensors. rewrite Hl, bind_ret, He. cbn [lift]. rewrite bind_ret.
  unfold bind. rewrite Hrun. cbn [app].
  unfold dp_table. rewrite <- app_assoc. cbn [app].
  destruct (run_data runs) as [|x d]; [reflexivity|].
  destruct (getCleanedTable _); reflexivity.
Qed.

(** X23.  [dataQuery] end to end, the caller naming the sensors.  After the
    request for the device list all sensors are asked for in one paginated
    query: every request names the device and the sensors joined by commas,
    the first carries the cursor [{start, end}] of the two times, every
    further one the cursor that the page before it returned.  The platform
    is only supposed to answer these very requests with the pages.  The
    trace holds these requests, one per page, and nothing else, so no
    sleep; the table is made of the pages in order, and a throw of the
    pipeline gives [[]]. *)
Theorem dataQuery_collects_pages (f : nat) (o : DataQueryOptions) (t : trace)
    (sensor : string) (sensorList : list string)
    (pages : list (list obj * option CursorData)) (s e : num) :
  timeToUnix (dq_startTime o) = Ok s ->
  timeToUnix (dq_endTime o) = Ok e ->
  num_lt e s = false ->
  device_listed W cfg (use_onPrem cfg (dq_onPrem o)) (dq_deviceId o) (requests t) ->
  dq_sensorList o = Some (sensor :: sensorList) ->
  influx_cursor_open (Some {| c_start := VNum s; cd_end := VNum e |}) = true ->
  pages <> [] ->
  influx_answers W (S (requests t))
    (make_url (use_onPrem cfg (dq_onPrem o)) cfg "/api/apiLayer/getAllData")
    (dq_deviceId o) (join (sensor :: sensorList))
    {| c_start := VNum s; cd_end := VNum e |} pages ->
  (length pages <= f)%nat ->
  dataQuery W cfg f o t
  = (Return (query_table o (sensor :: sensorList) (concat (map fst pages))),
     (t ++ EvRequest (devices_request cfg (use_onPrem cfg (dq_onPrem o)))
        :: influx_requests
             (make_url (use_onPrem cfg (dq_onPrem o)) cfg "/api/apiLayer/getAllData")
             (dq_deviceId o) (join (sensor :: sensorList))
             {| c_start := VNum s; cd_end := VNum e |} pages)%list)
  /\ length (influx_requests
               (make_url (use_onPrem cfg (dq_onPrem o)) cfg "/api/apiLayer/getAllData")
               (dq_deviceId o) (join (sensor :: sensorList))
               {| c_start := VNum s; cd_end := VNum e |} pages) = length pages.
Proof.
  intros Hs He Hrange Hdev Hl Hopen Hne Hscript Hfuel. unfold use_onPrem in *.
  split; [|exact (proj1 (influx_requests_length W _ _ _ pages _ _ Hscript))].
  assert (Hrun := influx_while_pages W
              (make_url (default (cfg_onPrem cfg) (dq_onPrem o)) cfg
                 "/api/apiLayer/getAllData")
              (dq_deviceId o) (join (sensor :: sensorList)) pages
              {| c_start := VNum s; cd_end := VNum e |} 0 [] f
              (t ++ [EvRequest (devices_request cfg
                                  (default (cfg_onPrem cfg) (dq_onPrem o)))])%list
              Hne Hopen).
  rewrite requests_snoc_request in Hrun. specialize (Hrun Hscript Hfuel).
  unfold dataQuery, dataQuery_body, try_catch. rewrite Hs, He. cbn [lift].
  rewrite !bind_ret, Hrange.
  unfold bind at 1.
  rewrite (check_device_listed W cfg (dq_deviceId o) _ "found" t Hdev).
  unfold resolve_sensors. rewrite Hl, bind_ret.
  unfold _influxdb, _influxdb_body, try_catch.
  cbn [io_sensorList io_onPrem io_deviceId io_startTime io_endTime io_metadata
       io_alias io_cal io_unix].
  change (default (cfg_onPrem cfg) (Some (default (cfg_onPrem cfg) (dq_onPrem o))))
    with (default (cfg_onPrem cfg) (dq_onPrem o)).
  rewrite bind_ret. unfold bind. rewrite Hrun. cbn [app].
  unfold query_table. rewrite <- app_assoc. cbn [app].
  destruct (concat (map fst pages)) as [|x d]; [reflexivity|].
  destruct (getCleanedTable _); reflexivity.
Qed.

End EndToEnd.

(* ===================================================================== *)
(** ** The properties above on sample runs *)
(* ===================================================================== *)

Lemma explicit_sensor_list_disables_calibration_witness :
  getDp closed_cursor_world sample_cfg 20 (dp_options "D1" (Some ["A"]) 1 true true) []
  = getDp closed_cursor_world sample_cfg 20 (dp_options "D1" (Some ["A"]) 1 false false) [].
Proof.
  exact (proj1 (explicit_sensor_list_disables_calibration (H := SampleHost)
                  closed_cursor_world sample_cfg)
           20%nat (dp_options "D1" (Some ["A"]) 1 true true) [] ["A"] eq_refl).
Defined.

Lemma influx_pagination_witness :
  exists t' : trace,
    influx_while two_page_world 5 "u" "D1" "A" (Some open_influx_cursor) 0 [] []
    = (Return (concat (map fst influx_pages)), t')
    /\ length t' = 2%nat /\ requests t' = 2%nat.
Proof.
  apply (influx_pagination two_page_world "u" "D1" "A" influx_pages open_influx_cursor
           0 [] 5 []).
  - discriminate.
  - reflexivity.
  - split; [intros r; eexists _, _; split; reflexivity|].
    split; [reflexivity|].
    split; [intros r; eexists _, _; split; reflexivity|].
    split; [reflexivity|exact I].
  - cbn. lia.
Defined.

Lemma getDp_pagination_witness :
  exists t' : trace,
    getDp_while two_page_world 5 "u" "D1" "A" (Some open_dp_cursor) 0 [] []
    = (Return (concat (map fst dp_pages)), t')
    /\ length t' = 2%nat /\ requests t' = 2%nat.
Proof.
  apply (getDp_pagination two_page_world "u" "D1" "A" dp_pages open_dp_cursor 0 [] 5 []).
  - discriminate.
  - reflexivity.
  - split; [intros r; eexists _, _; split; reflexivity|].
    split; [reflexivity|].
    split; [intros r; eexists _, _; split; reflexivity|].
    split; [reflexivity|exact I].
  - cbn. lia.
Defined.

Lemma getLoadEntities_pages_witness :
  getLoadEntities two_entity_world sample_cfg 5
    {| lo_onPrem := None; lo_clusters := Some ["South"] |} []
  = (Return (filter (in_clusters ["South"]) [entity_north; entity_south]),
     load_page_requests sample_cfg (load_base_url sample_cfg None) 1 2).
Proof.
  apply (proj2 (getLoadEntities_pages two_entity_world sample_cfg entity_pages None 5 []
                  ltac:(discriminate)
                  ltac:(split; [intros r; eexists _, _; split; reflexivity|];
                        split; [reflexivity|];
                        split; [intros r; eexists _, _; split; reflexivity|];
                        split; [reflexivity|exact I])
                  ltac:(cbn; lia))).
Defined.

Lemma load_loop_never_ends_witness :
  load_while empty_page_world sample_cfg 7 "u" true 1 0 [] None []
  = (OutOfFuel, load_page_requests sample_cfg "u" 1 7).
Proof.
  apply (load_loop_never_ends empty_page_world sample_cfg "u" (Int 1) []).
  - intros k r. eexists _, _. split; reflexivity.
  - reflexivity.
Defined.

Lemma getFirstDp_single_attempt_witness :
  getFirstDp closed_cursor_world sample_cfg (first_options "D1" (Some ["A"]) 1 true false) []
  = (Return [],
     [EvRequest (devices_request sample_cfg false);
      EvRequest (first_dp_request sample_cfg (first_options "D1" (Some ["A"]) 1 true false)
                   ["A"] (Int sample_ms))]).
Proof.
  apply (getFirstDp_single_attempt (H := SampleHost) closed_cursor_world sample_cfg
           (first_options "D1" (Some ["A"]) 1 true false) ["A"] (Int sample_ms) []).
  - reflexivity.
  - eexists _, _. split; [reflexivity|]. constructor.
  - reflexivity.
  - reflexivity.
  - intros k r. exact I.
Defined.

Lemma getDp_empty_sensor_list_witness :
  getDp closed_cursor_world sample_cfg 20 (dp_options "D1" (Some []) 1 true false) []
  = (Return [], [EvRequest (devices_request sample_cfg false)]).
Proof.
  apply (getDp_empty_sensor_list (H := SampleHost) closed_cursor_world sample_cfg 20
           (dp_options "D1" (Some []) 1 true false) []).
  - reflexivity.
  - eexists _, _. split; [reflexivity|]. constructor.
  - reflexivity.
Defined.

Lemma formatSensorData_rows_witness :
  map fst (point 1717180000 "A" 5) = ["time"; "sensor"; "value"]
  /\ (obj_get (point 1717180000 "A" 5) "value" = VNull
      \/ truthy (obj_get (point 1717180000 "A" 5) "value") = true)
  /\ (obj_get (point 1717180000 "A" 5) "time" = VStr ""
      \/ truthy (obj_get (point 1717180000 "A" 5) "time") = true)
  /\ (obj_get (point 1717180000 "A" 5) "sensor" = VStr ""
      \/ truthy (obj_get (point 1717180000 "A" 5) "sensor") = true).
Proof.
  apply (formatSensorData_rows one_point).
  assert (E : formatSensorData one_point = [point 1717180000 "A" 5]) by reflexivity.
  rewrite E. constructor.
Defined.



Lemma publishEvent_names_override_tags_witness :
  publishEvent event_world sample_cfg "/publish" "/categories" named_event []
  = publishEvent event_world sample_cfg "/publish" "/categories"
      {| pe_message := "m"; pe_metaData := ""; pe_hoverData := "";
         pe_createdOn := None; pe_eventTagsList := None;
         pe_eventNamesList := Some ["alarm"]; pe_title := None; pe_onPrem := None |} [].
Proof.
  apply (publishEvent_names_override_tags event_world sample_cfg "/publish" "/categories"
           named_event "alarm" [] None []).
  reflexivity.
Defined.

(** A platform that answers the category request with an HTTP error. *)
Lemma publishEvent_categories_unavailable_witness :
  publishEvent failing_category_world sample_cfg "/publish" "/categories" named_event []
  = (Raise (Error "Tag 'alarm' not found in data."),
     [EvRequest (ReqEventCategories (formatUrl sample_cfg "/categories" None))]).
Proof.
  apply (proj1 (publishEvent_categories_unavailable failing_category_world sample_cfg
                  "/publish" "/categories" named_event "alarm" [] [] eq_refl)).
  reflexivity.
Defined.

Lemma publishEvent_resolves_names_witness :
  publishEvent event_world sample_cfg "/publish" "/categories" named_event []
  = (Return (VStr "published"),
     [EvRequest (ReqEventCategories (formatUrl sample_cfg "/categories" None));
      EvRequest (ReqPublishEvent (formatUrl sample_cfg "/publish" None)
                   (publish_payload named_event ["64f0"]))])
  /\ length ["64f0"] = 1%nat.
Proof.
  apply (publishEvent_resolves_names event_world sample_cfg "/publish" "/categories"
           named_event "alarm" [] [alarm] 200 200 (VStr "published") []);
    reflexivity.
Defined.

Lemma alias_row_long_format_witness :
  alias_row (build_aliasMap md_temp) (point 1717180000 "S1" 5)
  = plain (obj_set "sensor" (VStr "Temp") (point 1717180000 "S1" 5)).
Proof.
  assert (E : map fst (point 1717180000 "S1" 5) = ["time"; "sensor"; "value"])
    by reflexivity.
  apply (alias_row_long_format (build_aliasMap md_temp) (point 1717180000 "S1" 5)).
  - rewrite E. repeat constructor; set_solver.
  - rewrite E. intros k Hk.
    repeat (apply elem_of_cons in Hk as [->|Hk]; [reflexivity|]). inversion Hk.
  - rewrite E. intros k Hk.
    repeat (apply elem_of_cons in Hk as [->|Hk]; [intros; try discriminate; reflexivity|]).
    inversion Hk.
Defined.


Lemma calibrate_only_value_witness :
  obj_get (point 1717180000 "A" 11) "sensor" = obj_get (point 1717180000 "A" 5) "sensor".
Proof.
  apply (proj1 (calibrate_only_value md_clamped (point 1717180000 "A" 5)
                  (point 1717180000 "A" 11) eq_refl) "sensor").
  discriminate.
Defined.

Lemma influx_recovers_after_failure_witness :
  exists t' : trace,
    influx_while flaky_world 5 "u" "D1" "A" (Some open_influx_cursor) 0 [] one_request
    = (Return [point 1717180000 "A" 5],
       (one_request
          ++ EvRequest (influx_request "u" "D1" "A" open_influx_cursor)
          :: EvSleep 2000 :: t')%list)
    /\ length t' = 1%nat /\ requests t' = 1%nat.
Proof.
  apply (influx_recovers_after_failure flaky_world "u" "D1" "A"
           [([point 1717180000 "A" 5], None)] open_influx_cursor 0 [] 5 one_request).
  - reflexivity.
  - exact I.
  - discriminate.
  - reflexivity.
  - split; [intros r; eexists _, _; split; reflexivity|].
    split; [reflexivity|exact I].
  - cbn. lia.
Defined.


Lemma getDp_collects_sensors_witness :
  getDp reading_world sample_cfg 5 two_sensor_options []
  = (Return [plain (point 1717180320 "A" 4); plain (point 1717180000 "A" 5);
             plain (point 1717180320 "B" 7)],
     [EvRequest (devices_request sample_cfg false);
      EvRequest (ReqDp "https://datads.iosense.io/api/apiLayer/getLimitedDataMultipleSensors/"
                   "D1" "A" (VNum (Int 1717180320)) (VNum (Int 1)));
      EvRequest (ReqDp "https://datads.iosense.io/api/apiLayer/getLimitedDataMultipleSensors/"
                   "D1" "A" (VNum (Int 1717180000)) (VNum (Int 1)));
      EvRequest (ReqDp "https://datads.iosense.io/api/apiLayer/getLimitedDataMultipleSensors/"
                   "D1" "B" (VNum (Int 1717180320)) (VNum (Int 1)))]).
Proof.
  refine (proj1 (getDp_collects_sensors (H := SampleHost) reading_world sample_cfg 5
                   two_sensor_options [] ["A"; "B"] reading_runs (Int sample_ms)
                   _ _ _ _ _ _ _ _)).
  - reflexivity.
  - eexists _, _. split; [reflexivity|]. constructor.
  - reflexivity.
  - reflexivity.
  - reflexivity.
  - reflexivity.
  - split; [discriminate|]. split.
    + split; [eexists _, _; split; reflexivity|].
      split; [reflexivity|].
      split; [eexists _, _; split; reflexivity|].
      split; [reflexivity|exact I].
    + split; [discriminate|]. split; [|exact I].
      split; [eexists _, _; split; reflexivity|].
      split; [reflexivity|exact I].
  - constructor; [cbn; lia|]. constructor; [cbn; lia|]. constructor.
Defined.

Lemma dataQuery_collects_pages_witness :
  dataQuery reading_world sample_cfg 5 two_sensor_query []
  = (Return [plain [("timestamp", VNum (Int 1717180320));
                    ("A", VNum (Int 4)); ("B", VNum (Int 7))];
             plain [("timestamp", VNum (Int 1717180319)); ("A", VNum (Int 5))]],
     [EvRequest (devices_request sample_cfg false);
      EvRequest (ReqInflux "https://datads.iosense.io/api/apiLayer/getAllData" "D1" "A,B"
                   (VNum (Int (sample_ms - 1))) (VNum (Int sample_ms)) 1000);
      EvRequest (ReqInflux "https://datads.iosense.io/api/apiLayer/getAllData" "D1" "A,B"
                   (VNum (Int (sample_ms - 1))) (VNum (Int (sample_ms - 1))) 1000)]).
Proof.
  refine (proj1 (dataQuery_collects_pages (H := SampleHost) reading_world sample_cfg 5
                   two_sensor_query [] "A" ["B"] reading_pages
                   (Int (sample_ms - 1)) (Int sample_ms) _ _ _ _ _ _ _ _ _)).
  - reflexivity.
  - reflexivity.
  - reflexivity.
  - eexists _, _. split; [reflexivity|]. constructor.
  - reflexivity.
  - reflexivity.
  - discriminate.
  - split; [eexists _, _; split; reflexivity|].
    split; [reflexivity|].
    split; [eexists _, _; split; reflexivity|].
    split; [reflexivity|exact I].
  - cbn. lia.
Defined.
